(** * nutriai-scraper: the text-candidate classification and field extraction
    of the page callbacks, embedded from the JavaScript sources

    - [unlimited-scraper.js]: [extractAllRestaurantsFromArea],
      [extractCompleteRealMenu];
    - the complete-menu scraper: [extractAllMenuItems];
    - [comprehensive-scraper.js]: [scrapePlatform].

    A JavaScript string is the list of its UTF-16 code units.  A regular
    expression literal is kept as the text between its slashes and read by
    [Regex.parse]; in particular a doubled backslash in a literal stands,
    as in JavaScript, for one backslash character of the subject. *)

From Stdlib Require Import ZArith Bool Lia String Ascii QArith List.
Import ListNotations.

Local Open Scope Z_scope.
Local Open Scope list_scope.

Set Implicit Arguments.

(* ===================================================================== *)
(** ** JavaScript strings and numbers *)
(* ===================================================================== *)

Module JS.

(** A string value: UTF-16 code units. *)
Definition jsstring := list Z.

(** Reads a (UTF-8 encoded) literal of this file as a JavaScript string. *)
Fixpoint utf16_of_bytes (bs : list Z) : jsstring :=
  match bs with
  | [] => []
  | b :: t =>
    if b <? 128 then b :: utf16_of_bytes t
    else match t with
      | [] => []
      | b2 :: t2 =>
        if b <? 224 then
          Z.lor (Z.shiftl (Z.land b 31) 6) (Z.land b2 63) :: utf16_of_bytes t2
        else match t2 with
          | [] => []
          | b3 :: t3 =>
            if b <? 240 then
              Z.lor (Z.shiftl (Z.land b 15) 12)
                    (Z.lor (Z.shiftl (Z.land b2 63) 6) (Z.land b3 63))
              :: utf16_of_bytes t3
            else match t3 with
              | [] => []
              | b4 :: t4 =>
                let cp := Z.lor (Z.shiftl (Z.land b 7) 18)
                            (Z.lor (Z.shiftl (Z.land b2 63) 12)
                               (Z.lor (Z.shiftl (Z.land b3 63) 6) (Z.land b4 63))) in
                let v := cp - 65536 in
                (55296 + Z.shiftr v 10) :: (56320 + Z.land v 1023)
                :: utf16_of_bytes t4
              end
          end
      end
  end.

Definition utf16 (s : string) : jsstring :=
  utf16_of_bytes (map (fun a => Z.of_nat (nat_of_ascii a)) (list_ascii_of_string s)).
Arguments utf16 s%_string.

Definition jsstring_eqb (a b : jsstring) : bool :=
  if list_eq_dec Z.eq_dec a b then true else false.

(** WhiteSpace and LineTerminator code units (what [trim] strips). *)
Definition isWhiteSpace (c : Z) : bool :=
  ((9 <=? c) && (c <=? 13)) || (c =? 32) || (c =? 160) || (c =? 5760)
  || ((8192 <=? c) && (c <=? 8202)) || (c =? 8232) || (c =? 8233)
  || (c =? 8239) || (c =? 8287) || (c =? 12288) || (c =? 65279).

Fixpoint trimStart (s : jsstring) : jsstring :=
  match s with
  | c :: t => if isWhiteSpace c then trimStart t else s
  | [] => []
  end.

Definition trimEnd (s : jsstring) : jsstring := rev (trimStart (rev s)).
Definition trim (s : jsstring) : jsstring := trimEnd (trimStart s).

(** [s.substring(a, b)] for [0 <= a <= b], and [s.substring(a)]. *)
Definition substring (a b : nat) (s : jsstring) : jsstring :=
  firstn (b - a) (skipn a s).
Definition substring_from (a : nat) (s : jsstring) : jsstring := skipn a s.

Fixpoint startsWith (p s : jsstring) : bool :=
  match p, s with
  | [], _ => true
  | a :: p', b :: s' => (a =? b) && startsWith p' s'
  | _ :: _, [] => false
  end.

(** [s.includes(p)]. *)
Fixpoint includes (p s : jsstring) : bool :=
  startsWith p s || match s with [] => false | _ :: t => includes p t end.

(** [s.split(sep)] for a non-empty separator string. *)
Fixpoint split_go (sep s cur : jsstring) (skip : nat) : list jsstring :=
  match s with
  | [] => [rev cur]
  | x :: t =>
    match skip with
    | S k => split_go sep t cur k
    | O => if startsWith sep s
           then rev cur :: split_go sep t [] (length sep - 1)
           else split_go sep t (x :: cur) 0
    end
  end.
Definition split (sep s : jsstring) : list jsstring := split_go sep s [] 0.

(** [a.join(sep)]. *)
Fixpoint join (sep : jsstring) (l : list jsstring) : jsstring :=
  match l with
  | [] => []
  | [x] => x
  | x :: t => x ++ sep ++ join sep t
  end.

(** [String.prototype.toLowerCase], one code unit at a time.  The ASCII
    capitals, and the two code units outside ASCII whose lower-case form
    holds an ASCII letter (U+0130 and U+212A), are mapped; a code unit whose
    lower-case form lies outside ASCII is kept as it is. *)
Definition lower_unit (c : Z) : jsstring :=
  if (65 <=? c) && (c <=? 90) then [c + 32]
  else if c =? 304 then [105; 775]
  else if c =? 8490 then [107]
  else [c].
Definition toLowerCase (s : jsstring) : jsstring := flat_map lower_unit s.

(** Number values, as far as the callbacks produce them: a decimal read
    from text is kept as the rational it denotes (the rounding to a double
    is not modelled). *)
Inductive jsnum :=
| NaN
| Infinity (negative : bool)
| Num (q : Q).

(** [a === b] on numbers. *)
Definition num_strict_eq (a b : jsnum) : bool :=
  match a, b with
  | Num x, Num y => Qeq_bool x y
  | Infinity s, Infinity t => Bool.eqb s t
  | _, _ => false
  end.

(** [a === b] where each side is a number or [null]. *)
Definition strict_eq (a b : option jsnum) : bool :=
  match a, b with
  | None, None => true
  | Some x, Some y => num_strict_eq x y
  | _, _ => false
  end.

Definition isDigit (c : Z) : bool := (48 <=? c) && (c <=? 57).

(** The longest run of decimal digits in front of [s]: its value, its
    length, and what follows. *)
Fixpoint digits (s : jsstring) (acc : Z) (n : nat) : Z * nat * jsstring :=
  match s with
  | c :: t => if isDigit c then digits t (10 * acc + (c - 48)) (S n) else (acc, n, s)
  | [] => (acc, n, s)
  end.

Definition pow10 (e : Z) : Q :=
  if 0 <=? e then inject_Z (10 ^ e) else / inject_Z (10 ^ (- e)).

(** The optional ExponentPart after a decimal literal. *)
Definition exponent (s : jsstring) : Z :=
  match s with
  | c :: t =>
    if (c =? 101) || (c =? 69) then
      match t with
      | 43 :: t' => let '(v, n, _) := digits t' 0 0%nat in
                    if Nat.eqb n 0 then 0 else v
      | 45 :: t' => let '(v, n, _) := digits t' 0 0%nat in
                    if Nat.eqb n 0 then 0 else - v
      | _ => let '(v, n, _) := digits t 0 0%nat in
             if Nat.eqb n 0 then 0 else v
      end
    else 0
  | [] => 0
  end.

(** The value of the longest StrDecimalLiteral (without its sign) in front
    of [s], if there is one. *)
Definition unsigned_decimal (s : jsstring) : option jsnum :=
  if startsWith (utf16 "Infinity") s then Some (Infinity false)
  else
    let '(ip, ni, r1) := digits s 0 0%nat in
    match r1 with
    | 46 :: r2 =>
      let '(fp, nf, r3) := digits r2 0 0%nat in
      if Nat.eqb ni 0 && Nat.eqb nf 0 then None
      else Some (Num ((inject_Z ip + inject_Z fp * pow10 (- Z.of_nat nf))
                      * pow10 (exponent r3)))
    | _ =>
      if Nat.eqb ni 0 then None
      else Some (Num (inject_Z ip * pow10 (exponent r1)))
    end.

Definition negate (x : jsnum) : jsnum :=
  match x with
  | NaN => NaN
  | Infinity s => Infinity (negb s)
  | Num q => Num (- q)
  end.

(** [parseFloat(s)]. *)
Definition parseFloat (s : jsstring) : jsnum :=
  match trimStart s with
  | 45 :: t => match unsigned_decimal t with Some x => negate x | None => NaN end
  | 43 :: t => match unsigned_decimal t with Some x => x | None => NaN end
  | t => match unsigned_decimal t with Some x => x | None => NaN end
  end.

Definition hexValue (c : Z) : option Z :=
  if isDigit c then Some (c - 48)
  else if (97 <=? c) && (c <=? 102) then Some (c - 87)
  else if (65 <=? c) && (c <=? 70) then Some (c - 55)
  else None.

Fixpoint hexDigits (s : jsstring) (acc : Z) (n : nat) : Z * nat :=
  match s with
  | c :: t => match hexValue c with
              | Some v => hexDigits t (16 * acc + v) (S n)
              | None => (acc, n)
              end
  | [] => (acc, n)
  end.

(** The magnitude [parseInt] reads once white space and sign are gone. *)
Definition unsigned_integer (s : jsstring) : jsnum :=
  let decimal := let '(v, n, _) := digits s 0 0%nat in
                 if Nat.eqb n 0 then NaN else Num (inject_Z v) in
  match s with
  | 48 :: x :: h =>
    if (x =? 120) || (x =? 88) then
      let '(v, n) := hexDigits h 0 0%nat in
      if Nat.eqb n 0 then NaN else Num (inject_Z v)
    else decimal
  | _ => decimal
  end.

(** [parseInt(s)], without a radix argument. *)
Definition parseInt (s : jsstring) : jsnum :=
  match trimStart s with
  | 45 :: t => negate (unsigned_integer t)
  | 43 :: t => unsigned_integer t
  | t => unsigned_integer t
  end.

End JS.


(* ===================================================================== *)
(** ** Regular expressions *)
(* ===================================================================== *)

Module Regex.
Import JS.

(** The pattern syntax the literals of the program use. *)
Inductive regex :=
| Empty
| Chr (c : Z)
| Dot
| Class (negated : bool) (ranges : list (Z * Z))
| Bol
| Eol
| Seq (r1 r2 : regex)
| Alt (r1 r2 : regex)
| Rep (lo : nat) (hi : option nat) (r : regex)
| Group (n : nat) (r : regex).

(** *** Reading a literal *)

Definition seq (a r : regex) : regex :=
  match r with Empty => a | _ => Seq a r end.

Definition digit_ranges : list (Z * Z) := [(48, 57)].
Definition word_ranges : list (Z * Z) := [(48, 57); (65, 90); (95, 95); (97, 122)].
Definition space_ranges : list (Z * Z) :=
  [(9, 13); (32, 32); (160, 160); (5760, 5760); (8192, 8202); (8232, 8233);
   (8239, 8239); (8287, 8287); (12288, 12288); (65279, 65279)].

(** A character-class escape [\d], [\s], [\w]: its ranges. *)
Definition class_escape (c : Z) : option (list (Z * Z)) :=
  if c =? 100 then Some digit_ranges
  else if c =? 115 then Some space_ranges
  else if c =? 119 then Some word_ranges
  else None.

(** The character an escape [\c] stands for inside or outside a class;
    [None] for the escapes that are not read here. *)
Definition char_escape (c : Z) : option Z :=
  if c =? 110 then Some 10
  else if c =? 114 then Some 13
  else if c =? 116 then Some 9
  else if ((48 <=? c) && (c <=? 57)) || ((65 <=? c) && (c <=? 90))
          || ((97 <=? c) && (c <=? 122)) then None
  else Some c.

(** The members of a class, after the opening bracket and the optional
    caret, up to the closing bracket. *)
Fixpoint parse_class (fuel : nat) (s : jsstring) (acc : list (Z * Z))
  : option (list (Z * Z) * jsstring) :=
  match fuel with
  | O => None
  | S f =>
    match s with
    | [] => None
    | 93 :: t => Some (rev acc, t)
    | 92 :: c :: t =>
      match class_escape c with
      | Some rs => parse_class f t (rev rs ++ acc)
      | None =>
        match char_escape c with
        | Some x =>
          match t with
          | 45 :: 93 :: _ => parse_class f t ((x, x) :: acc)
          | 45 :: 92 :: _ => None
          | 45 :: y :: t' => parse_class f t' ((x, y) :: acc)
          | _ => parse_class f t ((x, x) :: acc)
          end
        | None => None
        end
      end
    | 92 :: [] => None
    | x :: t =>
      match t with
      | 45 :: 93 :: _ => parse_class f t ((x, x) :: acc)
      | 45 :: 92 :: _ => None
      | 45 :: y :: t' => parse_class f t' ((x, y) :: acc)
      | _ => parse_class f t ((x, x) :: acc)
      end
    end
  end.

(** A quantifier after an atom, if there is one. *)
Definition parse_quant (s : jsstring) : option (nat * option nat * jsstring) :=
  match s with
  | 42 :: t => Some (0%nat, None, t)
  | 43 :: t => Some (1%nat, None, t)
  | 63 :: t => Some (0%nat, Some 1%nat, t)
  | 123 :: t =>
    let '(lo, n, r) := digits t 0 0%nat in
    if Nat.eqb n 0 then None
    else match r with
      | 125 :: r' => Some (Z.to_nat lo, Some (Z.to_nat lo), r')
      | 44 :: 125 :: r' => Some (Z.to_nat lo, None, r')
      | 44 :: r' =>
        let '(hi, m, r'') := digits r' 0 0%nat in
        if Nat.eqb m 0 then None
        else match r'' with
          | 125 :: r3 => Some (Z.to_nat lo, Some (Z.to_nat hi), r3)
          | _ => None
          end
      | _ => None
      end
  | _ => None
  end.

Definition quantified (a : regex) (s : jsstring) : regex * jsstring :=
  match parse_quant s with
  | Some (lo, hi, t) => (Rep lo hi a, t)
  | None => (a, s)
  end.

(** Disjunction and Alternative of the pattern grammar; [g] is the number
    the next capturing parenthesis gets.  An alternative ends at a bar, at a
    closing parenthesis or at the end of the literal. *)
Fixpoint parse_disj (fuel : nat) (s : jsstring) (g : nat)
  : option (regex * jsstring * nat) :=
  match fuel with
  | O => None
  | S f =>
    match parse_alt f s g with
    | Some (r1, 124 :: t, g1) =>
      match parse_disj f t g1 with
      | Some (r2, s2, g2) => Some (Alt r1 r2, s2, g2)
      | None => None
      end
    | other => other
    end
  end
with parse_alt (fuel : nat) (s : jsstring) (g : nat)
  : option (regex * jsstring * nat) :=
  match fuel with
  | O => None
  | S f =>
    let continue (a : regex) (t : jsstring) (g' : nat) :=
      let '(qa, t') := quantified a t in
      match parse_alt f t' g' with
      | Some (r, s', g'') => Some (seq qa r, s', g'')
      | None => None
      end in
    match s with
    | [] => Some (Empty, s, g)
    | 124 :: _ => Some (Empty, s, g)
    | 41 :: _ => Some (Empty, s, g)
    | 46 :: t => continue Dot t g
    | 94 :: t => continue Bol t g
    | 36 :: t => continue Eol t g
    | 92 :: c :: t =>
      match class_escape c with
      | Some rs => continue (Class false rs) t g
      | None =>
        match char_escape c with
        | Some x => continue (Chr x) t g
        | None => None
        end
      end
    | 92 :: [] => None
    | 91 :: 94 :: t =>
      match parse_class f t [] with
      | Some (rs, t') => continue (Class true rs) t' g
      | None => None
      end
    | 91 :: t =>
      match parse_class f t [] with
      | Some (rs, t') => continue (Class false rs) t' g
      | None => None
      end
    | 40 :: 63 :: 58 :: t =>
      match parse_disj f t g with
      | Some (r, 41 :: t', g') => continue r t' g'
      | _ => None
      end
    | 40 :: 63 :: _ => None
    | 40 :: t =>
      match parse_disj f t (S g) with
      | Some (r, 41 :: t', g') => continue (Group g r) t' g'
      | _ => None
      end
    | 42 :: _ => None
    | 43 :: _ => None
    | 63 :: _ => None
    | 123 :: _ => None
    | c :: t => continue (Chr c) t g
    end
  end.

(** *** Matching

    A match state: the index reached, the rest of the subject from there,
    and the captures so far (latest first). *)
Record mstate := MState {
  pos : nat;
  rest : jsstring;
  caps : list (nat * jsstring)
}.

(** Canonicalize of the [i] flag.  Only the ASCII letters are folded: the
    characters outside ASCII that the literals of the program name have no
    case, and a subject character outside ASCII never folds to an ASCII one. *)
Definition canon (ic : bool) (c : Z) : Z :=
  if ic && (97 <=? c) && (c <=? 122) then c - 32 else c.

Definition swap_case (c : Z) : Z :=
  if (97 <=? c) && (c <=? 122) then c - 32
  else if (65 <=? c) && (c <=? 90) then c + 32
  else c.

Definition in_ranges (rs : list (Z * Z)) (c : Z) : bool :=
  existsb (fun r => (fst r <=? c) && (c <=? snd r)) rs.

Definition class_matches (ic : bool) (negated : bool) (rs : list (Z * Z)) (c : Z) : bool :=
  xorb negated (in_ranges rs c || (ic && in_ranges rs (swap_case c))).

Definition isLineTerminator (c : Z) : bool :=
  (c =? 10) || (c =? 13) || (c =? 8232) || (c =? 8233).

(** Consumes one character satisfying [p]. *)
Definition one (p : Z -> bool) (st : mstate) : list mstate :=
  match rest st with
  | x :: t => if p x then [MState (S (pos st)) t (caps st)] else []
  | [] => []
  end.

(** The greedy quantifier with no lower bound left: an iteration that
    consumes nothing is refused. *)
Fixpoint rep_star (m : mstate -> list mstate) (hi : option nat) (fuel : nat)
    (st : mstate) : list mstate :=
  match hi with
  | Some O => [st]
  | _ =>
    match fuel with
    | O => [st]
    | S f =>
      flat_map (fun st' =>
                  if (length (rest st') <? length (rest st))%nat
                  then rep_star m (option_map pred hi) f st'
                  else [])
               (m st)
      ++ [st]
    end
  end.

Fixpoint rep_min (m : mstate -> list mstate) (lo : nat) (hi : option nat)
    (st : mstate) : list mstate :=
  match lo with
  | O => rep_star m hi (length (rest st)) st
  | S k =>
    match hi with
    | Some O => [st]
    | _ => flat_map (rep_min m k (option_map pred hi)) (m st)
    end
  end.

(** All the ways [r] matches in front of a state, in the order in which
    the backtracking matcher of the language tries them: the head of the
    list is the match it returns.  (No literal of the program has a
    capturing group under a quantifier, so captures are not reset between
    iterations.) *)
Fixpoint ms (ic : bool) (r : regex) (st : mstate) : list mstate :=
  match r with
  | Empty => [st]
  | Chr c => one (fun x => canon ic x =? canon ic c) st
  | Dot => one (fun x => negb (isLineTerminator x)) st
  | Class neg rs => one (class_matches ic neg rs) st
  | Bol => if Nat.eqb (pos st) 0 then [st] else []
  | Eol => match rest st with [] => [st] | _ => [] end
  | Seq r1 r2 => flat_map (ms ic r2) (ms ic r1 st)
  | Alt r1 r2 => ms ic r1 st ++ ms ic r2 st
  | Rep lo hi r1 => rep_min (ms ic r1) lo hi st
  | Group n r1 =>
    map (fun st' => MState (pos st') (rest st')
                      ((n, firstn (pos st' - pos st) (rest st)) :: caps st'))
        (ms ic r1 st)
  end.

(** The result of a successful [exec]: where the match starts, the matched
    text, and the captures. *)
Record match_result := MatchResult {
  index : nat;
  matched : jsstring;
  groups : list (nat * jsstring)
}.

(** The leftmost match at or after index [p], [s] being the subject from
    [p] on. *)
Fixpoint exec_from (ic : bool) (r : regex) (p : nat) (s : jsstring)
  : option match_result :=
  match ms ic r (MState p s []) with
  | st :: _ => Some (MatchResult p (firstn (pos st - p) s) (caps st))
  | [] => match s with
          | [] => None
          | _ :: t => exec_from ic r (S p) t
          end
  end.

(** The pattern of a literal, from the text between its slashes. *)
Definition parse (src : string) : option regex :=
  let s := utf16 src in
  match parse_disj (2 * length s + 2) s 1 with
  | Some (r, [], _) => Some r
  | _ => None
  end.
Arguments parse src%_string.

(** A regular expression object: its pattern and its [i] flag.  A literal
    that cannot be read matches nothing. *)
Record RegExp := { pattern : regex; ignoreCase : bool }.

Definition literal (src : string) (i : bool) : RegExp :=
  {| pattern := match parse src with Some r => r | None => Class false [] end;
     ignoreCase := i |}.
Arguments literal src%_string i.


(** [re.exec(s)] and [s.match(re)] for a regular expression without the
    [g] flag; with the flag, the first element of [s.match(re)]. *)
Definition exec (re : RegExp) (s : jsstring) : option match_result :=
  exec_from (ignoreCase re) (pattern re) 0 s.

(** [re.test(s)]. *)
Definition test (re : RegExp) (s : jsstring) : bool :=
  match exec re s with Some _ => true | None => false end.

(** [m[n]] for a capturing group that took part in the match. *)
Definition group (n : nat) (m : match_result) : option jsstring :=
  option_map snd (find (fun c => Nat.eqb (fst c) n) (groups m)).

(** [s.replace(re, by)] for a regular expression with the [g] flag: every
    match, from left to right, is replaced; [skip] counts the characters of
    the current match still to be dropped. *)
Fixpoint replace_go (ic : bool) (r : regex) (by_ : jsstring) (p : nat)
    (s : jsstring) (skip : nat) : jsstring :=
  match s with
  | [] =>
    match skip, ms ic r (MState p [] []) with
    | O, _ :: _ => by_
    | _, _ => []
    end
  | x :: t =>
    match skip with
    | S k => replace_go ic r by_ (S p) t k
    | O =>
      match ms ic r (MState p s []) with
      | st :: _ =>
        match (pos st - p)%nat with
        | O => by_ ++ x :: replace_go ic r by_ (S p) t 0
        | S k => by_ ++ replace_go ic r by_ (S p) t k
        end
      | [] => x :: replace_go ic r by_ (S p) t 0
      end
    end
  end.

Definition replace_all (re : RegExp) (by_ : jsstring) (s : jsstring) : jsstring :=
  replace_go (ignoreCase re) (pattern re) by_ 0 s 0.

End Regex.


(* ===================================================================== *)
(** ** unlimited-scraper.js *)
(* ===================================================================== *)

Module Unlimited.
Import JS Regex.

(** The string literal the callbacks split on is written with a doubled
    backslash in the source: it denotes the two characters backslash and n. *)
Definition line_separator : jsstring := utf16 "\n".

(** *** [extractCompleteRealMenu]: the callback run on every element *)

Definition foodKeywords : RegExp := Eval vm_compute in
  literal "biryani|curry|dal|rice|naan|roti|chapati|paratha|kulcha|pizza|burger|pasta|noodles|sandwich|soup|salad|dessert|cake|ice cream|juice|lassi|tea|coffee|chicken|mutton|paneer|fish|prawn|crab|lobster|beef|lamb|pork|egg|vegetable|potato|cauliflower|spinach|okra|peas|beans|corn|carrot|onion|tomato|garlic|ginger|chili|pepper|spice|masala|tandoor|grilled|fried|roasted|steamed|boiled|baked|stuffed|marinated|glazed|crispy|creamy|spicy|mild|sweet|sour|bitter|salty|tangy|smoky|fragrant|aromatic|fresh|hot|cold|warm|chilled|frozen" true.

Definition priceKeywords : RegExp := Eval vm_compute in
  literal "₹|rs|rupees|dollar|\\$|aed|dirham|sar|riyal|price|cost|charge|rate|bill|amount|total|per plate|per serving|per piece|per bowl|per glass|per cup|starting from|starting at|from|only|just|mere|budget|affordable|premium|expensive|cheap|value|deal|offer|discount|save|free|complimentary" true.

Definition excludeKeywords : RegExp := Eval vm_compute in
  literal "login|signup|register|sign in|sign up|download|install|app store|play store|home|about us|contact us|privacy policy|terms|conditions|help|support|faq|career|job|blog|news|press|media|investor|partner|advertise|business|merchant|delivery partner|restaurant partner|cart|checkout|payment|order history|account|profile|settings|logout|search|filter|sort|category|collection|cuisine|location|area|city|explore|discover|trending|popular|recommended|featured|top rated|best|new|offer|deal|discount|coupon|promo|code|free delivery|cashback|wallet|points|reward|refer|invite|share|like|follow|subscribe|notification|alert|banner|advertisement|ad|sponsored|popup|modal|overlay|loading|spinner|error|404|500|maintenance|coming soon|under construction|footer|header|navigation|navbar|sidebar|breadcrumb|pagination|page|next|previous|back|continue|proceed|submit|cancel|close|ok|yes|no|accept|decline|agree|disagree|select|choose|pick|option|dropdown|checkbox|radio|button|link|tab|menu|submenu|toggle|collapse|expand|show|hide|view|display|render|load|refresh|reload|update|edit|delete|remove|add|create|save|copy|paste|cut|print|export|import|upload|download|attachment|file|image|photo|video|audio|document|pdf|excel|word|powerpoint|zip|rar|archive" true.

Definition nameCleanChars : RegExp := Eval vm_compute in
  literal "[^a-zA-Z0-9\\s'&.,-]" false.

Definition nameCleanSpaces : RegExp := Eval vm_compute in
  literal "\\s+" false.

Definition pricePatterns : list RegExp := Eval vm_compute in
  [ literal "₹\\s*(\\d+(?:\\.\\d{1,2})?)" true;
    literal "rs\\.?\\s*(\\d+(?:\\.\\d{1,2})?)" true;
    literal "\\$\\s*(\\d+(?:\\.\\d{1,2})?)" true;
    literal "aed\\s*(\\d+(?:\\.\\d{1,2})?)" true;
    literal "sar\\s*(\\d+(?:\\.\\d{1,2})?)" true;
    literal "(\\d+(?:\\.\\d{1,2})?)\\s*₹" true;
    literal "(\\d+(?:\\.\\d{1,2})?)\\s*rs" true;
    literal "(\\d+(?:\\.\\d{1,2})?)\\s*only" true ].

(** The loop over [pricePatterns]: the first pattern with a match decides,
    and its first group goes through [parseFloat]. *)
Fixpoint price_loop (patterns : list RegExp) (text : jsstring) : option jsnum :=
  match patterns with
  | [] => None
  | pattern :: others =>
    match exec pattern text with
    | Some m =>
      Some (match group 1 m with Some g => parseFloat g | None => NaN end)
    | None => price_loop others text
    end
  end.

Definition extractPrice (text : jsstring) : option jsnum :=
  price_loop pricePatterns text.

Definition starterPattern : RegExp := Eval vm_compute in
  literal "starter|appetizer|soup|salad|tikka|kebab|samosa|pakora|chaat|cutlet|finger food|mezze|tapas|dim sum|spring roll|dumpling" true.
Definition dessertPattern : RegExp := Eval vm_compute in
  literal "dessert|sweet|ice cream|cake|kulfi|gulab jamun|rasmalai|kheer|halwa|payasam|rabri|falooda|brownie|pastry|mousse|tart|pie|cheesecake|pudding|custard|jelly|sorbet|gelato" true.
Definition ricePattern : RegExp := Eval vm_compute in
  literal "rice|biryani|pulao|fried rice|jeera rice|coconut rice|lemon rice|steamed rice|brown rice|basmati" true.
Definition breadPattern : RegExp := Eval vm_compute in
  literal "bread|naan|roti|paratha|kulcha|chapati|puri|bhatura|kulcha|pita|tortilla|baguette|ciabatta|focaccia" true.
Definition curryPattern : RegExp := Eval vm_compute in
  literal "dal|curry|gravy|sabji|subzi|korma|masala|kadai|palak|matter|aloo|gobi|bhindi|baingan" true.
Definition beveragePattern : RegExp := Eval vm_compute in
  literal "drink|beverage|juice|lassi|tea|coffee|shake|smoothie|water|soda|cola|lemonade|mojito|cocktail|wine|beer|whiskey|vodka|gin|rum|champagne|mocktail|fresh lime|coconut water" true.
Definition pizzaPattern : RegExp := Eval vm_compute in
  literal "pizza" true.
Definition burgerPattern : RegExp := Eval vm_compute in
  literal "burger" true.
Definition pastaPattern : RegExp := Eval vm_compute in
  literal "pasta|noodles|spaghetti|penne|fusilli|lasagna|ravioli|gnocchi|linguine|fettuccine|ramen|udon|pho|pad thai" true.
Definition snackPattern : RegExp := Eval vm_compute in
  literal "sandwich|roll|wrap|sub|panini|club|blt|grilled cheese" true.

(** The category chain, on the lowered text. *)
Definition classify (lowerText : jsstring) : string :=
  if test starterPattern lowerText then "starter"
  else if test dessertPattern lowerText then "dessert"
  else if test ricePattern lowerText then "rice"
  else if test breadPattern lowerText then "bread"
  else if test curryPattern lowerText then "curry"
  else if test beveragePattern lowerText then "beverage"
  else if test pizzaPattern lowerText then "pizza"
  else if test burgerPattern lowerText then "burger"
  else if test pastaPattern lowerText then "pasta"
  else if test snackPattern lowerText then "snack"
  else "main".

Definition extractCategory (text : jsstring) : string :=
  classify (toLowerCase text).

Definition vegPattern : RegExp := Eval vm_compute in
  literal "\\bveg\\b|vegetarian|veggie" true.
Definition vegBlockPattern : RegExp := Eval vm_compute in
  literal "non.veg|chicken|mutton|fish|egg|meat|beef|lamb|pork" true.
Definition nonVegPattern : RegExp := Eval vm_compute in
  literal "non.veg|non-veg|chicken|mutton|fish|meat|egg|beef|lamb|pork|seafood|prawn|crab|lobster" true.
Definition jainPattern : RegExp := Eval vm_compute in
  literal "jain|no onion|no garlic" true.
Definition veganPattern : RegExp := Eval vm_compute in
  literal "vegan" true.
Definition glutenFreePattern : RegExp := Eval vm_compute in
  literal "gluten.free|no gluten" true.
Definition dairyFreePattern : RegExp := Eval vm_compute in
  literal "dairy.free|no dairy|lactose.free" true.
Definition ketoPattern : RegExp := Eval vm_compute in
  literal "keto|ketogenic|low carb" true.
Definition organicPattern : RegExp := Eval vm_compute in
  literal "organic|natural|farm fresh" true.

(** [tags.push(tag)] when the condition holds. *)
Definition push_if (c : bool) (tag : string) (tags : list string) : list string :=
  if c then tags ++ [tag] else tags.

Definition dietary (lowerText : jsstring) : list string :=
  let d0 := [] in
  let d1 := push_if (test vegPattern lowerText && negb (test vegBlockPattern lowerText))
                    "vegetarian" d0 in
  let d2 := push_if (test nonVegPattern lowerText) "non-vegetarian" d1 in
  let d3 := push_if (test jainPattern lowerText) "jain" d2 in
  let d4 := push_if (test veganPattern lowerText) "vegan" d3 in
  let d5 := push_if (test glutenFreePattern lowerText) "gluten-free" d4 in
  let d6 := push_if (test dairyFreePattern lowerText) "dairy-free" d5 in
  let d7 := push_if (test ketoPattern lowerText) "keto" d6 in
  push_if (test organicPattern lowerText) "organic" d7.

Definition extractDietaryInfo (text : jsstring) : list string :=
  dietary (toLowerCase text).

Definition mildPattern : RegExp := Eval vm_compute in
  literal "mild|not spicy|less spicy|no spice|bland" true.
Definition mediumPattern : RegExp := Eval vm_compute in
  literal "medium spicy|moderately spicy|medium heat" true.
Definition spicyPattern : RegExp := Eval vm_compute in
  literal "spicy|hot|very spicy|extra spicy|fiery|burning|chili hot" true.
Definition extraSpicyPattern : RegExp := Eval vm_compute in
  literal "extremely spicy|super hot|devil hot|ghost pepper" true.

(** The spice chain, on the lowered text; [None] is [null]. *)
Definition spice (lowerText : jsstring) : option string :=
  if test mildPattern lowerText then Some "mild"%string
  else if test mediumPattern lowerText then Some "medium"%string
  else if test spicyPattern lowerText then Some "spicy"%string
  else if test extraSpicyPattern lowerText then Some "extra-spicy"%string
  else None.

Definition extractSpiceLevel (text : jsstring) : option string :=
  spice (toLowerCase text).

Definition cuisinePattern : RegExp := Eval vm_compute in
  literal "(north indian|south indian|chinese|italian|mexican|thai|american|continental|arabic|lebanese|turkish|iranian|punjabi|gujarati|maharashtrian|bengali|rajasthani|kerala|tamil|kashmiri|hyderabadi|lucknowi|awadhi|mughlai|street food|fast food|mediterranean|japanese|korean|vietnamese|malaysian|singaporean|indonesian|filipino|greek|french|spanish|german|russian|african|moroccan|egyptian|ethiopian|brazilian|peruvian|argentinian|canadian|australian)" true.

Definition extractCuisine (text : jsstring) : option jsstring :=
  match exec cuisinePattern text with
  | Some m => Some (toLowerCase (matched m))
  | None => None
  end.

Definition unavailablePattern : RegExp := Eval vm_compute in
  literal "out of stock|not available|unavailable|sold out|temporarily unavailable|coming soon|seasonal|limited time|weekend only|dinner only|lunch only" true.

Definition extractAvailability (text : jsstring) : bool :=
  negb (test unavailablePattern (toLowerCase text)).

Definition popularPattern : RegExp := Eval vm_compute in
  literal "popular|recommended|bestseller|chef special|house special|signature|most ordered|top rated|customer favorite|must try|highly recommended|award winning|famous|legendary|authentic|traditional|classic|premium|deluxe|royal|special|exclusive|limited edition" true.

Definition extractPopularity (text : jsstring) : bool :=
  test popularPattern (toLowerCase text).

Definition timePattern : RegExp := Eval vm_compute in
  literal "(\\d+)\\s*(?:min|minutes|hrs|hours)" true.

Definition group_text (n : nat) (m : match_result) : jsstring :=
  match group n m with Some g => g | None => utf16 "undefined" end.

Definition extractPrepTime (text : jsstring) : option jsstring :=
  match exec timePattern text with
  | Some m =>
    Some (group_text 1 m ++ utf16 " "
          ++ (if includes (utf16 "hr") (matched m) then utf16 "hrs" else utf16 "min"))
  | None => None
  end.

Definition portionPattern : RegExp := Eval vm_compute in
  literal "(half|full|large|medium|small|family|sharing|single|double|triple|serves \\d+|\\d+ pieces|\\d+ pcs)" true.

Definition extractPortionSize (text : jsstring) : option jsstring :=
  match exec portionPattern text with
  | Some m => group 1 m
  | None => None
  end.

Definition caloriesPattern : RegExp := Eval vm_compute in
  literal "(\\d+)\\s*(?:cal|calories|kcal)" true.

Definition extractCalories (text : jsstring) : option jsnum :=
  match exec caloriesPattern text with
  | Some m => Some (parseInt (group_text 1 m))
  | None => None
  end.

(** The object pushed on [items]. *)
Record MenuItem := {
  name : jsstring;
  description : jsstring;
  price : option jsnum;
  category : string;
  cuisine_type : option jsstring;
  dietary_info : list string;
  spice_level : option string;
  is_available : bool;
  is_popular : bool;
  preparation_time : option jsstring;
  portion_size : option jsstring;
  calories : option jsnum;
  source : string
}.

Definition nonblank (line : jsstring) : bool :=
  (0 <? length (trim line))%nat.

Definition cleanName (itemName : jsstring) : jsstring :=
  trim (replace_all nameCleanSpaces (utf16 " ")
          (replace_all nameCleanChars (utf16 " ") itemName)).

(** The body of the [forEach] callback, for an element whose [innerText]
    is given: the item it pushes, if it pushes one. *)
Definition menuItemOf (innerText : jsstring) : option MenuItem :=
  let text := trim innerText in
  if ((length text <? 4) || (800 <? length text))%nat then None
  else if (test foodKeywords text || test priceKeywords text)
          && negb (test excludeKeywords text) then
    let lines := filter nonblank (split line_separator text) in
    let itemName :=
      cleanName (match lines with
                 | first :: _ => trim first
                 | [] => trim (substring 0 120 text)
                 end) in
    if ((2 <? length itemName) && (length itemName <? 300))%nat then
      let description :=
        if (1 <? length lines)%nat then trim (join (utf16 " ") (tl lines))
        else if (length itemName + 15 <? length text)%nat
             then trim (substring_from (length itemName) text)
             else [] in
      Some {| name := itemName;
              description := substring 0 500 description;
              price := extractPrice text;
              category := extractCategory text;
              cuisine_type := extractCuisine text;
              dietary_info := extractDietaryInfo text;
              spice_level := extractSpiceLevel text;
              is_available := extractAvailability text;
              is_popular := extractPopularity text;
              preparation_time := extractPrepTime text;
              portion_size := extractPortionSize text;
              calories := extractCalories text;
              source := "real_extraction" |}
    else None
  else None.

(** The items of a page: one callback per element, in document order. *)
Fixpoint menuItems (elements : list jsstring) : list MenuItem :=
  match elements with
  | [] => []
  | e :: rest =>
    match menuItemOf e with
    | Some item => item :: menuItems rest
    | None => menuItems rest
    end
  end.

(** *** [extractAllRestaurantsFromArea]: the callback run on every element *)

Definition restaurantKeywords : RegExp := Eval vm_compute in
  literal "restaurant|cafe|bar|kitchen|bistro|pizza|burger|hotel|dhaba|dining|eatery|food court|canteen|mess|tiffin|caterer" true.
Definition cuisineKeywords : RegExp := Eval vm_compute in
  literal "indian|chinese|italian|mexican|thai|american|continental|arabic|lebanese|turkish|iranian|biryani|pizza|burger|shawarma|kebab|fast food|north indian|south indian|punjabi|gujarati|maharashtrian|bengali|rajasthani|kerala|tamil|kashmiri|hyderabadi|lucknowi|awadhi|mughlai|street food|continental|mediterranean|japanese|korean|vietnamese|malaysian|singaporean|indonesian|filipino" true.
Definition ratingInfo : RegExp := Eval vm_compute in
  literal "\\d+\\.\\d+|★|⭐|rating|review|star" true.
Definition invalidRestaurant : RegExp := Eval vm_compute in
  literal "login|signup|download|app|home|about|contact|privacy|terms|help|support|cart|search|filter|location|explore|trending|show more|view all|advertisement|ad|sponsored|promotion|banner|popup|modal|overlay|loading|error|maintenance|footer|header|navbar|sidebar|breadcrumb|pagination|sort|category|collection|featured|popular|recommended|new|top rated|best" true.
Definition restaurantCleanChars : RegExp := Eval vm_compute in
  literal "[^a-zA-Z0-9\\s'&.-]" false.
Definition restaurantCleanSpaces : RegExp := Eval vm_compute in
  literal "\\s+" false.
Definition notARestaurantName : RegExp := Eval vm_compute in
  literal "^\\d+$|^[a-z]$|order|delivery|menu|restaurant|food|dining|cuisine|^explore|^discover|^find|^search|^filter|^sort|^view|^show|^see|^more|^all|^best|^top|^new|^popular|^recommended|^featured|^trending|^offers|^deals|^discount|^free|^save|^get|^book|^reserve|^call|^directions|^photos|^reviews" true.

Definition longLine (l : jsstring) : bool := (2 <? length (trim l))%nat.

(** The name of the restaurant record the callback pushes for an element,
    if it pushes one.  (The other fields of the record are read off the
    text once this name is accepted.) *)
Definition restaurantNameOf (innerText : jsstring) : option jsstring :=
  let text := trim innerText in
  if ((length text <? 10) || (1000 <? length text))%nat then None
  else
    let hasRestaurantKeywords := test restaurantKeywords text in
    let hasCuisineKeywords := test cuisineKeywords text in
    let hasRatingInfo := test ratingInfo text in
    let isValidRestaurant := negb (test invalidRestaurant text) in
    if (hasRestaurantKeywords || hasCuisineKeywords || hasRatingInfo)
       && isValidRestaurant then
      let lines := filter longLine (split line_separator text) in
      let name0 := match lines with
                   | first :: _ => trim first
                   | [] => trim (substring 0 150 text)
                   end in
      let name1 := trim (replace_all restaurantCleanSpaces (utf16 " ")
                           (replace_all restaurantCleanChars (utf16 " ") name0)) in
      if ((3 <? length name1) && (length name1 <? 200))%nat
         && negb (test notARestaurantName name1)
      then Some name1 else None
    else None.

End Unlimited.

(* ===================================================================== *)
(** ** The duplicate removal the scrapers share *)
(* ===================================================================== *)

Section Dedup.
Variable A : Type.

(** [duplicate existing item]: the test of the [some] callback. *)
Variable duplicate : A -> A -> bool.

(** One round of the [forEach]: [item] is pushed on [unique] unless some
    element already there is a duplicate of it. *)
Definition push_unique (unique : list A) (item : A) : list A :=
  if existsb (fun existing => duplicate existing item) unique
  then unique
  else unique ++ [item].

(** The whole loop, from the empty [unique]. *)
Definition dedup (results : list A) : list A :=
  fold_left push_unique results [].

End Dedup.

(* ===================================================================== *)
(** ** The complete-menu scraper: [extractAllMenuItems] *)
(* ===================================================================== *)

Module CompleteMenu.
Import JS Regex.

Definition line_separator : jsstring := utf16 "\n".

Definition foodKeywords : RegExp := Eval vm_compute in
  literal "curry|rice|bread|naan|chicken|mutton|paneer|dal|samosa|biryani|tandoor|masala|tikka|kebab|dosa|idli|vada|pasta|noodles|fried|soup|salad|dessert|ice cream|cake|sweet|pizza|burger|sandwich|roll|wrap|juice|lassi|tea|coffee|chapati|roti|paratha|kulcha|raita|pickle|papad|gulab jamun|rasmalai|kheer|halwa|payasam|rabri|kulfi|falooda|brownie|pastry|mousse|tart|pie|croissant|bagel|waffle|pancake|omelette|scrambled|toast|cereal|yogurt|smoothie|milkshake|lemonade|mojito|cocktail|wine|beer|whiskey|vodka|gin|rum" true.
Definition priceKeywords : RegExp := Eval vm_compute in
  literal "₹|rs|\\$|aed|sar|kwd|bhd|qar|price|cost|\\d+\\.\\d+|\\d+\\s*only|starting|from" true.
Definition navigationKeywords : RegExp := Eval vm_compute in
  literal "login|signup|cart|checkout|home|about|contact|delivery|offers|discount|download|app|search|filter|sort|location|city|order now|view all|show more|load more|continue|next|previous|back|menu|categories|restaurant info|reviews|photos|directions|call|book table|reserve|share|favorite|wishlist|follow|like|rating|review|write review|upload photo|report|help|support|terms|privacy|policy|footer|header|navbar|sidebar|advertisement|ad|sponsored|promotion|banner|popup|modal|overlay|loading|error|404|500|not found|server error|maintenance|coming soon|under construction" true.

Definition pricePatterns : list RegExp := Eval vm_compute in
  [ literal "₹\\s*(\\d+(?:\\.\\d{2})?)" true;
    literal "rs\\.?\\s*(\\d+)" true;
    literal "\\$\\s*(\\d+(?:\\.\\d{2})?)" true;
    literal "aed\\s*(\\d+)" true;
    literal "sar\\s*(\\d+)" true;
    literal "(\\d+)\\s*₹" true;
    literal "(\\d+)\\s*rs" true ].

Definition extractPrice (text : jsstring) : option jsnum :=
  Unlimited.price_loop pricePatterns text.

Definition starterPattern : RegExp := Eval vm_compute in
  literal "starter|appetizer|soup|salad|tikka|kebab|samosa|pakora|chaat|cutlet|finger food" true.
Definition dessertPattern : RegExp := Eval vm_compute in
  literal "dessert|sweet|ice cream|cake|kulfi|gulab jamun|rasmalai|kheer|halwa|payasam|rabri|falooda|brownie|pastry|mousse|tart|pie" true.
Definition ricePattern : RegExp := Eval vm_compute in
  literal "rice|biryani|pulao|fried rice|jeera rice|coconut rice|lemon rice" true.
Definition breadPattern : RegExp := Eval vm_compute in
  literal "bread|naan|roti|paratha|kulcha|chapati|puri|bhatura|kulcha" true.
Definition curryPattern : RegExp := Eval vm_compute in
  literal "dal|curry|gravy|sabji|subzi|korma|masala|kadai" true.
Definition beveragePattern : RegExp := Eval vm_compute in
  literal "drink|beverage|juice|lassi|tea|coffee|shake|smoothie|water|soda|cola|lemonade|mojito|cocktail|wine|beer|whiskey|vodka" true.
Definition pizzaPattern : RegExp := Eval vm_compute in
  literal "pizza" true.
Definition burgerPattern : RegExp := Eval vm_compute in
  literal "burger" true.
Definition pastaPattern : RegExp := Eval vm_compute in
  literal "pasta|noodles|spaghetti|penne|fusilli|lasagna" true.
Definition snackPattern : RegExp := Eval vm_compute in
  literal "sandwich|roll|wrap|sub|panini" true.

Definition classify (itemText : jsstring) : string :=
  if test starterPattern itemText then "starter"
  else if test dessertPattern itemText then "dessert"
  else if test ricePattern itemText then "rice"
  else if test breadPattern itemText then "bread"
  else if test curryPattern itemText then "curry"
  else if test beveragePattern itemText then "beverage"
  else if test pizzaPattern itemText then "pizza"
  else if test burgerPattern itemText then "burger"
  else if test pastaPattern itemText then "pasta"
  else if test snackPattern itemText then "snack"
  else "main".

Definition extractCategory (text : jsstring) : string :=
  classify (toLowerCase text).

Definition vegPattern : RegExp := Eval vm_compute in
  literal "veg|vegetarian" true.
Definition vegBlockPattern : RegExp := Eval vm_compute in
  literal "non.veg|chicken|mutton|fish|egg|meat" true.
Definition nonVegPattern : RegExp := Eval vm_compute in
  literal "non.veg|chicken|mutton|fish|meat|egg|beef|lamb|pork" true.
Definition jainPattern : RegExp := Eval vm_compute in
  literal "jain" true.
Definition veganPattern : RegExp := Eval vm_compute in
  literal "vegan" true.
Definition glutenFreePattern : RegExp := Eval vm_compute in
  literal "gluten.free" true.

Definition dietary (itemText : jsstring) : list string :=
  let d0 := [] in
  let d1 := Unlimited.push_if
              (test vegPattern itemText && negb (test vegBlockPattern itemText))
              "vegetarian" d0 in
  let d2 := Unlimited.push_if (test nonVegPattern itemText) "non-vegetarian" d1 in
  let d3 := Unlimited.push_if (test jainPattern itemText) "jain" d2 in
  let d4 := Unlimited.push_if (test veganPattern itemText) "vegan" d3 in
  Unlimited.push_if (test glutenFreePattern itemText) "gluten-free" d4.

Definition mildPattern : RegExp := Eval vm_compute in
  literal "mild|not spicy|less spicy" true.
Definition mediumPattern : RegExp := Eval vm_compute in
  literal "medium spicy|moderately spicy" true.
Definition spicyPattern : RegExp := Eval vm_compute in
  literal "spicy|hot|very spicy|extra spicy" true.

Definition spice (itemText : jsstring) : option string :=
  if test mildPattern itemText then Some "mild"%string
  else if test mediumPattern itemText then Some "medium"%string
  else if test spicyPattern itemText then Some "spicy"%string
  else None.

Definition extractSpiceLevel (text : jsstring) : option string :=
  spice (toLowerCase text).

Definition cuisinePattern : RegExp := Eval vm_compute in
  literal "(north indian|south indian|chinese|italian|mexican|thai|american|continental|arabic|lebanese|turkish|iranian|punjabi|gujarati|maharashtrian|bengali|rajasthani|kerala|tamil|kashmiri|hyderabadi|lucknowi|awadhi|mughlai|street food|fast food)" true.

Definition extractCuisine (text : jsstring) : option jsstring :=
  match exec cuisinePattern text with
  | Some m => Some (toLowerCase (matched m))
  | None => None
  end.

Definition unavailablePattern : RegExp := Eval vm_compute in
  literal "out of stock|not available|unavailable|sold out|temporarily unavailable" true.

Definition extractAvailability (text : jsstring) : bool :=
  negb (test unavailablePattern (toLowerCase text)).

Definition popularPattern : RegExp := Eval vm_compute in
  literal "popular|recommended|bestseller|chef special|house special|signature|most ordered|top rated" true.

Definition timePattern : RegExp := Eval vm_compute in
  literal "(\\d+)\\s*min" true.

Definition extractPrepTime (text : jsstring) : option jsstring :=
  match exec timePattern text with
  | Some m => Some (Unlimited.group_text 1 m ++ utf16 " min")
  | None => None
  end.

(** The object pushed on [menuItems]. *)
Record MenuItem := {
  name : jsstring;
  description : jsstring;
  price : option jsnum;
  category : string;
  cuisine_type : option jsstring;
  dietary_info : list string;
  spice_level : option string;
  is_available : bool;
  is_popular : bool;
  preparation_time : option jsstring;
  full_text : jsstring
}.

(** The body of the [forEach] callback, for an element whose [innerText]
    is given: the item it pushes, if it pushes one. *)
Definition menuItemOf (innerText : jsstring) : option MenuItem :=
  let text := trim innerText in
  if ((length text <? 4) || (500 <? length text))%nat then None
  else if test foodKeywords text || test priceKeywords text then
    if negb (test navigationKeywords text) then
      let lines := filter Unlimited.nonblank (split line_separator text) in
      let itemName := match lines with
                      | first :: _ => trim first
                      | [] => trim (substring 0 100 text)
                      end in
      if ((2 <? length itemName) && (length itemName <? 200))%nat then
        let description :=
          if (1 <? length lines)%nat then trim (join (utf16 " ") (tl lines))
          else if (length itemName + 10 <? length text)%nat
               then trim (substring_from (length itemName) text)
               else [] in
        let itemText := toLowerCase text in
        Some {| name := itemName;
                description := substring 0 500 description;
                price := extractPrice text;
                category := classify itemText;
                cuisine_type := extractCuisine text;
                dietary_info := dietary itemText;
                spice_level := spice itemText;
                is_available := negb (test unavailablePattern itemText);
                is_popular := test popularPattern itemText;
                preparation_time := extractPrepTime text;
                full_text := substring 0 400 text |}
      else None
    else None
  else None.

Fixpoint menuItems (elements : list jsstring) : list MenuItem :=
  match elements with
  | [] => []
  | e :: rest =>
    match menuItemOf e with
    | Some item => item :: menuItems rest
    | None => menuItems rest
    end
  end.

(** "Remove exact duplicates only": the same lowered name and the same
    price under [===]. *)
Definition exactDuplicate (existing item : MenuItem) : bool :=
  jsstring_eqb (toLowerCase (name existing)) (toLowerCase (name item))
  && strict_eq (price existing) (price item).

Definition uniqueMenuItems (menuItems : list MenuItem) : list MenuItem :=
  dedup exactDuplicate menuItems.

(** What the page callback returns for the elements of a page. *)
Definition allMenuItems (elements : list jsstring) : list MenuItem :=
  uniqueMenuItems (menuItems elements).

End CompleteMenu.

(* ===================================================================== *)
(** ** comprehensive-scraper.js: [scrapePlatform] *)
(* ===================================================================== *)

Module Comprehensive.
Import JS.

(** The object pushed on [results]. *)
Record Restaurant := {
  name : jsstring;
  platform : jsstring;
  platform_id : jsstring;
  city : jsstring;
  country : jsstring;
  rating : option jsstring;
  cuisine_types : list jsstring;
  delivery_time : option jsstring;
  full_text : jsstring
}.

(** "Remove duplicates based on name similarity". *)
Definition isDuplicate (existing restaurant : Restaurant) : bool :=
  let name1 := toLowerCase (name restaurant) in
  let name2 := toLowerCase (name existing) in
  jsstring_eqb name1 name2
  || ((8 <? length name1)%nat && (8 <? length name2)%nat
      && (includes (substring 0 6 name2) name1
          || includes (substring 0 6 name1) name2)).

Definition unique (results : list Restaurant) : list Restaurant :=
  dedup isDuplicate results.

(** The callback returns at most thirty of them. *)
Definition scraped (results : list Restaurant) : list Restaurant :=
  firstn 30 (unique results).

End Comprehensive.

(* ===================================================================== *)
(** ** Tables and readings used to state the properties *)
(* ===================================================================== *)

Import JS Regex.

(** A first-match-wins table: rows of a condition on the text and an
    outcome, read from the top; the first row whose pattern matches
    decides, and no row after it is looked at. *)
Fixpoint first_match_wins {B : Type} (table : list (RegExp * B)) (default : B)
    (s : jsstring) : B :=
  match table with
  | [] => default
  | (re, outcome) :: rows =>
    if test re s then outcome else first_match_wins rows default s
  end.

(** The rows of the two category chains, in the order of the source. *)
Definition categoryTable : list (RegExp * string) :=
  [ (Unlimited.starterPattern, "starter"%string);
    (Unlimited.dessertPattern, "dessert"%string);
    (Unlimited.ricePattern, "rice"%string);
    (Unlimited.breadPattern, "bread"%string);
    (Unlimited.curryPattern, "curry"%string);
    (Unlimited.beveragePattern, "beverage"%string);
    (Unlimited.pizzaPattern, "pizza"%string);
    (Unlimited.burgerPattern, "burger"%string);
    (Unlimited.pastaPattern, "pasta"%string);
    (Unlimited.snackPattern, "snack"%string) ].

Definition categoryTable_complete : list (RegExp * string) :=
  [ (CompleteMenu.starterPattern, "starter"%string);
    (CompleteMenu.dessertPattern, "dessert"%string);
    (CompleteMenu.ricePattern, "rice"%string);
    (CompleteMenu.breadPattern, "bread"%string);
    (CompleteMenu.curryPattern, "curry"%string);
    (CompleteMenu.beveragePattern, "beverage"%string);
    (CompleteMenu.pizzaPattern, "pizza"%string);
    (CompleteMenu.burgerPattern, "burger"%string);
    (CompleteMenu.pastaPattern, "pasta"%string);
    (CompleteMenu.snackPattern, "snack"%string) ].

Definition canonical_order : list string :=
  [ "starter"; "dessert"; "rice"; "bread"; "curry"; "beverage"; "pizza";
    "burger"; "pasta"; "snack" ]%string.

(** The rows of the two spice chains. *)
Definition spiceTable : list (RegExp * option string) :=
  [ (Unlimited.mildPattern, Some "mild"%string);
    (Unlimited.mediumPattern, Some "medium"%string);
    (Unlimited.spicyPattern, Some "spicy"%string);
    (Unlimited.extraSpicyPattern, Some "extra-spicy"%string) ].

Definition spiceTable_complete : list (RegExp * option string) :=
  [ (CompleteMenu.mildPattern, Some "mild"%string);
    (CompleteMenu.mediumPattern, Some "medium"%string);
    (CompleteMenu.spicyPattern, Some "spicy"%string) ].

(** The table of the price loop: a row per pattern, whose outcome is the
    number read from the first group of its match. *)
Definition captured_number (re : RegExp) (text : jsstring) : jsnum :=
  match exec re text with
  | Some m => match group 1 m with Some g => parseFloat g | None => NaN end
  | None => NaN
  end.

(** The keyword a pattern without operators spells, and the keywords of an
    alternation of such patterns. *)
Fixpoint literal_of (r : regex) : option jsstring :=
  match r with
  | Empty => Some []
  | Chr c => Some [c]
  | Seq (Chr c) r2 => option_map (cons c) (literal_of r2)
  | _ => None
  end.

Fixpoint keywords (r : regex) : option (list jsstring) :=
  match r with
  | Alt a b =>
    match literal_of a, keywords b with
    | Some l, Some ls => Some (l :: ls)
    | _, _ => None
    end
  | _ => option_map (fun l => [l]) (literal_of r)
  end.

(** [p] in front of [s], and somewhere in [s], up to the case folding of
    the [i] flag. *)
Fixpoint starts_ci (ic : bool) (p s : jsstring) : bool :=
  match p, s with
  | [], _ => true
  | c :: p', x :: s' => (canon ic x =? canon ic c) && starts_ci ic p' s'
  | _ :: _, [] => false
  end.

Fixpoint includes_ci (ic : bool) (p s : jsstring) : bool :=
  starts_ci ic p s || match s with [] => false | _ :: t => includes_ci ic p t end.

Definition no_upper (c : Z) : bool := negb ((65 <=? c) && (c <=? 90)).

(** [p] occurs in [s]. *)
Definition occurs (p s : jsstring) : Prop :=
  exists before after, s = before ++ p ++ after.

(** The phrases of the two availability patterns. *)
Definition unavailablePhrases : list jsstring :=
  map utf16
    [ "out of stock"; "not available"; "unavailable"; "sold out";
      "temporarily unavailable"; "coming soon"; "seasonal"; "limited time";
      "weekend only"; "dinner only"; "lunch only" ]%string.

Definition unavailablePhrases_complete : list jsstring :=
  map utf16
    [ "out of stock"; "not available"; "unavailable"; "sold out";
      "temporarily unavailable" ]%string.

(** The five phrases the specification names. *)
Definition specifiedPhrases : list jsstring :=
  map utf16
    [ "out of stock"; "sold out"; "unavailable"; "temporarily unavailable";
      "coming soon" ]%string.

(** The survivors of a list, read from the left: a record survives when no
    survivor before it is a duplicate of it. *)
Fixpoint survivors {A : Type} (duplicate : A -> A -> bool) (before l : list A)
  : list A :=
  match l with
  | [] => []
  | x :: t =>
    if existsb (fun existing => duplicate existing x) before
    then survivors duplicate before t
    else x :: survivors duplicate (before ++ [x]) t
  end.

(** No element of [l] is a duplicate of one of [before] or of an earlier
    element of [l]. *)
Fixpoint fresh_from {A : Type} (duplicate : A -> A -> bool) (before l : list A)
  : bool :=
  match l with
  | [] => true
  | x :: t =>
    negb (existsb (fun existing => duplicate existing x) before)
    && fresh_from duplicate (before ++ [x]) t
  end.

(** [l1] is [l2] with some elements left out, the order kept. *)
Inductive Subseq {A : Type} : list A -> list A -> Prop :=
| Subseq_nil : Subseq [] []
| Subseq_skip x l1 l2 : Subseq l1 l2 -> Subseq l1 (x :: l2)
| Subseq_keep x l1 l2 : Subseq l1 l2 -> Subseq (x :: l1) (x :: l2).

(** The fixtures of the specification. *)
Definition butter_chicken : jsstring := utf16 "Butter Chicken ₹299 (was Rs.350)".
Definition biryani_gulab_jamun : jsstring := utf16 "Chicken Biryani with Gulab Jamun".
Definition order_biryani : jsstring := utf16 "Order Biryani Now - Login to continue".
Definition paneer_tikka : jsstring := utf16 "Paneer Tikka - Spicy starter, serves 2".
Definition margherita : jsstring :=
  utf16 "Classic Margherita Pizza" ++ [10]
  ++ utf16 "Fresh mozzarella and basil" ++ [10] ++ utf16 "$12.99".

Definition ghost_pepper_wings : jsstring := utf16 "Ghost Pepper Wings".
Definition mild_or_very_spicy : jsstring :=
  utf16 "Korma, mild or very spicy on request".
Definition mild_but_super_hot : jsstring := utf16 "Wings - mild sauce or super hot".
Definition seasonal_lassi : jsstring := utf16 "Seasonal mango lassi".
Definition grilled_chicken : jsstring := utf16 "Grilled Chicken".

(** Three menu items, the third a second rendering of the first. *)
Definition item (name : string) (price : option jsnum) : CompleteMenu.MenuItem :=
  {| CompleteMenu.name := utf16 name;
     CompleteMenu.description := [];
     CompleteMenu.price := price;
     CompleteMenu.category := "main";
     CompleteMenu.cuisine_type := None;
     CompleteMenu.dietary_info := [];
     CompleteMenu.spice_level := None;
     CompleteMenu.is_available := true;
     CompleteMenu.is_popular := false;
     CompleteMenu.preparation_time := None;
     CompleteMenu.full_text := utf16 name |}.

Definition dal_makhani : CompleteMenu.MenuItem := item "Dal Makhani" None.
Definition garlic_naan : CompleteMenu.MenuItem := item "Garlic Naan" None.
Definition dal_makhani_again : CompleteMenu.MenuItem := item "DAL MAKHANI" None.

(** Three restaurants, the third a second rendering of the first. *)
Definition restaurant (name : string) : Comprehensive.Restaurant :=
  {| Comprehensive.name := utf16 name;
     Comprehensive.platform := utf16 "Zomato";
     Comprehensive.platform_id := [];
     Comprehensive.city := utf16 "Mumbai";
     Comprehensive.country := utf16 "India";
     Comprehensive.rating := None;
     Comprehensive.cuisine_types := [];
     Comprehensive.delivery_time := None;
     Comprehensive.full_text := utf16 name |}.

Definition spice_garden : Comprehensive.Restaurant := restaurant "Spice Garden Restaurant".
Definition noodle_bar : Comprehensive.Restaurant := restaurant "Noodle Bar".
Definition spice_garden_again : Comprehensive.Restaurant := restaurant "Spice Garden Restaurant - Bandra".

(** [r] begins by reading the character [c]; every capturing group of [r]
    begins so. *)
Definition opens_with (c : Z) (r : regex) : bool :=
  match r with
  | Chr x => x =? c
  | Seq (Chr x) _ => x =? c
  | _ => false
  end.

Fixpoint groups_open_with (c : Z) (r : regex) : bool :=
  match r with
  | Seq a b => groups_open_with c a && groups_open_with c b
  | Alt a b => groups_open_with c a && groups_open_with c b
  | Rep _ _ a => groups_open_with c a
  | Group _ a => opens_with c a && groups_open_with c a
  | _ => true
  end.

(** The backslash. *)
Definition backslash : Z := 92.

(** Every captured text of a state begins with a backslash. *)
Definition captures_escaped (st : mstate) : Prop :=
  Forall (fun c => exists t, snd c = backslash :: t) (caps st).

Definition nonempty {X : Type} (l : list X) : bool :=
  match l with [] => false | _ :: _ => true end.

(** The price patterns as the specification reads them, each escape with
    a single backslash: white space, then a number with up to two decimals.
    They are not those of the program, and serve only to compare. *)
Definition pricePatterns_as_specified : list RegExp := Eval vm_compute in
  [ literal "₹\s*(\d+(?:\.\d{1,2})?)" true;
    literal "rs\.?\s*(\d+(?:\.\d{1,2})?)" true;
    literal "\$\s*(\d+(?:\.\d{1,2})?)" true;
    literal "aed\s*(\d+(?:\.\d{1,2})?)" true;
    literal "sar\s*(\d+(?:\.\d{1,2})?)" true;
    literal "(\d+(?:\.\d{1,2})?)\s*₹" true;
    literal "(\d+(?:\.\d{1,2})?)\s*rs" true;
    literal "(\d+(?:\.\d{1,2})?)\s*only" true ].

(** The pattern that matches nothing, which [literal] falls back to. *)
Definition unread (re : RegExp) : bool :=
  match pattern re with
  | Class false [] => true
  | _ => false
  end.

(** The same fixture with each line break spelled as the two characters
    backslash and n, which is what the callback splits on. *)
Definition margherita_escaped : jsstring :=
  utf16 "Classic Margherita Pizza\nFresh mozzarella and basil\n$12.99".

(* ===================================================================== *)
(** ** Further readings of the callbacks *)
(* ===================================================================== *)

(** The characters a cleaned item name can hold: those the first
    replacement of [cleanName] keeps, and the space it puts for the others. *)
Definition item_name_char (c : Z) : bool :=
  in_ranges [(97, 122); (65, 90); (48, 57); (92, 92); (115, 115); (39, 39);
             (38, 38); (46, 46); (44, 44); (45, 45)] c
  || (c =? 32).

(** The same for a cleaned restaurant name (no comma). *)
Definition restaurant_name_char (c : Z) : bool :=
  in_ranges [(97, 122); (65, 90); (48, 57); (92, 92); (115, 115); (39, 39);
             (38, 38); (46, 46); (45, 45)] c
  || (c =? 32).

(** The keywords of the exclusion pattern of [extractCompleteRealMenu]. *)
Definition excludedWords : list jsstring := Eval vm_compute in
  match keywords (pattern Unlimited.excludeKeywords) with
  | Some ks => ks
  | None => []
  end.

(** The alternatives of a pattern, and a test with the flags given apart. *)
Fixpoint alternatives (r : regex) : list regex :=
  match r with
  | Alt a b => a :: alternatives b
  | _ => [r]
  end.

Definition test_rx (ic : bool) (r : regex) (s : jsstring) : bool :=
  match exec_from ic r 0 s with Some _ => true | None => false end.

(** The dietary tags, in the order in which they are pushed. *)
Definition dietaryTags : list string :=
  [ "vegetarian"; "non-vegetarian"; "jain"; "vegan"; "gluten-free";
    "dairy-free"; "keto"; "organic" ]%string.

Definition dietaryTags_complete : list string :=
  [ "vegetarian"; "non-vegetarian"; "jain"; "vegan"; "gluten-free" ]%string.

(** The words the restaurant callback refuses anywhere in a name. *)
Definition refusedNameWords : list jsstring :=
  map utf16 [ "order"; "delivery"; "menu"; "restaurant"; "food"; "dining";
              "cuisine" ]%string.

(** An element whose text holds a price the way the patterns ask for it. *)
Definition paneer_roll_escaped : jsstring := utf16 "Paneer roll ₹\\ddd".

(** Dish words that hold an exclusion keyword ("no", "ad", "tab", "ok",
    "cut"). *)
Definition swallowedDishes : list jsstring :=
  map utf16 [ "noodles"; "salad"; "bread"; "vegetable"; "okra"; "lemonade";
              "kadai"; "gnocchi"; "cutlet"; "pad thai" ]%string.

Definition veg_noodles : jsstring := utf16 "Veg Hakka Noodles ₹180".

(** Two texts agree up to the folding of the [i] flag. *)
Definition same_ci (ic : bool) (a b : jsstring) : Prop :=
  Forall2 (fun x c => canon ic x = canon ic c) a b.

(** A pattern made of characters and dots, as the list of its positions
    ([None] for a dot), and an alternation of such patterns. *)
Fixpoint word_of (r : regex) : option (list (option Z)) :=
  match r with
  | Empty => Some []
  | Chr c => Some [Some c]
  | Dot => Some [None]
  | Seq (Chr c) r2 => option_map (cons (Some c)) (word_of r2)
  | Seq Dot r2 => option_map (cons None) (word_of r2)
  | _ => None
  end.

Fixpoint words_of_list (rs : list regex) : option (list (list (option Z))) :=
  match rs with
  | [] => Some []
  | r :: rest =>
    match word_of r, words_of_list rest with
    | Some w, Some ws => Some (w :: ws)
    | _, _ => None
    end
  end.

Definition words_of (r : regex) : option (list (list (option Z))) :=
  words_of_list (alternatives r).

Fixpoint starts_word (ic : bool) (w : list (option Z)) (s : jsstring) : bool :=
  match w, s with
  | [], _ => true
  | Some c :: w', x :: s' => (canon ic x =? canon ic c) && starts_word ic w' s'
  | None :: w', x :: s' => negb (isLineTerminator x) && starts_word ic w' s'
  | _ :: _, [] => false
  end.

Fixpoint includes_word (ic : bool) (w : list (option Z)) (s : jsstring) : bool :=
  starts_word ic w s
  || match s with [] => false | _ :: t => includes_word ic w t end.

(** Wherever [w1] matches, [w2] matches: the same positions, but for dots
    of [w2] where [w1] has a character that is no line terminator. *)
Fixpoint word_leb (w1 w2 : list (option Z)) : bool :=
  match w1, w2 with
  | [], [] => true
  | Some c :: t1, Some d :: t2 => (c =? d) && word_leb t1 t2
  | Some c :: t1, None :: t2 => negb (isLineTerminator c) && word_leb t1 t2
  | None :: t1, None :: t2 => word_leb t1 t2
  | _, _ => false
  end.

Definition word_eqb (w1 w2 : list (option Z)) : bool :=
  word_leb w1 w2 && word_leb w2 w1.

(** Every word of [wa] is below a word of [wb] or is one of [we]. *)
Definition covered (wa wb we : list (list (option Z))) : bool :=
  forallb (fun w => existsb (word_leb w) wb || existsb (word_eqb w) we) wa.

(** A keyword as a word without dots. *)
Definition plain (k : jsstring) : list (option Z) := map Some k.

Definition vegetarian_prawns : jsstring := utf16 "Vegetarian prawn crackers".
Definition veg_lamb_combo : jsstring := utf16 "Veg thali with lamb option".

Definition taj_mahal_hotel : jsstring := utf16 "Taj Mahal Hotel, Colaba".
Definition spice_garden_text : jsstring := utf16 "Spice Garden Restaurant".

(* ===================================================================== *)
(** ** comprehensive-scraper.js: [generateMenuItems] and [saveMenuItem] *)
(* ===================================================================== *)

Module Generated.
Import JS.

(** An entry of a menu template. *)
Record Template := {
  t_name : string;
  t_category : string;
  t_price : Q;
  t_cuisine : string
}.

Definition indian : list Template :=
  [ {| t_name := "Butter Chicken"; t_category := "main"; t_price := 1699 # 100; t_cuisine := "indian" |};
    {| t_name := "Dal Tadka"; t_category := "main"; t_price := 1299 # 100; t_cuisine := "indian" |};
    {| t_name := "Biryani"; t_category := "rice"; t_price := 1899 # 100; t_cuisine := "indian" |};
    {| t_name := "Garlic Naan"; t_category := "bread"; t_price := 499 # 100; t_cuisine := "indian" |};
    {| t_name := "Samosa (2pcs)"; t_category := "starter"; t_price := 699 # 100; t_cuisine := "indian" |} ].

Definition chinese : list Template :=
  [ {| t_name := "Sweet & Sour Chicken"; t_category := "main"; t_price := 1599 # 100; t_cuisine := "chinese" |};
    {| t_name := "Chicken Fried Rice"; t_category := "rice"; t_price := 1399 # 100; t_cuisine := "chinese" |};
    {| t_name := "Spring Rolls (4pcs)"; t_category := "starter"; t_price := 799 # 100; t_cuisine := "chinese" |};
    {| t_name := "Hot & Sour Soup"; t_category := "soup"; t_price := 599 # 100; t_cuisine := "chinese" |} ].

Definition arabic : list Template :=
  [ {| t_name := "Chicken Shawarma"; t_category := "main"; t_price := 1499 # 100; t_cuisine := "arabic" |};
    {| t_name := "Mixed Grill Platter"; t_category := "main"; t_price := 2499 # 100; t_cuisine := "arabic" |};
    {| t_name := "Hummus with Pita"; t_category := "starter"; t_price := 899 # 100; t_cuisine := "arabic" |};
    {| t_name := "Fattoush Salad"; t_category := "salad"; t_price := 999 # 100; t_cuisine := "arabic" |};
    {| t_name := "Baklava"; t_category := "dessert"; t_price := 699 # 100; t_cuisine := "arabic" |} ].

Definition italian : list Template :=
  [ {| t_name := "Margherita Pizza"; t_category := "main"; t_price := 1799 # 100; t_cuisine := "italian" |};
    {| t_name := "Spaghetti Carbonara"; t_category := "pasta"; t_price := 1599 # 100; t_cuisine := "italian" |};
    {| t_name := "Caesar Salad"; t_category := "salad"; t_price := 1099 # 100; t_cuisine := "italian" |};
    {| t_name := "Tiramisu"; t_category := "dessert"; t_price := 799 # 100; t_cuisine := "italian" |} ].

Definition fast_food : list Template :=
  [ {| t_name := "Classic Burger"; t_category := "main"; t_price := 1299 # 100; t_cuisine := "american" |};
    {| t_name := "Chicken Wings (6pcs)"; t_category := "starter"; t_price := 1199 # 100; t_cuisine := "american" |};
    {| t_name := "French Fries"; t_category := "side"; t_price := 599 # 100; t_cuisine := "american" |};
    {| t_name := "Milkshake"; t_category := "beverage"; t_price := 699 # 100; t_cuisine := "american" |} ].

Definition defaultMenu : list Template :=
  [ {| t_name := "House Special"; t_category := "main"; t_price := 1599 # 100; t_cuisine := "international" |};
    {| t_name := "Mixed Salad"; t_category := "salad"; t_price := 899 # 100; t_cuisine := "international" |};
    {| t_name := "Soft Drink"; t_category := "beverage"; t_price := 399 # 100; t_cuisine := "international" |} ].

(** What reading a property of the object [menuTemplates] gives: nothing,
    one of its five own arrays, or a member inherited from
    [Object.prototype] (a value that is truthy and is no array). *)
Inductive property :=
| Undefined
| Own (template : list Template)
| Inherited.

Definition inheritedNames : list jsstring :=
  map utf16
    [ "constructor"; "__proto__"; "hasOwnProperty"; "isPrototypeOf";
      "propertyIsEnumerable"; "toLocaleString"; "toString"; "valueOf";
      "__defineGetter__"; "__defineSetter__"; "__lookupGetter__";
      "__lookupSetter__" ]%string.

(** [menuTemplates[key]]. *)
Definition menuTemplates (key : jsstring) : property :=
  if jsstring_eqb key (utf16 "indian") then Own indian
  else if jsstring_eqb key (utf16 "chinese") then Own chinese
  else if jsstring_eqb key (utf16 "arabic") then Own arabic
  else if jsstring_eqb key (utf16 "italian") then Own italian
  else if jsstring_eqb key (utf16 "fast food") then Own fast_food
  else if existsb (jsstring_eqb key) inheritedNames then Inherited
  else Undefined.

(** The loop over the cuisine types: the first one whose lowered name is a
    property of [menuTemplates] stops the loop. *)
Fixpoint find_template (cuisineTypes : list jsstring) : property :=
  match cuisineTypes with
  | [] => Undefined
  | cuisine :: others =>
    match menuTemplates (toLowerCase cuisine) with
    | Undefined => find_template others
    | found => found
    end
  end.

(** The object pushed on [menuItems]. *)
Record MenuItem := {
  name : jsstring;
  category : string;
  price : jsnum;
  cuisine_type : string;
  description : jsstring;
  is_available : bool
}.

Definition item_of (restaurant : Comprehensive.Restaurant) (template : Template)
  : MenuItem :=
  {| name := utf16 (t_name template);
     category := t_category template;
     price := Num (t_price template);
     cuisine_type := t_cuisine template;
     description := utf16 "Delicious " ++ utf16 (t_name template)
                    ++ utf16 " prepared fresh at "
                    ++ Comprehensive.name restaurant;
     is_available := true |}.

(** [generateMenuItems(restaurant)]; [None] when [templateToUse.forEach]
    throws a [TypeError], the template being no array. *)
Definition generateMenuItems (restaurant : Comprehensive.Restaurant)
  : option (list MenuItem) :=
  match find_template (Comprehensive.cuisine_types restaurant) with
  | Undefined => Some (map (item_of restaurant) defaultMenu)
  | Own template => Some (map (item_of restaurant) template)
  | Inherited => None
  end.

(** A value handed to [db.execute] for a placeholder. *)
Inductive param :=
| Null
| Text (s : jsstring)
| Number (n : jsnum)
| Boolean (b : bool).

(** Truthiness of a number. *)
Definition truthy_num (n : jsnum) : bool :=
  match n with
  | NaN => false
  | Infinity _ => true
  | Num q => negb (Qeq_bool q 0)
  end.

Definition string_eqb (a b : string) : bool :=
  if string_dec a b then true else false.

(** The parameters [saveMenuItem] hands to the INSERT, in the order of its
    placeholders. *)
Record MenuItemRow := {
  row_restaurant_id : Z;
  row_name : jsstring;
  row_description : param;
  row_price : param;
  row_category : string;
  row_cuisine_type : param;
  row_is_available : bool
}.

Definition saveMenuItem_row (menuItem : MenuItem) (restaurantId : Z) : MenuItemRow :=
  {| row_restaurant_id := restaurantId;
     row_name := substring 0 250 (name menuItem);
     row_description :=
       match description menuItem with
       | [] => Null
       | d => Text (substring 0 500 d)
       end;
     row_price := if truthy_num (price menuItem) then Number (price menuItem) else Null;
     row_category :=
       if string_eqb (category menuItem) "" then "main"%string
       else category menuItem;
     row_cuisine_type :=
       if string_eqb (cuisine_type menuItem) "" then Null
       else Text (utf16 (cuisine_type menuItem));
     row_is_available := is_available menuItem |}.

(** The cuisine names the pattern of [scrapePlatform] can put in
    [cuisine_types]. *)
Definition scrapedCuisines : list jsstring :=
  map utf16
    [ "indian"; "chinese"; "italian"; "mexican"; "thai"; "american";
      "continental"; "arabic"; "lebanese"; "turkish"; "iranian"; "pizza";
      "burger"; "shawarma"; "kebab"; "biryani"; "fast food" ]%string.

(** Every template entry of the function. *)
Definition allTemplates : list Template :=
  indian ++ chinese ++ arabic ++ italian ++ fast_food ++ defaultMenu.

(** What [saveMenuItem] stores unchanged for a template entry: a name of
    at most 250 characters, a category and a cuisine that are not empty, a
    price other than zero. *)
Definition storable (t : Template) : bool :=
  (length (utf16 (t_name t)) <=? 250)%nat
  && negb (string_eqb (t_category t) "")
  && negb (string_eqb (t_cuisine t) "")
  && truthy_num (Num (t_price t)).

End Generated.

Definition with_cuisines (name : string) (cuisines : list string)
  : Comprehensive.Restaurant :=
  {| Comprehensive.name := utf16 name;
     Comprehensive.platform := utf16 "Zomato";
     Comprehensive.platform_id := [];
     Comprehensive.city := utf16 "Mumbai";
     Comprehensive.country := utf16 "India";
     Comprehensive.rating := None;
     Comprehensive.cuisine_types := map utf16 cuisines;
     Comprehensive.delivery_time := None;
     Comprehensive.full_text := utf16 name |}.

Definition pizza_then_chinese : Comprehensive.Restaurant :=
  with_cuisines "Wok and Slice" ["pizza"; "chinese"; "indian"]%string.

(* ===================================================================== *)
(** ** What the menu scrapers hand to the database *)
(* ===================================================================== *)

Module Saved.
Import JS.

Definition param := Generated.param.

















End Saved.

Definition jain_vegan_thali : jsstring := utf16 "Jain vegan thali - mild".

(* ===================================================================== *)
(** ** unlimited-scraper.js: the restaurants of an area, and their row *)
(* ===================================================================== *)

Module Area.
Import JS Regex.

(** The object the callback of [extractAllRestaurantsFromArea] pushes on
    [results]. *)
Record Restaurant := {
  name : jsstring;
  platform : jsstring;
  area : jsstring;
  city : jsstring;
  pincode : jsstring;
  full_address : option jsstring;
  phone : option jsstring;
  exact_latitude : jsnum;
  exact_longitude : jsnum;
  rating : option jsnum;
  cuisine_types : list jsstring;
  delivery_time : option jsstring;
  estimated_price : option jsnum;
  opening_info : option jsstring
}.

(** "Remove duplicates based on exact name match only" (inside the page
    callback) and "Remove duplicates across URLs" (after the loop) use the
    same test. *)
Definition exactDuplicate (existing restaurant : Restaurant) : bool :=
  jsstring_eqb (toLowerCase (name existing)) (toLowerCase (name restaurant)).

(** What the page callback returns for the records it pushed. *)
Definition unique (results : list Restaurant) : list Restaurant :=
  dedup exactDuplicate results.

(** The loop over the urls: [allRestaurants.push(...restaurants)], one
    list of pushed records for each url that was read. *)
Definition allRestaurants (pages : list (list Restaurant)) : list Restaurant :=
  flat_map unique pages.

Definition finalRestaurants (pages : list (list Restaurant)) : list Restaurant :=
  dedup exactDuplicate (allRestaurants pages).

(** The last parameter of the INSERT of [saveRestaurant]. *)
Definition slugChars : RegExp := Eval vm_compute in
  literal "[^a-z0-9]" false.

Definition platform_id (restaurant : Restaurant) : jsstring :=
  (match platform restaurant with
   | [] => utf16 "zomato"
   | p => p
   end)
  ++ utf16 "_"
  ++ substring 0 50
       (replace_all slugChars (utf16 "_") (toLowerCase (name restaurant))).

End Area.

(** The characters of a platform id after its prefix. *)
Definition slug_char (c : Z) : bool :=
  ((97 <=? c) && (c <=? 122)) || ((48 <=? c) && (c <=? 57)) || (c =? 95).

Definition lower_key (r : Area.Restaurant) : jsstring :=
  toLowerCase (Area.name r).

Definition bandra_restaurant (name : string) : Area.Restaurant :=
  {| Area.name := utf16 name;
     Area.platform := utf16 "Zomato";
     Area.area := utf16 "Bandra West";
     Area.city := utf16 "Mumbai";
     Area.pincode := utf16 "400050";
     Area.full_address := None;
     Area.phone := None;
     Area.exact_latitude := Num (190596 # 10000);
     Area.exact_longitude := Num (728295 # 10000);
     Area.rating := None;
     Area.cuisine_types := [];
     Area.delivery_time := None;
     Area.estimated_price := None;
     Area.opening_info := None |}.

Definition taj_mahal : Area.Restaurant := bandra_restaurant "Taj Mahal Hotel".
Definition taj_mahal_shouting : Area.Restaurant := bandra_restaurant "TAJ MAHAL HOTEL".
Definition leopold_cafe : Area.Restaurant := bandra_restaurant "Leopold Cafe".

(** [seen duplicate before x]: the [some] test of the duplicate removal,
    for [x] against the records [before]. *)
Definition seen {A : Type} (duplicate : A -> A -> bool) (before : list A)
    (x : A) : bool :=
  existsb (fun existing => duplicate existing x) before.

(** What [toLowerCase] and the replacement of [saveRestaurant] make of one
    character of a restaurant name. *)
Definition slug_unit (c : Z) : Z :=
  if (65 <=? c) && (c <=? 90) then c + 32
  else if ((97 <=? c) && (c <=? 122)) || ((48 <=? c) && (c <=? 57)) then c
  else 95.

Definition two_urls : list (list Area.Restaurant) :=
  [ [taj_mahal; leopold_cafe; taj_mahal_shouting];
    [taj_mahal_shouting; leopold_cafe] ].

Definition taj_mahal_text : jsstring := utf16 "Taj Mahal Hotel".

(* ===================================================================== *)
(** ** Reading the literals *)
(* ===================================================================== *)

(** In the first price pattern of [extractCompleteRealMenu] each escape is
    written with two backslashes: the pattern asks for the rupee sign, a
    backslash, any number of letters [s], and captures a backslash followed
    by letters [d]. *)
Example first_price_pattern_read :
  parse "₹\\s*(\\d+(?:\\.\\d{1,2})?)"
  = Some (Seq (Chr 8377)
            (Seq (Chr 92)
               (Seq (Rep 0 None (Chr 115))
                  (Group 1
                     (Seq (Chr 92)
                        (Seq (Rep 1 None (Chr 100))
                           (Rep 0 (Some 1%nat)
                              (Seq (Chr 92)
                                 (Seq Dot
                                    (Seq (Chr 92)
                                       (Rep 1 (Some 2%nat) (Chr 100)))))))))))).
Proof. vm_compute. reflexivity. Qed.

(** With one backslash each, the same text asks for white space and
    captures digits. *)
Example single_escapes_read :
  parse "₹\s*(\d+)"
  = Some (Seq (Chr 8377)
            (Seq (Rep 0 None (Class false space_ranges))
               (Group 1 (Rep 1 None (Class false digit_ranges))))).
Proof. vm_compute. reflexivity. Qed.

Example exec_backtracks :
  exec (literal "a(b|c)*d|x" true) (utf16 "zzABCBDx")
  = Some (MatchResult 2 (utf16 "ABCBD")
            [(1%nat, utf16 "B"); (1%nat, utf16 "C"); (1%nat, utf16 "B")]).
Proof. vm_compute. reflexivity. Qed.

Example replace_all_empty_matches :
  replace_all (literal "x*" false) (utf16 "-") (utf16 "abxxc") = utf16 "-a-b--c-".
Proof. vm_compute. reflexivity. Qed.

Example split_on_separator :
  split (utf16 ",") (utf16 "a,b,") = [utf16 "a"; utf16 "b"; []].
Proof. vm_compute. reflexivity. Qed.

(** Every literal of the callbacks is read. *)
Lemma every_literal_is_read :
  existsb unread
    ([ Unlimited.foodKeywords; Unlimited.priceKeywords; Unlimited.excludeKeywords;
       Unlimited.nameCleanChars; Unlimited.nameCleanSpaces;
       Unlimited.starterPattern; Unlimited.dessertPattern; Unlimited.ricePattern;
       Unlimited.breadPattern; Unlimited.curryPattern; Unlimited.beveragePattern;
       Unlimited.pizzaPattern; Unlimited.burgerPattern; Unlimited.pastaPattern;
       Unlimited.snackPattern; Unlimited.vegPattern; Unlimited.vegBlockPattern;
       Unlimited.nonVegPattern; Unlimited.jainPattern; Unlimited.veganPattern;
       Unlimited.glutenFreePattern; Unlimited.dairyFreePattern;
       Unlimited.ketoPattern; Unlimited.organicPattern; Unlimited.mildPattern;
       Unlimited.mediumPattern; Unlimited.spicyPattern;
       Unlimited.extraSpicyPattern; Unlimited.cuisinePattern;
       Unlimited.unavailablePattern; Unlimited.popularPattern;
       Unlimited.timePattern; Unlimited.portionPattern; Unlimited.caloriesPattern;
       Unlimited.restaurantKeywords; Unlimited.cuisineKeywords;
       Unlimited.ratingInfo; Unlimited.invalidRestaurant;
       Unlimited.restaurantCleanChars; Unlimited.restaurantCleanSpaces;
       Unlimited.notARestaurantName;
       CompleteMenu.foodKeywords; CompleteMenu.priceKeywords;
       CompleteMenu.navigationKeywords; CompleteMenu.starterPattern;
       CompleteMenu.dessertPattern; CompleteMenu.ricePattern;
       CompleteMenu.breadPattern; CompleteMenu.curryPattern;
       CompleteMenu.beveragePattern; CompleteMenu.pizzaPattern;
       CompleteMenu.burgerPattern; CompleteMenu.pastaPattern;
       CompleteMenu.snackPattern; CompleteMenu.vegPattern;
       CompleteMenu.vegBlockPattern; CompleteMenu.nonVegPattern;
       CompleteMenu.jainPattern; CompleteMenu.veganPattern;
       CompleteMenu.glutenFreePattern; CompleteMenu.mildPattern;
       CompleteMenu.mediumPattern; CompleteMenu.spicyPattern;
       CompleteMenu.cuisinePattern; CompleteMenu.unavailablePattern;
       CompleteMenu.popularPattern; CompleteMenu.timePattern ]
     ++ Unlimited.pricePatterns ++ CompleteMenu.pricePatterns
     ++ pricePatterns_as_specified)
  = false.
Proof. vm_compute. reflexivity. Qed.

(* ===================================================================== *)
(** ** Keyword patterns are substring tests *)
(* ===================================================================== *)

Lemma existsb_orb {X : Type} (f g : X -> bool) (l : list X) :
  existsb (fun x => f x || g x) l = existsb f l || existsb g l.
Proof.
  induction l as [|x l IH]; simpl; [reflexivity|].
  rewrite IH. destruct (f x), (g x), (existsb f l), (existsb g l); reflexivity.
Qed.

Lemma ms_literal ic r :
  forall l, literal_of r = Some l ->
  forall st, nonempty (ms ic r st) = starts_ci ic l (rest st).
Proof.
  induction r; intros l Hl st; simpl in Hl; try discriminate.
  - inversion Hl; subst. reflexivity.
  - inversion Hl; subst. simpl. unfold one.
    destruct (rest st) as [|x t]; [reflexivity|].
    destruct (canon ic x =? canon ic c); reflexivity.
  - destruct r1; try discriminate.
    destruct (literal_of r2) as [l2|] eqn:E2; simpl in Hl; [|discriminate].
    inversion Hl; subst. simpl. unfold one.
    destruct (rest st) as [|x t]; [reflexivity|]. simpl.
    destruct (canon ic x =? canon ic c); simpl; [|reflexivity].
    rewrite app_nil_r. rewrite (IHr2 l2 eq_refl). reflexivity.
Qed.

Lemma nonempty_app {X : Type} (a b : list X) :
  nonempty (a ++ b) = nonempty a || nonempty b.
Proof. destruct a; reflexivity. Qed.

Lemma ms_keywords ic r :
  forall ls, keywords r = Some ls ->
  forall st, nonempty (ms ic r st) = existsb (fun l => starts_ci ic l (rest st)) ls.
Proof.
  assert (single : forall r0 ls, option_map (fun l => [l]) (literal_of r0) = Some ls ->
            forall st, nonempty (ms ic r0 st)
                       = existsb (fun l => starts_ci ic l (rest st)) ls).
  { intros r0 ls H st. destruct (literal_of r0) as [l|] eqn:E; [|discriminate].
    inversion H; subst. simpl. rewrite orb_false_r. apply ms_literal. exact E. }
  induction r; intros ls Hls st; try (apply single; exact Hls).
  simpl in Hls.
  destruct (literal_of r1) as [l1|] eqn:E1; [|discriminate].
  destruct (keywords r2) as [ls2|] eqn:E2; [|discriminate].
  inversion Hls; subst. simpl. rewrite nonempty_app.
  rewrite (ms_literal ic r1 E1), (IHr2 ls2 eq_refl). reflexivity.
Qed.

Lemma exec_from_keywords ic r ls :
  keywords r = Some ls ->
  forall s p,
    (match exec_from ic r p s with Some _ => true | None => false end)
    = existsb (fun l => includes_ci ic l s) ls.
Proof.
  intros Hk. induction s as [|x t IH]; intros p.
  - simpl. pose proof (ms_keywords ic r Hk (MState p [] [])) as H. simpl in H.
    rewrite existsb_orb, <- H.
    replace (existsb (fun _ : jsstring => false) ls) with false
      by (clear; induction ls; simpl; auto).
    destruct (ms ic r (MState p [] [])); reflexivity.
  - simpl. pose proof (ms_keywords ic r Hk (MState p (x :: t) [])) as H. simpl in H.
    rewrite existsb_orb. rewrite <- H. rewrite <- (IH (S p)).
    destruct (ms ic r (MState p (x :: t) [])); reflexivity.
Qed.

(** A pattern that is an alternation of keywords tests whether one of the
    keywords occurs, up to case. *)
Lemma test_keywords re ls s :
  keywords (pattern re) = Some ls ->
  test re s = existsb (fun l => includes_ci (ignoreCase re) l s) ls.
Proof.
  intros Hk. unfold test, exec. apply exec_from_keywords. exact Hk.
Qed.

(* ===================================================================== *)
(** ** Substrings and lowering *)
(* ===================================================================== *)

Lemma startsWith_occurs p s :
  startsWith p s = true <-> exists after, s = p ++ after.
Proof.
  revert s. induction p as [|a p IH]; intros s; simpl.
  - split; [intros _; exists s; reflexivity | reflexivity].
  - destruct s as [|b s]; simpl.
    + split; [discriminate | intros [after H]; discriminate].
    + rewrite andb_true_iff, Z.eqb_eq, IH. split.
      * intros [-> [after ->]]. exists after. reflexivity.
      * intros [after H]. inversion H; subst. split; [reflexivity|].
        exists after. reflexivity.
Qed.

Lemma includes_occurs p s : includes p s = true <-> occurs p s.
Proof.
  unfold occurs. induction s as [|x t IH]; simpl.
  - rewrite orb_false_r, startsWith_occurs. split.
    + intros [after H]. exists [], after. exact H.
    + intros [before [after H]]. destruct before as [|b before]; simpl in H.
      * exists after. exact H.
      * discriminate.
  - rewrite orb_true_iff, startsWith_occurs, IH. split.
    + intros [[after H] | [before [after H]]].
      * exists [], after. exact H.
      * exists (x :: before), after. rewrite H. reflexivity.
    + intros [before [after H]]. destruct before as [|b before]; simpl in H.
      * left. exists after. exact H.
      * right. inversion H; subst. exists before, after. reflexivity.
Qed.

Lemma occurs_trans p q s : occurs p q -> occurs q s -> occurs p s.
Proof.
  intros [b1 [a1 ->]] [b2 [a2 ->]].
  exists (b2 ++ b1), (a1 ++ a2). repeat rewrite <- app_assoc. reflexivity.
Qed.

Lemma includes_trans p q s :
  includes p q = true -> includes q s = true -> includes p s = true.
Proof.
  rewrite !includes_occurs. apply occurs_trans.
Qed.

Lemma toLowerCase_app a b :
  toLowerCase (a ++ b) = toLowerCase a ++ toLowerCase b.
Proof. unfold toLowerCase. apply flat_map_app. Qed.

(** A lower-case phrase that occurs in a text occurs in the lowered text. *)
Lemma includes_toLowerCase p s :
  toLowerCase p = p -> includes p s = true -> includes p (toLowerCase s) = true.
Proof.
  intros Hp. rewrite !includes_occurs. intros [before [after ->]].
  exists (toLowerCase before), (toLowerCase after).
  rewrite !toLowerCase_app, Hp. reflexivity.
Qed.

Lemma lower_unit_no_upper c : forallb no_upper (lower_unit c) = true.
Proof.
  unfold lower_unit, no_upper.
  destruct (65 <=? c) eqn:E1; destruct (c <=? 90) eqn:E2; simpl;
    repeat match goal with
           | |- context [?a =? ?b] => destruct (Z.eqb_spec a b); simpl
           | |- context [?a <=? ?b] => destruct (Z.leb_spec a b); simpl
           end; try reflexivity; try lia.
Qed.

Lemma toLowerCase_no_upper s : forallb no_upper (toLowerCase s) = true.
Proof.
  induction s as [|c s IH]; simpl; [reflexivity|].
  rewrite forallb_app, lower_unit_no_upper, IH. reflexivity.
Qed.

Lemma canon_exact x c :
  no_upper x = true -> no_upper c = true ->
  (canon true x =? canon true c) = (x =? c).
Proof.
  unfold no_upper, canon. intros Hx Hc. simpl.
  repeat match goal with
         | H : context [?a <=? ?b] |- _ => destruct (Z.leb_spec a b); simpl in H
         | |- context [?a <=? ?b] => destruct (Z.leb_spec a b); simpl
         end; try discriminate;
  repeat match goal with
         | |- context [?a =? ?b] => destruct (Z.eqb_spec a b)
         end; try reflexivity; try lia.
Qed.

Lemma starts_ci_exact p :
  forallb no_upper p = true ->
  forall s, forallb no_upper s = true -> starts_ci true p s = startsWith p s.
Proof.
  induction p as [|c p IH]; intros Hp s Hs; simpl; [reflexivity|].
  destruct s as [|x s]; [reflexivity|].
  simpl in Hp, Hs. apply andb_true_iff in Hp as [Hc Hp].
  apply andb_true_iff in Hs as [Hx Hs].
  rewrite canon_exact by assumption. rewrite IH by assumption.
  rewrite (Z.eqb_sym x c). reflexivity.
Qed.

Lemma includes_ci_exact p :
  forallb no_upper p = true ->
  forall s, forallb no_upper s = true -> includes_ci true p s = includes p s.
Proof.
  intros Hp. induction s as [|x s IH]; intros Hs; simpl.
  - rewrite starts_ci_exact by assumption. reflexivity.
  - rewrite starts_ci_exact by assumption.
    simpl in Hs. apply andb_true_iff in Hs as [_ Hs].
    rewrite IH by assumption. reflexivity.
Qed.

Lemma existsb_ext_in {X : Type} (f g : X -> bool) l :
  (forall x, In x l -> f x = g x) -> existsb f l = existsb g l.
Proof.
  induction l as [|x l IH]; intros H; simpl; [reflexivity|].
  rewrite (H x (or_introl eq_refl)), IH; [reflexivity|].
  intros y Hy. apply H. right. exact Hy.
Qed.

(** On a lowered text, a case-insensitive pattern that is an alternation
    of lower-case keywords tests whether one of them occurs. *)
Lemma test_lowered re ls text :
  keywords (pattern re) = Some ls ->
  ignoreCase re = true ->
  forallb (forallb no_upper) ls = true ->
  test re (toLowerCase text)
  = existsb (fun l => includes l (toLowerCase text)) ls.
Proof.
  intros Hk Hi Hl. rewrite (test_keywords re _ Hk), Hi.
  apply existsb_ext_in. intros l Hin.
  apply includes_ci_exact; [|apply toLowerCase_no_upper].
  rewrite forallb_forall in Hl. apply Hl. exact Hin.
Qed.

(* ===================================================================== *)
(** ** First-match-wins tables *)
(* ===================================================================== *)

Lemma first_match_wins_row {B : Type} (above below : list (RegExp * B))
    (re : RegExp) (outcome default : B) (s : jsstring) :
  (forall row, In row above -> test (fst row) s = false) ->
  test re s = true ->
  first_match_wins (above ++ (re, outcome) :: below) default s = outcome.
Proof.
  induction above as [|[re0 o0] above IH]; intros Habove Hre; simpl.
  - rewrite Hre. reflexivity.
  - pose proof (Habove (re0, o0) (or_introl eq_refl)) as H0. simpl in H0.
    rewrite H0. apply IH; [|exact Hre].
    intros row Hin. apply Habove. right. exact Hin.
Qed.

Lemma first_match_wins_default {B : Type} (table : list (RegExp * B))
    (default : B) (s : jsstring) :
  (forall row, In row table -> test (fst row) s = false) ->
  first_match_wins table default s = default.
Proof.
  induction table as [|[re0 o0] table IH]; intros Hnone; simpl; [reflexivity|].
  pose proof (Hnone (re0, o0) (or_introl eq_refl)) as H0. simpl in H0.
  rewrite H0. apply IH.
  intros row Hin. apply Hnone. right. exact Hin.
Qed.

(* ===================================================================== *)
(** ** The duplicate removal *)
(* ===================================================================== *)

Section DedupFacts.
Variable A : Type.
Variable duplicate : A -> A -> bool.

Lemma fold_push_survivors (l : list A) :
  forall unique,
    fold_left (push_unique duplicate) l unique
    = unique ++ survivors duplicate unique l.
Proof.
  induction l as [|x l IH]; intros unique; simpl.
  - rewrite app_nil_r. reflexivity.
  - unfold push_unique at 2.
    destruct (existsb (fun existing => duplicate existing x) unique).
    + apply IH.
    + rewrite IH, <- app_assoc. reflexivity.
Qed.

Lemma dedup_survivors (l : list A) :
  dedup duplicate l = survivors duplicate [] l.
Proof. unfold dedup. rewrite fold_push_survivors. reflexivity. Qed.

Lemma survivors_fresh (l : list A) :
  forall before, fresh_from duplicate before (survivors duplicate before l) = true.
Proof.
  induction l as [|x l IH]; intros before; simpl; [reflexivity|].
  destruct (existsb (fun existing => duplicate existing x) before) eqn:E.
  - apply IH.
  - simpl. rewrite E, IH. reflexivity.
Qed.

Lemma fresh_survivors (l : list A) :
  forall before,
    fresh_from duplicate before l = true -> survivors duplicate before l = l.
Proof.
  induction l as [|x l IH]; intros before H; simpl in *; [reflexivity|].
  apply andb_true_iff in H as [Hx Hl].
  destruct (existsb (fun existing => duplicate existing x) before);
    [discriminate|].
  rewrite IH by exact Hl. reflexivity.
Qed.

Lemma dedup_idempotent (l : list A) :
  dedup duplicate (dedup duplicate l) = dedup duplicate l.
Proof.
  rewrite !dedup_survivors. apply fresh_survivors, survivors_fresh.
Qed.

Lemma survivors_subseq (l : list A) :
  forall before, Subseq (survivors duplicate before l) l.
Proof.
  induction l as [|x l IH]; intros before; simpl; [constructor|].
  destruct (existsb (fun existing => duplicate existing x) before).
  - apply Subseq_skip, IH.
  - apply Subseq_keep, IH.
Qed.

Lemma dedup_subseq (l : list A) : Subseq (dedup duplicate l) l.
Proof. rewrite dedup_survivors. apply survivors_subseq. Qed.

Lemma fresh_firstn (n : nat) :
  forall l before,
    fresh_from duplicate before l = true ->
    fresh_from duplicate before (firstn n l) = true.
Proof.
  induction n as [|n IH]; intros l before H; [reflexivity|].
  destruct l as [|x l]; [reflexivity|]. simpl in *.
  apply andb_true_iff in H as [Hx Hl]. rewrite Hx. simpl. apply IH, Hl.
Qed.

Lemma dedup_three (a b a' : A) :
  duplicate a a' = true -> duplicate a b = false ->
  dedup duplicate [a; b; a'] = [a; b].
Proof.
  intros Haa Hab. unfold dedup, push_unique. simpl.
  rewrite Hab. simpl. rewrite Haa. reflexivity.
Qed.

End DedupFacts.

(** A page limit after the removal does not disturb it: removing the
    duplicates of what [scrapePlatform] returned changes nothing. *)
Lemma scraped_unique (results : list Comprehensive.Restaurant) :
  Comprehensive.unique (Comprehensive.scraped results)
  = Comprehensive.scraped results.
Proof.
  unfold Comprehensive.scraped, Comprehensive.unique.
  rewrite (dedup_survivors _ (firstn _ _)).
  apply fresh_survivors, fresh_firstn.
  rewrite dedup_survivors. apply survivors_fresh.
Qed.

(* ===================================================================== *)
(** ** Category *)
(* ===================================================================== *)

Lemma extractCategory_table text :
  Unlimited.extractCategory text
  = first_match_wins categoryTable "main"%string (toLowerCase text).
Proof. reflexivity. Qed.

Lemma extractCategory_table_complete text :
  CompleteMenu.extractCategory text
  = first_match_wins categoryTable_complete "main"%string (toLowerCase text).
Proof. reflexivity. Qed.

(** Each row of the category table is a set of keywords: its pattern
    matches a lowered text exactly when one of them occurs in it. *)
Lemma category_rows_are_keyword_sets text row :
  In row categoryTable ->
  exists ks,
    keywords (pattern (fst row)) = Some ks
    /\ test (fst row) (toLowerCase text)
       = existsb (fun k => includes k (toLowerCase text)) ks.
Proof.
  intros Hin. unfold categoryTable in Hin. simpl in Hin.
  repeat (destruct Hin as [<- | Hin];
          [eexists; split;
           [vm_compute; reflexivity
           | apply test_lowered; vm_compute; reflexivity]|]).
  destruct Hin.
Qed.

(** C2.  The category of a text is the label of the first row of the table
    starter, dessert, rice, bread, curry, beverage, pizza, burger, pasta,
    snack whose pattern matches the lowered text, whatever the rows below
    it do, and "main" when no row matches; "Chicken Biryani with Gulab
    Jamun" matches the dessert row and the rice row and is a "dessert". *)
Theorem category_first_row_wins :
  (forall text,
      Unlimited.extractCategory text
      = first_match_wins categoryTable "main"%string (toLowerCase text))
  /\ (forall text above re label below,
         categoryTable = above ++ (re, label) :: below ->
         (forall row, In row above -> test (fst row) (toLowerCase text) = false) ->
         test re (toLowerCase text) = true ->
         Unlimited.extractCategory text = label)
  /\ (forall text,
         (forall row, In row categoryTable ->
                      test (fst row) (toLowerCase text) = false) ->
         Unlimited.extractCategory text = "main"%string)
  /\ map snd categoryTable = canonical_order
  /\ (forall text row,
         In row categoryTable ->
         exists ks,
           keywords (pattern (fst row)) = Some ks
           /\ test (fst row) (toLowerCase text)
              = existsb (fun k => includes k (toLowerCase text)) ks)
  /\ (forall text,
         CompleteMenu.extractCategory text
         = first_match_wins categoryTable_complete "main"%string (toLowerCase text))
  /\ map snd categoryTable_complete = canonical_order
  /\ test Unlimited.dessertPattern (toLowerCase biryani_gulab_jamun) = true
  /\ test Unlimited.ricePattern (toLowerCase biryani_gulab_jamun) = true
  /\ Unlimited.extractCategory biryani_gulab_jamun = "dessert"%string
  /\ CompleteMenu.extractCategory biryani_gulab_jamun = "dessert"%string.
Proof.
  split; [exact extractCategory_table|].
  split.
  { intros text above re label below Htable Habove Hre.
    rewrite extractCategory_table, Htable.
    apply first_match_wins_row; assumption. }
  split.
  { intros text Hnone. rewrite extractCategory_table.
    apply first_match_wins_default. exact Hnone. }
  split; [reflexivity|].
  split; [exact category_rows_are_keyword_sets|].
  split; [exact extractCategory_table_complete|].
  split; [reflexivity|].
  repeat split; vm_compute; reflexivity.
Qed.

Lemma category_first_row_wins_witness :
  test Unlimited.starterPattern (toLowerCase biryani_gulab_jamun) = false
  /\ test Unlimited.dessertPattern (toLowerCase biryani_gulab_jamun) = true
  /\ Unlimited.extractCategory biryani_gulab_jamun = "dessert"%string
  /\ Unlimited.extractCategory grilled_chicken = "main"%string.
Proof.
  split; [vm_compute; reflexivity|].
  split; [vm_compute; reflexivity|].
  split.
  - apply (proj1 (proj2 category_first_row_wins) biryani_gulab_jamun
             [(Unlimited.starterPattern, "starter"%string)]
             Unlimited.dessertPattern "dessert"%string
             (tl (tl categoryTable))).
    + reflexivity.
    + intros row [<- | []]. vm_compute. reflexivity.
    + vm_compute. reflexivity.
  - apply (proj1 (proj2 (proj2 category_first_row_wins)) grilled_chicken).
    intros row Hin. unfold categoryTable in Hin. simpl in Hin.
    repeat (destruct Hin as [<- | Hin]; [vm_compute; reflexivity|]).
    destruct Hin.
Defined.

(* ===================================================================== *)
(** ** Exclusion *)
(* ===================================================================== *)

Lemma menuItemOf_excluded innerText :
  test Unlimited.excludeKeywords (trim innerText) = true ->
  Unlimited.menuItemOf innerText = None.
Proof.
  intros H. unfold Unlimited.menuItemOf. cbv zeta. rewrite H.
  simpl negb. rewrite andb_false_r.
  destruct ((length (trim innerText) <? 4)%nat || (800 <? length (trim innerText))%nat);
    reflexivity.
Qed.

Lemma restaurantNameOf_excluded innerText :
  test Unlimited.invalidRestaurant (trim innerText) = true ->
  Unlimited.restaurantNameOf innerText = None.
Proof.
  intros H. unfold Unlimited.restaurantNameOf. cbv zeta. rewrite H.
  simpl negb. rewrite andb_false_r.
  destruct ((length (trim innerText) <? 10)%nat || (1000 <? length (trim innerText))%nat);
    reflexivity.
Qed.

Lemma menuItemOf_complete_excluded innerText :
  test CompleteMenu.navigationKeywords (trim innerText) = true ->
  CompleteMenu.menuItemOf innerText = None.
Proof.
  intros H. unfold CompleteMenu.menuItemOf. cbv zeta. rewrite H. simpl negb.
  destruct ((length (trim innerText) <? 4)%nat || (500 <? length (trim innerText))%nat);
    [reflexivity|].
  destruct (test CompleteMenu.foodKeywords (trim innerText)
            || test CompleteMenu.priceKeywords (trim innerText)); reflexivity.
Qed.

Lemma menuItems_app before after :
  Unlimited.menuItems (before ++ after)
  = Unlimited.menuItems before ++ Unlimited.menuItems after.
Proof.
  induction before as [|e before IH]; simpl; [reflexivity|].
  destruct (Unlimited.menuItemOf e); rewrite IH; reflexivity.
Qed.

(** C3.  An element whose text matches an exclusion keyword pushes no
    record, whatever else the text matches: in the menu callback, in the
    restaurant callback and in the complete-menu callback; the items of a
    page are those of the page without that element.  "Order Biryani Now -
    Login to continue" matches a food keyword and is rejected. *)
Theorem exclusion_always_wins :
  (forall innerText,
      test Unlimited.excludeKeywords (trim innerText) = true ->
      Unlimited.menuItemOf innerText = None)
  /\ (forall before innerText after,
         test Unlimited.excludeKeywords (trim innerText) = true ->
         Unlimited.menuItems (before ++ innerText :: after)
         = Unlimited.menuItems (before ++ after))
  /\ (forall innerText,
         test Unlimited.invalidRestaurant (trim innerText) = true ->
         Unlimited.restaurantNameOf innerText = None)
  /\ (forall innerText,
         test CompleteMenu.navigationKeywords (trim innerText) = true ->
         CompleteMenu.menuItemOf innerText = None)
  /\ test Unlimited.foodKeywords (trim order_biryani) = true
  /\ test Unlimited.excludeKeywords (trim order_biryani) = true
  /\ Unlimited.menuItemOf order_biryani = None
  /\ test Unlimited.cuisineKeywords (trim order_biryani) = true
  /\ Unlimited.restaurantNameOf order_biryani = None.
Proof.
  split; [exact menuItemOf_excluded|].
  split.
  { intros before innerText after H.
    rewrite !menuItems_app. simpl.
    rewrite (menuItemOf_excluded _ H). reflexivity. }
  split; [exact restaurantNameOf_excluded|].
  split; [exact menuItemOf_complete_excluded|].
  repeat split; vm_compute; reflexivity.
Qed.

Lemma exclusion_always_wins_witness :
  test Unlimited.foodKeywords (trim order_biryani) = true
  /\ test Unlimited.excludeKeywords (trim order_biryani) = true
  /\ Unlimited.menuItemOf order_biryani = None
  /\ Unlimited.menuItems [grilled_chicken; order_biryani]
     = Unlimited.menuItems [grilled_chicken]
  /\ test Unlimited.invalidRestaurant (trim order_biryani) = true
  /\ Unlimited.restaurantNameOf order_biryani = None
  /\ test CompleteMenu.navigationKeywords (trim order_biryani) = true
  /\ CompleteMenu.menuItemOf order_biryani = None.
Proof.
  split; [vm_compute; reflexivity|].
  split; [vm_compute; reflexivity|].
  split.
  { apply (proj1 exclusion_always_wins order_biryani). vm_compute. reflexivity. }
  split.
  { apply (proj1 (proj2 exclusion_always_wins) [grilled_chicken] order_biryani []).
    vm_compute. reflexivity. }
  split; [vm_compute; reflexivity|].
  split.
  { apply (proj1 (proj2 (proj2 exclusion_always_wins)) order_biryani).
    vm_compute. reflexivity. }
  split; [vm_compute; reflexivity|].
  apply (proj1 (proj2 (proj2 (proj2 exclusion_always_wins))) order_biryani).
  vm_compute. reflexivity.
Defined.

(* ===================================================================== *)
(** ** Spice level *)
(* ===================================================================== *)

(** What the four patterns of the chain test, on a lowered text. *)
Lemma mild_test text :
  test Unlimited.mildPattern (toLowerCase text)
  = existsb (fun l => includes l (toLowerCase text))
      (map utf16 ["mild"; "not spicy"; "less spicy"; "no spice"; "bland"]%string).
Proof. apply test_lowered; vm_compute; reflexivity. Qed.

Lemma spicy_test text :
  test Unlimited.spicyPattern (toLowerCase text)
  = existsb (fun l => includes l (toLowerCase text))
      (map utf16 ["spicy"; "hot"; "very spicy"; "extra spicy"; "fiery";
                  "burning"; "chili hot"]%string).
Proof. apply test_lowered; vm_compute; reflexivity. Qed.

Lemma extraSpicy_test text :
  test Unlimited.extraSpicyPattern (toLowerCase text)
  = existsb (fun l => includes l (toLowerCase text))
      (map utf16 ["extremely spicy"; "super hot"; "devil hot";
                  "ghost pepper"]%string).
Proof. apply test_lowered; vm_compute; reflexivity. Qed.

Lemma mild_test_complete text :
  test CompleteMenu.mildPattern (toLowerCase text)
  = existsb (fun l => includes l (toLowerCase text))
      (map utf16 ["mild"; "not spicy"; "less spicy"]%string).
Proof. apply test_lowered; vm_compute; reflexivity. Qed.

Lemma mild_wins text :
  includes (utf16 "mild") text = true ->
  Unlimited.extractSpiceLevel text = Some "mild"%string
  /\ CompleteMenu.extractSpiceLevel text = Some "mild"%string.
Proof.
  intros H.
  assert (Hl : includes (utf16 "mild") (toLowerCase text) = true)
    by (apply includes_toLowerCase; [reflexivity | exact H]).
  unfold Unlimited.extractSpiceLevel, Unlimited.spice,
    CompleteMenu.extractSpiceLevel, CompleteMenu.spice.
  rewrite mild_test, mild_test_complete. simpl existsb.
  rewrite Hl. split; reflexivity.
Qed.

(** C4.  The spice level of a text is the label of the first of the checks
    mild, medium, spicy, extra-spicy whose pattern matches the lowered
    text, and absent when none matches; a text in which "mild" and "very
    spicy" both occur is "mild". *)
Theorem spice_first_check_wins :
  (forall text,
      Unlimited.extractSpiceLevel text
      = first_match_wins spiceTable None (toLowerCase text))
  /\ map snd spiceTable
     = [Some "mild"; Some "medium"; Some "spicy"; Some "extra-spicy"]%string
  /\ (forall text,
         CompleteMenu.extractSpiceLevel text
         = first_match_wins spiceTable_complete None (toLowerCase text))
  /\ (forall text,
         includes (utf16 "mild") text = true ->
         includes (utf16 "very spicy") text = true ->
         Unlimited.extractSpiceLevel text = Some "mild"%string
         /\ CompleteMenu.extractSpiceLevel text = Some "mild"%string).
Proof.
  split; [reflexivity|].
  split; [reflexivity|].
  split; [reflexivity|].
  intros text Hmild _. apply mild_wins. exact Hmild.
Qed.

Lemma spice_first_check_wins_witness :
  includes (utf16 "mild") mild_or_very_spicy = true
  /\ includes (utf16 "very spicy") mild_or_very_spicy = true
  /\ Unlimited.extractSpiceLevel mild_or_very_spicy = Some "mild"%string
  /\ CompleteMenu.extractSpiceLevel mild_or_very_spicy = Some "mild"%string.
Proof.
  split; [vm_compute; reflexivity|].
  split; [vm_compute; reflexivity|].
  apply (proj2 (proj2 (proj2 spice_first_check_wins)) mild_or_very_spicy);
    vm_compute; reflexivity.
Defined.

Lemma trigger_is_spicy text p :
  In p (map utf16 ["extremely spicy"; "super hot"; "devil hot"]%string) ->
  includes p (toLowerCase text) = true ->
  test Unlimited.spicyPattern (toLowerCase text) = true.
Proof.
  intros Hin Hp. rewrite spicy_test. simpl existsb.
  simpl in Hin. destruct Hin as [<- | [<- | [<- | []]]].
  - rewrite (includes_trans (utf16 "spicy") (utf16 "extremely spicy") _
               eq_refl Hp). reflexivity.
  - rewrite (includes_trans (utf16 "hot") (utf16 "super hot") _ eq_refl Hp).
    rewrite orb_true_r. reflexivity.
  - rewrite (includes_trans (utf16 "hot") (utf16 "devil hot") _ eq_refl Hp).
    rewrite orb_true_r. reflexivity.
Qed.

(** C10, as amended.  A text is "extra-spicy" exactly when "ghost pepper"
    occurs in the lowered text and none of the mild, medium and spicy
    patterns matches it.  When "extremely spicy", "super hot" or "devil
    hot" occurs, the spicy pattern matches, the text is never
    "extra-spicy", and it is "spicy" unless the mild or the medium pattern
    matches first. *)
Theorem extra_spicy_only_ghost_pepper :
  (forall text,
      Unlimited.extractSpiceLevel text = Some "extra-spicy"%string
      <-> (includes (utf16 "ghost pepper") (toLowerCase text) = true
           /\ test Unlimited.mildPattern (toLowerCase text) = false
           /\ test Unlimited.mediumPattern (toLowerCase text) = false
           /\ test Unlimited.spicyPattern (toLowerCase text) = false))
  /\ (forall text p,
         In p (map utf16 ["extremely spicy"; "super hot"; "devil hot"]%string) ->
         includes p (toLowerCase text) = true ->
         test Unlimited.spicyPattern (toLowerCase text) = true
         /\ Unlimited.extractSpiceLevel text <> Some "extra-spicy"%string
         /\ (test Unlimited.mildPattern (toLowerCase text) = false ->
             test Unlimited.mediumPattern (toLowerCase text) = false ->
             Unlimited.extractSpiceLevel text = Some "spicy"%string)).
Proof.
  split.
  - intros text. unfold Unlimited.extractSpiceLevel, Unlimited.spice.
    destruct (test Unlimited.mildPattern (toLowerCase text)) eqn:Emild.
    { split; [discriminate | intros [_ [H _]]; discriminate]. }
    destruct (test Unlimited.mediumPattern (toLowerCase text)) eqn:Emedium.
    { split; [discriminate | intros [_ [_ [H _]]]; discriminate]. }
    destruct (test Unlimited.spicyPattern (toLowerCase text)) eqn:Espicy.
    { split; [discriminate | intros [_ [_ [_ H]]]; discriminate]. }
    rewrite extraSpicy_test. simpl existsb.
    destruct (includes (utf16 "extremely spicy") (toLowerCase text)) eqn:E1.
    { rewrite (@trigger_is_spicy text (utf16 "extremely spicy")) in Espicy;
        [discriminate | simpl; auto | exact E1]. }
    destruct (includes (utf16 "super hot") (toLowerCase text)) eqn:E2.
    { rewrite (@trigger_is_spicy text (utf16 "super hot")) in Espicy;
        [discriminate | simpl; auto | exact E2]. }
    destruct (includes (utf16 "devil hot") (toLowerCase text)) eqn:E3.
    { rewrite (@trigger_is_spicy text (utf16 "devil hot")) in Espicy;
        [discriminate | simpl; auto | exact E3]. }
    simpl. rewrite orb_false_r.
    destruct (includes (utf16 "ghost pepper") (toLowerCase text)).
    + split; [intros _; repeat split | reflexivity].
    + split; [discriminate | intros [H _]; discriminate].
  - intros text p Hin Hp.
    pose proof (@trigger_is_spicy text p Hin Hp) as Hspicy.
    split; [exact Hspicy|].
    unfold Unlimited.extractSpiceLevel, Unlimited.spice. rewrite Hspicy.
    split.
    + destruct (test Unlimited.mildPattern (toLowerCase text));
        [discriminate|].
      destruct (test Unlimited.mediumPattern (toLowerCase text)); discriminate.
    + intros -> ->. reflexivity.
Qed.

Lemma extra_spicy_only_ghost_pepper_witness :
  Unlimited.extractSpiceLevel ghost_pepper_wings = Some "extra-spicy"%string
  /\ includes (utf16 "super hot") (toLowerCase mild_but_super_hot) = true
  /\ test Unlimited.spicyPattern (toLowerCase mild_but_super_hot) = true
  /\ Unlimited.extractSpiceLevel mild_but_super_hot <> Some "extra-spicy"%string.
Proof.
  split.
  { apply (proj1 extra_spicy_only_ghost_pepper ghost_pepper_wings).
    repeat split; vm_compute; reflexivity. }
  split; [vm_compute; reflexivity|].
  assert (Hin : In (utf16 "super hot")
                   (map utf16 ["extremely spicy"; "super hot"; "devil hot"]%string))
    by (simpl; auto).
  assert (Hp : includes (utf16 "super hot") (toLowerCase mild_but_super_hot) = true)
    by (vm_compute; reflexivity).
  destruct (proj2 extra_spicy_only_ghost_pepper mild_but_super_hot
              (utf16 "super hot") Hin Hp) as [H1 [H2 _]].
  split; assumption.
Defined.

(** C10 as stated fails: "super hot" occurs in this text and its level is
    "mild", not "spicy". *)
Lemma super_hot_labelled_mild :
  includes (utf16 "super hot") mild_but_super_hot = true
  /\ Unlimited.extractSpiceLevel mild_but_super_hot = Some "mild"%string
  /\ Unlimited.extractSpiceLevel mild_but_super_hot <> Some "spicy"%string.
Proof.
  split; [vm_compute; reflexivity|].
  split; [vm_compute; reflexivity|].
  vm_compute. discriminate.
Qed.

(* ===================================================================== *)
(** ** Availability *)
(* ===================================================================== *)

(** C5, as amended.  An item is unavailable exactly when the lowered text
    holds one of the phrases of the pattern: eleven phrases in
    [extractCompleteRealMenu], five in [extractAllMenuItems]. *)
Theorem availability_phrases :
  forall text,
    Unlimited.extractAvailability text
    = negb (existsb (fun p => includes p (toLowerCase text)) unavailablePhrases)
    /\ CompleteMenu.extractAvailability text
       = negb (existsb (fun p => includes p (toLowerCase text))
                       unavailablePhrases_complete).
Proof.
  intros text.
  unfold Unlimited.extractAvailability, CompleteMenu.extractAvailability.
  split; f_equal; apply test_lowered; vm_compute; reflexivity.
Qed.

(** C5 as stated fails: this text is unavailable and holds none of the
    five phrases of the claim, in any case. *)
Lemma seasonal_is_unavailable :
  ~ (Unlimited.extractAvailability seasonal_lassi = false
     <-> exists p, In p specifiedPhrases
                   /\ includes p (toLowerCase seasonal_lassi) = true).
Proof.
  intros [Hto _].
  destruct (Hto ltac:(vm_compute; reflexivity)) as [p [Hin Hp]].
  simpl in Hin.
  repeat (destruct Hin as [<- | Hin]; [vm_compute in Hp; discriminate|]).
  destruct Hin.
Qed.

(* ===================================================================== *)
(** ** Duplicates, under the two policies *)
(* ===================================================================== *)

(** C6.  Removing duplicates twice is removing them once, under the exact
    policy of [extractAllMenuItems] (same lowered name and same price,
    two absent prices being the same) and under the prefix policy of
    [scrapePlatform]. *)
Theorem dedup_idempotence :
  (forall X : list CompleteMenu.MenuItem,
      CompleteMenu.uniqueMenuItems (CompleteMenu.uniqueMenuItems X)
      = CompleteMenu.uniqueMenuItems X)
  /\ (forall X : list Comprehensive.Restaurant,
         Comprehensive.unique (Comprehensive.unique X) = Comprehensive.unique X)
  /\ CompleteMenu.exactDuplicate dal_makhani dal_makhani_again = true
  /\ Comprehensive.isDuplicate spice_garden spice_garden_again = true.
Proof.
  split; [intros X; apply dedup_idempotent|].
  split; [intros X; apply dedup_idempotent|].
  split; vm_compute; reflexivity.
Qed.

(** C7.  The removal returns the records that are not a duplicate of a
    survivor before them, in the order of the input, so that the first of
    several duplicates is the one kept.  For an input A, B, A' in which A'
    is a duplicate of A (B standing for another record, not a duplicate of
    A) the output is A, B. *)
Theorem dedup_keeps_first_occurrences :
  (forall X : list CompleteMenu.MenuItem,
      CompleteMenu.uniqueMenuItems X = survivors CompleteMenu.exactDuplicate [] X
      /\ Subseq (CompleteMenu.uniqueMenuItems X) X)
  /\ (forall X : list Comprehensive.Restaurant,
         Comprehensive.unique X = survivors Comprehensive.isDuplicate [] X
         /\ Subseq (Comprehensive.unique X) X)
  /\ (forall (x : CompleteMenu.MenuItem) X,
         CompleteMenu.uniqueMenuItems (x :: X)
         = x :: survivors CompleteMenu.exactDuplicate [x] X)
  /\ (forall (x : Comprehensive.Restaurant) X,
         Comprehensive.unique (x :: X)
         = x :: survivors Comprehensive.isDuplicate [x] X)
  /\ (forall a b a' : CompleteMenu.MenuItem,
         CompleteMenu.exactDuplicate a a' = true ->
         CompleteMenu.exactDuplicate a b = false ->
         CompleteMenu.uniqueMenuItems [a; b; a'] = [a; b])
  /\ (forall a b a' : Comprehensive.Restaurant,
         Comprehensive.isDuplicate a a' = true ->
         Comprehensive.isDuplicate a b = false ->
         Comprehensive.unique [a; b; a'] = [a; b]).
Proof.
  split; [intros X; split; [apply dedup_survivors | apply dedup_subseq]|].
  split; [intros X; split; [apply dedup_survivors | apply dedup_subseq]|].
  split; [intros x X; apply dedup_survivors|].
  split; [intros x X; apply dedup_survivors|].
  split; intros a b a'; apply dedup_three.
Qed.

Lemma dedup_keeps_first_occurrences_witness :
  CompleteMenu.exactDuplicate dal_makhani dal_makhani_again = true
  /\ CompleteMenu.exactDuplicate dal_makhani garlic_naan = false
  /\ CompleteMenu.uniqueMenuItems [dal_makhani; garlic_naan; dal_makhani_again]
     = [dal_makhani; garlic_naan]
  /\ Comprehensive.isDuplicate spice_garden spice_garden_again = true
  /\ Comprehensive.isDuplicate spice_garden noodle_bar = false
  /\ Comprehensive.unique [spice_garden; noodle_bar; spice_garden_again]
     = [spice_garden; noodle_bar].
Proof.
  split; [vm_compute; reflexivity|].
  split; [vm_compute; reflexivity|].
  split.
  { apply (proj1 (proj2 (proj2 (proj2 (proj2 dedup_keeps_first_occurrences))))
             dal_makhani garlic_naan dal_makhani_again);
      vm_compute; reflexivity. }
  split; [vm_compute; reflexivity|].
  split; [vm_compute; reflexivity|].
  apply (proj2 (proj2 (proj2 (proj2 (proj2 dedup_keeps_first_occurrences))))
           spice_garden noodle_bar spice_garden_again);
    vm_compute; reflexivity.
Defined.

(* ===================================================================== *)
(** ** The fixtures through the menu callback *)
(* ===================================================================== *)

(** C8, as amended.  The fixture yields one record, and its category is
    "beverage": the beverage row stands above the pizza row, and its
    keyword "lassi" occurs in "Classic". *)
Theorem margherita_record :
  exists r,
    Unlimited.menuItemOf margherita = Some r
    /\ Unlimited.category r = "beverage"%string
    /\ includes (utf16 "lassi") (toLowerCase margherita) = true
    /\ test Unlimited.pizzaPattern (toLowerCase margherita) = true.
Proof.
  eexists. split; [vm_compute; reflexivity|].
  repeat split; vm_compute; reflexivity.
Qed.

(** C8 as stated fails: the record of the fixture has another name, an
    empty description, no price and another category. *)
Lemma margherita_not_as_specified :
  exists r,
    Unlimited.menuItemOf margherita = Some r
    /\ Unlimited.name r
       = utf16 "Classic Margherita Pizza Fresh mozzarella and basil  12.99"
    /\ Unlimited.name r <> utf16 "Classic Margherita Pizza"
    /\ Unlimited.description r = []
    /\ Unlimited.description r <> utf16 "Fresh mozzarella and basil"
    /\ Unlimited.price r = None
    /\ Unlimited.price r <> Some (Num (1299 # 100))
    /\ Unlimited.category r <> "pizza"%string.
Proof.
  eexists. split; [vm_compute; reflexivity|].
  split; [vm_compute; reflexivity|].
  split; [vm_compute; discriminate|].
  split; [vm_compute; reflexivity|].
  split; [vm_compute; discriminate|].
  split; [vm_compute; reflexivity|].
  split; vm_compute; discriminate.
Qed.

(** Were the line breaks of the fixture the two characters backslash and
    n, the name would be the first line; the description would still hold
    the price line, the price would still be absent and the category
    "beverage". *)
Remark margherita_escaped_record :
  exists r,
    Unlimited.menuItemOf margherita_escaped = Some r
    /\ Unlimited.name r = utf16 "Classic Margherita Pizza"
    /\ Unlimited.description r = utf16 "Fresh mozzarella and basil $12.99"
    /\ Unlimited.price r = None
    /\ Unlimited.category r = "beverage"%string.
Proof.
  eexists. split; [vm_compute; reflexivity|].
  repeat split; vm_compute; reflexivity.
Qed.

(** C9, as amended.  The fixture yields a record with category "starter",
    spice level "spicy" and no dietary tag. *)
Theorem paneer_tikka_record :
  (exists r,
      Unlimited.menuItemOf paneer_tikka = Some r
      /\ Unlimited.category r = "starter"%string
      /\ Unlimited.spice_level r = Some "spicy"%string
      /\ Unlimited.dietary_info r = [])
  /\ (exists r,
         CompleteMenu.menuItemOf paneer_tikka = Some r
         /\ CompleteMenu.category r = "starter"%string
         /\ CompleteMenu.spice_level r = Some "spicy"%string
         /\ CompleteMenu.dietary_info r = []).
Proof.
  split; eexists; (split; [vm_compute; reflexivity|]);
    repeat split; vm_compute; reflexivity.
Qed.

(** C9 as stated fails: the record of the fixture carries no "vegetarian"
    tag. *)
Lemma paneer_tikka_not_vegetarian :
  ~ (exists r,
        Unlimited.menuItemOf paneer_tikka = Some r
        /\ Unlimited.category r = "starter"%string
        /\ Unlimited.spice_level r = Some "spicy"%string
        /\ In "vegetarian"%string (Unlimited.dietary_info r)).
Proof.
  intros [r [Hr [_ [_ Hin]]]].
  vm_compute in Hr. inversion Hr; subst. simpl in Hin. exact Hin.
Qed.

(* ===================================================================== *)
(** ** Price *)
(* ===================================================================== *)

(** C1, the behaviour of the code at the input of the claim: no pattern of
    the loop matches, and the price is absent. *)
Theorem butter_chicken_has_no_price :
  Unlimited.extractPrice butter_chicken = None
  /\ CompleteMenu.extractPrice butter_chicken = None
  /\ Forall (fun re => test re butter_chicken = false) Unlimited.pricePatterns
  /\ exists r, Unlimited.menuItemOf butter_chicken = Some r
               /\ Unlimited.price r = None.
Proof.
  split; [vm_compute; reflexivity|].
  split; [vm_compute; reflexivity|].
  split.
  - unfold Unlimited.pricePatterns.
    repeat (constructor; [vm_compute; reflexivity|]). constructor.
  - eexists. split; vm_compute; reflexivity.
Qed.

(** *** What the groups of the price patterns capture *)

Unset Implicit Arguments.

Section Repetition.
Variable m : mstate -> list mstate.
Variable R : mstate -> mstate -> Prop.
Hypothesis R_refl : forall st, R st st.
Hypothesis R_trans : forall a b c, R a b -> R b c -> R a c.
Hypothesis m_R : forall st st', In st' (m st) -> R st st'.

Lemma rep_star_R fuel :
  forall hi st st', In st' (rep_star m hi fuel st) -> R st st'.
Proof.
  induction fuel as [|f IH]; intros hi st st' Hin.
  - destruct hi as [[|h]|]; simpl in Hin;
      destruct Hin as [<- | []]; apply R_refl.
  - assert (step : In st'
              (flat_map (fun s1 =>
                           if (length (rest s1) <? length (rest st))%nat
                           then rep_star m (option_map pred hi) f s1 else [])
                        (m st) ++ [st]) -> R st st').
    { intros H. apply in_app_or in H as [H | [<- | []]]; [|apply R_refl].
      apply in_flat_map in H as [s1 [H1 H2]].
      destruct (length (rest s1) <? length (rest st))%nat; [|destruct H2].
      apply R_trans with s1; [apply m_R, H1 | apply (IH _ _ _ H2)]. }
    destruct hi as [[|h]|]; simpl in Hin.
    + destruct Hin as [<- | []]. apply R_refl.
    + apply step, Hin.
    + apply step, Hin.
Qed.

Lemma rep_min_R lo :
  forall hi st st', In st' (rep_min m lo hi st) -> R st st'.
Proof.
  induction lo as [|k IH]; intros hi st st' Hin; simpl in Hin.
  - apply (rep_star_R _ _ _ _ Hin).
  - assert (step : In st' (flat_map (rep_min m k (option_map pred hi)) (m st))
                   -> R st st').
    { intros H. apply in_flat_map in H as [s1 [H1 H2]].
      apply R_trans with s1; [apply m_R, H1 | apply (IH _ _ _ H2)]. }
    destruct hi as [[|h]|].
    + destruct Hin as [<- | []]. apply R_refl.
    + apply step, Hin.
    + apply step, Hin.
Qed.

End Repetition.

Lemma one_pos : forall p st st', In st' (one p st) -> pos st' = S (pos st).
Proof.
  intros p st st'. unfold one. destruct (rest st) as [|x t]; [intros []|].
  destruct (p x); [|intros []]. intros [<- | []]. reflexivity.
Qed.

(** Matching only moves forward. *)
Lemma ms_pos_le ic r :
  forall st st', In st' (ms ic r st) -> (pos st <= pos st')%nat.
Proof.
  induction r; intros st st' Hin; simpl in Hin.
  - destruct Hin as [<- | []]. lia.
  - apply one_pos in Hin. lia.
  - apply one_pos in Hin. lia.
  - apply one_pos in Hin. lia.
  - destruct (Nat.eqb (pos st) 0); [|destruct Hin].
    destruct Hin as [<- | []]. lia.
  - destruct (rest st); [|destruct Hin]. destruct Hin as [<- | []]. lia.
  - apply in_flat_map in Hin as [s1 [H1 H2]].
    apply IHr1 in H1. apply IHr2 in H2. lia.
  - apply in_app_or in Hin as [H | H]; [apply IHr1, H | apply IHr2, H].
  - apply (rep_min_R (ms ic r) (fun a b => (pos a <= pos b)%nat)) with (4 := Hin);
      [intros; lia | intros; lia | exact IHr].
  - apply in_map_iff in Hin as [s1 [<- H1]]. simpl. apply IHr, H1.
Qed.

Lemma canon_backslash ic x : canon ic x = canon ic backslash -> x = backslash.
Proof.
  unfold canon, backslash. destruct ic; simpl; [|auto].
  destruct (Z.leb_spec 97 x); destruct (Z.leb_spec x 122); simpl; lia.
Qed.

Lemma opens_with_backslash ic r st st' :
  opens_with backslash r = true ->
  In st' (ms ic r st) ->
  exists t, rest st = backslash :: t /\ (pos st < pos st')%nat.
Proof.
  intros Hopen Hin.
  assert (first : forall c s1, (c =? backslash) = true ->
            In s1 (one (fun x => canon ic x =? canon ic c) st) ->
            exists t, rest st = backslash :: t /\ pos s1 = S (pos st)).
  { intros c s1 Hc H1. apply Z.eqb_eq in Hc. subst c.
    pose proof (one_pos _ _ _ H1) as Hp. unfold one in H1.
    destruct (rest st) as [|x t]; [destruct H1|].
    destruct (canon ic x =? canon ic backslash) eqn:E; [|destruct H1].
    apply Z.eqb_eq, canon_backslash in E. subst x. exists t. auto. }
  destruct r; simpl in Hopen; try discriminate.
  - simpl in Hin. destruct (first c st' Hopen Hin) as [t [Ht Hp]].
    exists t. split; [exact Ht | lia].
  - destruct r1; try discriminate. simpl in Hin.
    apply in_flat_map in Hin as [s1 [H1 H2]].
    destruct (first c s1 Hopen H1) as [t [Ht Hp]].
    apply ms_pos_le in H2. exists t. split; [exact Ht | lia].
Qed.

Lemma ms_captures_escaped ic r :
  groups_open_with backslash r = true ->
  forall st st',
    In st' (ms ic r st) -> captures_escaped st -> captures_escaped st'.
Proof.
  induction r; intros Hg st st' Hin Hst; simpl in Hin, Hg.
  - destruct Hin as [<- | []]. exact Hst.
  - unfold one in Hin. destruct (rest st); [destruct Hin|].
    destruct (_ =? _); [|destruct Hin]. destruct Hin as [<- | []]. exact Hst.
  - unfold one in Hin. destruct (rest st); [destruct Hin|].
    destruct (negb _); [|destruct Hin]. destruct Hin as [<- | []]. exact Hst.
  - unfold one in Hin. destruct (rest st); [destruct Hin|].
    destruct (class_matches _ _ _ _); [|destruct Hin].
    destruct Hin as [<- | []]. exact Hst.
  - destruct (Nat.eqb (pos st) 0); [|destruct Hin].
    destruct Hin as [<- | []]. exact Hst.
  - destruct (rest st); [|destruct Hin]. destruct Hin as [<- | []]. exact Hst.
  - apply andb_true_iff in Hg as [Hg1 Hg2].
    apply in_flat_map in Hin as [s1 [H1 H2]].
    apply (IHr2 Hg2 s1 st' H2). apply (IHr1 Hg1 st s1 H1 Hst).
  - apply andb_true_iff in Hg as [Hg1 Hg2].
    apply in_app_or in Hin as [H | H];
      [apply (IHr1 Hg1 st st' H Hst) | apply (IHr2 Hg2 st st' H Hst)].
  - revert Hst.
    apply (rep_min_R (ms ic r)
             (fun a b => captures_escaped a -> captures_escaped b)) with (4 := Hin).
    + auto.
    + auto.
    + intros a b Hab. apply (IHr Hg a b Hab).
  - apply andb_true_iff in Hg as [Hopen Hg].
    apply in_map_iff in Hin as [s1 [<- H1]].
    unfold captures_escaped. simpl. constructor.
    + simpl. destruct (opens_with_backslash ic r st s1 Hopen H1) as [t [Ht Hp]].
      rewrite Ht. destruct (pos s1 - pos st)%nat eqn:E; [lia|].
      simpl. eexists. reflexivity.
    + apply (IHr Hg st s1 H1 Hst).
Qed.

Lemma exec_from_state ic r :
  forall s p m,
    exec_from ic r p s = Some m ->
    exists p' s' st, In st (ms ic r (MState p' s' [])) /\ groups m = caps st.
Proof.
  induction s as [|x t IH]; intros p m H; simpl in H.
  - destruct (ms ic r (MState p [] [])) as [|st l] eqn:E; [discriminate|].
    inversion H; subst. exists p, [], st. rewrite E. simpl. auto.
  - destruct (ms ic r (MState p (x :: t) [])) as [|st l] eqn:E.
    + apply IH in H. exact H.
    + inversion H; subst. exists p, (x :: t), st. rewrite E. simpl. auto.
Qed.

Lemma parseFloat_escaped t : parseFloat (backslash :: t) = NaN.
Proof. reflexivity. Qed.

(** A pattern whose groups all open with a backslash never yields a
    number. *)
Lemma captured_number_NaN re text :
  groups_open_with backslash (pattern re) = true ->
  captured_number re text = NaN.
Proof.
  intros Hg. unfold captured_number.
  destruct (exec re text) as [m|] eqn:E; [|reflexivity].
  unfold exec in E. apply exec_from_state in E as [p' [s' [st [Hin Hm]]]].
  assert (Hcaps : captures_escaped st).
  { apply (ms_captures_escaped _ _ Hg _ _ Hin). constructor. }
  unfold group. rewrite Hm.
  destruct (find (fun c => Nat.eqb (fst c) 1) (caps st)) as [c|] eqn:F;
    [|reflexivity].
  apply find_some in F as [Fin _].
  unfold captures_escaped in Hcaps. rewrite Forall_forall in Hcaps.
  destruct (Hcaps c Fin) as [t Ht]. destruct c as [n g].
  simpl in Ht. subst g. simpl option_map. cbv iota.
  apply parseFloat_escaped.
Qed.

(** The loop is a first-match-wins table over the patterns. *)
Lemma price_loop_first above re below text :
  (forall p, In p above -> test p text = false) ->
  test re text = true ->
  Unlimited.price_loop (above ++ re :: below) text
  = Some (captured_number re text).
Proof.
  unfold test, captured_number.
  induction above as [|p above IH]; intros Habove Hre; simpl.
  - destruct (exec re text); [reflexivity | discriminate].
  - pose proof (Habove p (or_introl eq_refl)) as Hp.
    destruct (exec p text); [discriminate|].
    apply IH; [|exact Hre]. intros q Hq. apply Habove. right. exact Hq.
Qed.

Lemma price_loop_none patterns text :
  (forall p, In p patterns -> test p text = false) ->
  Unlimited.price_loop patterns text = None.
Proof.
  unfold test.
  induction patterns as [|p patterns IH]; intros Hnone; simpl; [reflexivity|].
  pose proof (Hnone p (or_introl eq_refl)) as Hp.
  destruct (exec p text); [discriminate|].
  apply IH. intros q Hq. apply Hnone. right. exact Hq.
Qed.

Lemma price_loop_never_a_number patterns text :
  Forall (fun re => groups_open_with backslash (pattern re) = true) patterns ->
  Unlimited.price_loop patterns text = None
  \/ Unlimited.price_loop patterns text = Some NaN.
Proof.
  induction 1 as [|re patterns Hre _ IH]; simpl; [left; reflexivity|].
  pose proof (captured_number_NaN re text Hre) as Hnan.
  unfold captured_number in Hnan.
  destruct (exec re text); [|exact IH].
  right. rewrite Hnan. reflexivity.
Qed.

(** Whatever the text, the price is absent or not a number: each pattern
    of the two loops asks for a backslash in front of the letters [s] and
    [d], and what its group captures begins with that backslash. *)
Lemma price_never_a_number text :
  (Unlimited.extractPrice text = None \/ Unlimited.extractPrice text = Some NaN)
  /\ (CompleteMenu.extractPrice text = None
      \/ CompleteMenu.extractPrice text = Some NaN).
Proof.
  split; apply price_loop_never_a_number;
    repeat (constructor; [vm_compute; reflexivity|]); constructor.
Qed.

(** With the escapes read as the specification reads them, the first
    pattern matches at the rupee sign and the price of the fixture is 299. *)
Remark butter_chicken_price_as_specified :
  Unlimited.price_loop pricePatterns_as_specified butter_chicken
  = Some (Num (299 # 1)).
Proof. vm_compute. reflexivity. Qed.

(* ===================================================================== *)
(** ** What the records hold *)
(* ===================================================================== *)

(** *** Names *)

Lemma replace_class_chars rs by_ :
  forall s p,
    replace_go false (Class true rs) by_ p s 0
    = flat_map (fun x => if in_ranges rs x then [x] else by_) s.
Proof.
  induction s as [|x t IH]; intros p; [reflexivity|].
  cbn -[Nat.sub in_ranges]. unfold one, class_matches.
  cbn -[Nat.sub in_ranges]. rewrite orb_false_r.
  destruct (in_ranges rs x); cbn -[Nat.sub in_ranges].
  - rewrite IH. reflexivity.
  - replace (S p - p)%nat with 1%nat by lia. rewrite IH. reflexivity.
Qed.

Lemma replace_go_Forall (P : Z -> Prop) ic r by_ :
  Forall P by_ ->
  forall s p skip, Forall P s -> Forall P (replace_go ic r by_ p s skip).
Proof.
  intros Hby. induction s as [|x t IH]; intros p skip Hs; simpl.
  - destruct skip; [|constructor].
    destruct (ms ic r (MState p [] [])); [constructor | exact Hby].
  - inversion Hs as [|? ? Hx Ht]; subst.
    destruct skip as [|k]; [|apply IH, Ht].
    destruct (ms ic r (MState p (x :: t) [])) as [|st l].
    + constructor; [exact Hx | apply IH, Ht].
    + destruct (pos st - p)%nat.
      * apply Forall_app. split; [exact Hby|].
        constructor; [exact Hx | apply IH, Ht].
      * apply Forall_app. split; [exact Hby | apply IH, Ht].
Qed.

Lemma trimStart_Forall (P : Z -> Prop) s : Forall P s -> Forall P (trimStart s).
Proof.
  induction s as [|c s IH]; intros H; simpl; [constructor|].
  destruct (isWhiteSpace c); [|exact H].
  inversion H; subst. apply IH. assumption.
Qed.

Lemma trim_Forall (P : Z -> Prop) s : Forall P s -> Forall P (trim s).
Proof.
  intros H. unfold trim, trimEnd.
  apply Forall_rev, trimStart_Forall, Forall_rev, trimStart_Forall, H.
Qed.

(** What [trimStart] drops is white space, and what it leaves does not
    begin with white space. *)
Lemma trimStart_split s :
  exists dropped,
    s = dropped ++ trimStart s /\ forallb isWhiteSpace dropped = true.
Proof.
  induction s as [|c s [d [Hd Hw]]]; simpl.
  - exists []. split; reflexivity.
  - destruct (isWhiteSpace c) eqn:E.
    + exists (c :: d). simpl. rewrite E, Hw. split; [f_equal; exact Hd | reflexivity].
    + exists []. split; reflexivity.
Qed.

Lemma trimStart_fixed s :
  match s with [] => True | c :: _ => isWhiteSpace c = false end ->
  trimStart s = s.
Proof.
  destruct s as [|c s]; simpl; [reflexivity|]. intros ->. reflexivity.
Qed.

Lemma trimStart_head s :
  match trimStart s with [] => True | c :: _ => isWhiteSpace c = false end.
Proof.
  induction s as [|c s IH]; simpl; [exact I|].
  destruct (isWhiteSpace c) eqn:E; [exact IH | exact E].
Qed.

Lemma trim_idempotent s : trim (trim s) = trim s.
Proof.
  unfold trim, trimEnd.
  set (u := trimStart s). set (v := trimStart (rev u)).
  assert (Hhead : match rev v with [] => True | c :: _ => isWhiteSpace c = false end).
  { destruct (trimStart_split (rev u)) as [d [Hd _]]. fold v in Hd.
    assert (Hu : u = rev v ++ rev d).
    { rewrite <- (rev_involutive u), Hd, rev_app_distr. reflexivity. }
    pose proof (trimStart_head s) as Hs. fold u in Hs.
    destruct (rev v) as [|c w]; [exact I|].
    rewrite Hu in Hs. exact Hs. }
  rewrite (trimStart_fixed (rev v) Hhead), rev_involutive.
  rewrite (trimStart_fixed v); [reflexivity|]. apply trimStart_head.
Qed.

Lemma Forall_flat_map (P : Z -> Prop) (f : Z -> jsstring) s :
  (forall x, Forall P (f x)) -> Forall P (flat_map f s).
Proof.
  intros Hf. induction s as [|x t IH]; simpl; [constructor|].
  apply Forall_app. split; [apply Hf | exact IH].
Qed.

Lemma cleanName_chars itemName :
  Forall (fun c => item_name_char c = true) (Unlimited.cleanName itemName).
Proof.
  unfold Unlimited.cleanName. apply trim_Forall.
  unfold replace_all. apply replace_go_Forall.
  - change (utf16 " ") with [32]. repeat constructor.
  - change (pattern Unlimited.nameCleanChars)
      with (Class true [(97, 122); (65, 90); (48, 57); (92, 92); (115, 115);
                        (39, 39); (38, 38); (46, 46); (44, 44); (45, 45)]).
    change (ignoreCase Unlimited.nameCleanChars) with false.
    rewrite replace_class_chars.
    apply Forall_flat_map. intros x.
    destruct (in_ranges _ x) eqn:E.
    + constructor; [|constructor]. unfold item_name_char. rewrite E. reflexivity.
    + change (utf16 " ") with [32]. repeat constructor.
Qed.

(** The name of a menu item of [extractCompleteRealMenu] has 3 to 299
    characters, all of them letters, digits, backslash, apostrophe,
    ampersand, full stop, comma, hyphen or space, and no white space at
    either end; its description has at most 500 characters. *)
Theorem menu_item_name_is_clean innerText r :
  Unlimited.menuItemOf innerText = Some r ->
  (3 <= length (Unlimited.name r) <= 299)%nat
  /\ Forall (fun c => item_name_char c = true) (Unlimited.name r)
  /\ trim (Unlimited.name r) = Unlimited.name r
  /\ (length (Unlimited.description r) <= 500)%nat.
Proof.
  unfold Unlimited.menuItemOf. cbv zeta.
  destruct (_ || _)%nat; [discriminate|].
  destruct (_ && _); [|discriminate].
  set (raw := match filter Unlimited.nonblank _ with
              | [] => _ | first :: _ => _ end).
  destruct ((2 <? length (Unlimited.cleanName raw))%nat
            && (length (Unlimited.cleanName raw) <? 300)%nat) eqn:Elen;
    [|discriminate].
  intros H. inversion H; subst; clear H. simpl.
  apply andb_true_iff in Elen as [E1 E2].
  apply Nat.ltb_lt in E1, E2.
  split; [lia|].
  split; [apply cleanName_chars|].
  split; [unfold Unlimited.cleanName; apply trim_idempotent|].
  unfold substring. rewrite length_firstn. lia.
Qed.

Lemma menu_item_name_is_clean_witness :
  exists r,
    Unlimited.menuItemOf paneer_tikka = Some r
    /\ (3 <= length (Unlimited.name r) <= 299)%nat
    /\ Forall (fun c => item_name_char c = true) (Unlimited.name r)
    /\ trim (Unlimited.name r) = Unlimited.name r
    /\ (length (Unlimited.description r) <= 500)%nat.
Proof.
  destruct (Unlimited.menuItemOf paneer_tikka) as [r|] eqn:E.
  - exists r. split; [reflexivity|].
    apply (menu_item_name_is_clean paneer_tikka r E).
  - vm_compute in E. discriminate.
Defined.

(** *** Exclusion, keyword by keyword *)

Lemma starts_ci_spec ic p :
  forall s, starts_ci ic p s = true
            <-> exists mid after, s = mid ++ after /\ same_ci ic mid p.
Proof.
  unfold same_ci. induction p as [|c p IH]; intros s; simpl.
  - split; [intros _; exists [], s; split; [reflexivity | constructor]
           | reflexivity].
  - destruct s as [|x s].
    + split; [discriminate|].
      intros [mid [after [Hs Hm]]]. inversion Hm; subst. discriminate.
    + rewrite andb_true_iff, Z.eqb_eq, IH. split.
      * intros [Hx [mid [after [-> Hm]]]]. exists (x :: mid), after.
        split; [reflexivity | constructor; assumption].
      * intros [mid [after [Hs Hm]]]. inversion Hm; subst.
        inversion Hs; subst. split; [assumption|]. eauto.
Qed.

Lemma includes_ci_spec ic p :
  forall s, includes_ci ic p s = true
            <-> exists before mid after,
                  s = before ++ mid ++ after /\ same_ci ic mid p.
Proof.
  induction s as [|x t IH]; simpl; rewrite orb_true_iff, starts_ci_spec.
  - split.
    + intros [[mid [after [Hs Hm]]] | H]; [|discriminate].
      exists [], mid, after. auto.
    + intros [before [mid [after [Hs Hm]]]].
      destruct before; [|discriminate]. simpl in Hs. left. eauto.
  - rewrite IH. split.
    + intros [[mid [after [Hs Hm]]] | [before [mid [after [Hs Hm]]]]].
      * exists [], mid, after. auto.
      * exists (x :: before), mid, after. rewrite Hs. auto.
    + intros [before [mid [after [Hs Hm]]]]. destruct before as [|b before].
      * simpl in Hs. left. eauto.
      * right. simpl in Hs. inversion Hs; subst. eauto.
Qed.

(** A text that holds a word up to case holds every part of the word up
    to case. *)
Lemma includes_ci_part ic part word s :
  includes part word = true ->
  includes_ci ic word s = true ->
  includes_ci ic part s = true.
Proof.
  rewrite includes_occurs, !includes_ci_spec.
  intros [w1 [w2 ->]] [before [mid [after [-> Hm]]]].
  unfold same_ci in Hm.
  apply Forall2_app_inv_r in Hm as [m1 [m23 [H1 [H23 ->]]]].
  apply Forall2_app_inv_r in H23 as [m2 [m3 [H2 [H3 ->]]]].
  exists (before ++ m1), m2, (m3 ++ after). split; [|exact H2].
  repeat rewrite <- app_assoc. reflexivity.
Qed.

Lemma In_by_eqb k (l : list jsstring) :
  existsb (jsstring_eqb k) l = true -> In k l.
Proof.
  intros H. apply existsb_exists in H as [x [Hin Hx]].
  unfold jsstring_eqb in Hx.
  destruct (list_eq_dec Z.eq_dec k x); [subst; exact Hin | discriminate].
Qed.

(** No menu item comes from a text that holds one of the exclusion
    keywords in any (ASCII) case.  As "no", "ad", "tab", "ok" and "cut" are
    exclusion keywords, no item comes from a text that names noodles,
    salad, bread, vegetable, okra, lemonade, kadai, gnocchi, cutlet or pad
    thai. *)
Theorem excluded_words_yield_nothing :
  (forall innerText k,
      In k excludedWords ->
      includes_ci true k (trim innerText) = true ->
      Unlimited.menuItemOf innerText = None)
  /\ (forall innerText dish,
         In dish swallowedDishes ->
         includes_ci true dish (trim innerText) = true ->
         Unlimited.menuItemOf innerText = None).
Proof.
  assert (general : forall innerText k,
             In k excludedWords ->
             includes_ci true k (trim innerText) = true ->
             Unlimited.menuItemOf innerText = None).
  { intros innerText k Hin Hk. apply menuItemOf_excluded.
    rewrite (@test_keywords Unlimited.excludeKeywords excludedWords
               (trim innerText) ltac:(vm_compute; reflexivity)).
    apply existsb_exists. exists k. split; [exact Hin | exact Hk]. }
  split; [exact general|].
  intros innerText dish Hin Hdish.
  assert (Hpart : exists k, In k excludedWords /\ includes k dish = true).
  { simpl in Hin.
    repeat (destruct Hin as [<- | Hin];
            [first [ exists (utf16 "no"); split;
                     [apply In_by_eqb|]; vm_compute; reflexivity
                   | exists (utf16 "ad"); split;
                     [apply In_by_eqb|]; vm_compute; reflexivity
                   | exists (utf16 "tab"); split;
                     [apply In_by_eqb|]; vm_compute; reflexivity
                   | exists (utf16 "ok"); split;
                     [apply In_by_eqb|]; vm_compute; reflexivity
                   | exists (utf16 "cut"); split;
                     [apply In_by_eqb|]; vm_compute; reflexivity ]|]).
    destruct Hin. }
  destruct Hpart as [k [Hk Hpart]].
  apply (general innerText k Hk).
  apply (includes_ci_part true k dish _ Hpart Hdish).
Qed.

Lemma excluded_words_yield_nothing_witness :
  test Unlimited.foodKeywords (trim veg_noodles) = true
  /\ In (utf16 "no") excludedWords
  /\ includes_ci true (utf16 "noodles") (trim veg_noodles) = true
  /\ Unlimited.menuItemOf veg_noodles = None.
Proof.
  split; [vm_compute; reflexivity|].
  split; [apply In_by_eqb; vm_compute; reflexivity|].
  split; [vm_compute; reflexivity|].
  apply (proj2 excluded_words_yield_nothing veg_noodles (utf16 "noodles")).
  - apply In_by_eqb. vm_compute. reflexivity.
  - vm_compute. reflexivity.
Defined.

(** *** Alternations of words *)

Lemma exec_from_alt ic a b :
  forall s p,
    (match exec_from ic (Alt a b) p s with Some _ => true | None => false end)
    = (match exec_from ic a p s with Some _ => true | None => false end)
      || (match exec_from ic b p s with Some _ => true | None => false end).
Proof.
  induction s as [|x t IH]; intros p; simpl.
  - destruct (ms ic a (MState p [] [])), (ms ic b (MState p [] [])); reflexivity.
  - destruct (ms ic a (MState p (x :: t) [])), (ms ic b (MState p (x :: t) []));
      simpl; try reflexivity.
    + apply IH.
    + rewrite orb_true_r. reflexivity.
Qed.

Lemma test_rx_alternatives ic r s :
  test_rx ic r s = existsb (fun a => test_rx ic a s) (alternatives r).
Proof.
  induction r; try (simpl; rewrite orb_false_r; reflexivity).
  simpl. rewrite <- IHr2. unfold test_rx. apply exec_from_alt.
Qed.

Lemma ms_word ic r :
  forall w, word_of r = Some w ->
  forall st, nonempty (ms ic r st) = starts_word ic w (rest st).
Proof.
  assert (step : forall (p : Z -> bool) r2 st,
             nonempty (flat_map (ms ic r2) (one p st))
             = match rest st with
               | [] => false
               | x :: t =>
                 p x && nonempty (ms ic r2 (MState (S (pos st)) t (caps st)))
               end).
  { intros p r2 st. unfold one. destruct (rest st) as [|x t]; [reflexivity|].
    destruct (p x); simpl; [rewrite app_nil_r|]; reflexivity. }
  induction r; intros w Hw st; simpl in Hw; try discriminate.
  - inversion Hw; subst. reflexivity.
  - inversion Hw; subst. simpl. unfold one.
    destruct (rest st) as [|x t]; [reflexivity|].
    destruct (canon ic x =? canon ic c); reflexivity.
  - inversion Hw; subst. simpl. unfold one.
    destruct (rest st) as [|x t]; [reflexivity|].
    destruct (negb (isLineTerminator x)); reflexivity.
  - destruct r1; try discriminate;
      (destruct (word_of r2) as [w2|] eqn:E2; simpl in Hw; [|discriminate]);
      inversion Hw; subst; simpl; rewrite step;
      (destruct (rest st) as [|x t]; [reflexivity|]);
      rewrite (IHr2 w2 eq_refl); reflexivity.
Qed.

Lemma exec_from_word ic r w :
  word_of r = Some w ->
  forall s p,
    (match exec_from ic r p s with Some _ => true | None => false end)
    = includes_word ic w s.
Proof.
  intros Hw. induction s as [|x t IH]; intros p; simpl.
  - pose proof (ms_word ic r w Hw (MState p [] [])) as H. simpl in H.
    rewrite <- H, orb_false_r.
    destruct (ms ic r (MState p [] [])); reflexivity.
  - pose proof (ms_word ic r w Hw (MState p (x :: t) [])) as H. simpl in H.
    rewrite <- H, <- (IH (S p)).
    destruct (ms ic r (MState p (x :: t) [])); reflexivity.
Qed.

Lemma test_rx_words_list ic rs :
  forall ws, words_of_list rs = Some ws ->
  forall s, existsb (fun a => test_rx ic a s) rs
            = existsb (fun w => includes_word ic w s) ws.
Proof.
  induction rs as [|r rs IH]; intros ws Hws s; simpl in Hws.
  - inversion Hws; subst. reflexivity.
  - destruct (word_of r) as [w|] eqn:Ew; [|discriminate].
    destruct (words_of_list rs) as [ws'|] eqn:Ews; [|discriminate].
    inversion Hws; subst. simpl. rewrite (IH ws' eq_refl s).
    unfold test_rx at 1. rewrite (exec_from_word ic r w Ew). reflexivity.
Qed.

(** A pattern that is an alternation of words tests whether one of them
    occurs. *)
Lemma test_words re ws s :
  words_of (pattern re) = Some ws ->
  test re s = existsb (fun w => includes_word (ignoreCase re) w s) ws.
Proof.
  intros Hws.
  change (test re s) with (test_rx (ignoreCase re) (pattern re) s).
  rewrite test_rx_alternatives. apply test_rx_words_list. exact Hws.
Qed.

Lemma canon_not_terminator ic x c :
  canon ic x = canon ic c -> isLineTerminator c = false ->
  isLineTerminator x = false.
Proof.
  unfold canon, isLineTerminator. intros H Hc.
  destruct ic; simpl in H; [|subst; exact Hc].
  repeat match goal with
         | H : context [?a <=? ?b] |- _ => destruct (Z.leb_spec a b); simpl in H
         end;
  repeat match goal with
         | H : context [?a =? ?b] |- _ => destruct (Z.eqb_spec a b); simpl in H
         | |- context [?a =? ?b] => destruct (Z.eqb_spec a b); simpl
         end; try discriminate; try reflexivity; try lia.
Qed.

Lemma starts_word_le ic w1 :
  forall w2 s, word_leb w1 w2 = true ->
               starts_word ic w1 s = true -> starts_word ic w2 s = true.
Proof.
  induction w1 as [|[c|] t1 IH]; intros [|[d|] t2] s Hle Hs;
    simpl in Hle; try discriminate; try reflexivity;
    destruct s as [|x s]; simpl in Hs |- *; try discriminate;
    apply andb_true_iff in Hs as [Hx Hs].
  - apply andb_true_iff in Hle as [Hcd Hle]. apply Z.eqb_eq in Hcd. subst d.
    rewrite Hx. simpl. apply (IH t2 s Hle Hs).
  - apply andb_true_iff in Hle as [Hc Hle]. apply negb_true_iff in Hc.
    apply Z.eqb_eq in Hx. rewrite (canon_not_terminator ic x c Hx Hc).
    simpl. apply (IH t2 s Hle Hs).
  - rewrite Hx. simpl. apply (IH t2 s Hle Hs).
Qed.

Lemma includes_word_le ic w1 w2 :
  word_leb w1 w2 = true ->
  forall s, includes_word ic w1 s = true -> includes_word ic w2 s = true.
Proof.
  intros Hle. induction s as [|x t IH]; simpl; intros H;
    apply orb_true_iff in H as [H | H]; try discriminate.
  - rewrite (starts_word_le ic w1 w2 _ Hle H). reflexivity.
  - rewrite (starts_word_le ic w1 w2 _ Hle H). reflexivity.
  - rewrite (IH H). apply orb_true_r.
Qed.

(** If every word of [wa] is below a word of [wb] or is one of [we], a
    text in which a word of [wa] occurs and none of [wb] holds one of [we]. *)
Lemma covered_words ic wa wb we s :
  covered wa wb we = true ->
  existsb (fun w => includes_word ic w s) wa = true ->
  existsb (fun w => includes_word ic w s) wb = false ->
  existsb (fun w => includes_word ic w s) we = true.
Proof.
  unfold covered. intros Hcov Ha Hb.
  apply existsb_exists in Ha as [w [Hw Hs]].
  rewrite forallb_forall in Hcov. specialize (Hcov w Hw).
  apply orb_true_iff in Hcov as [Hcov | Hcov];
    apply existsb_exists in Hcov as [v [Hv Hle]].
  - assert (existsb (fun w0 => includes_word ic w0 s) wb = true).
    { apply existsb_exists. exists v. split; [exact Hv|].
      apply (includes_word_le ic w v Hle s Hs). }
    congruence.
  - unfold word_eqb in Hle. apply andb_true_iff in Hle as [Hle _].
    apply existsb_exists. exists v. split; [exact Hv|].
    apply (includes_word_le ic w v Hle s Hs).
Qed.

Lemma starts_word_plain ic k s : starts_word ic (plain k) s = starts_ci ic k s.
Proof.
  revert s. induction k as [|c k IH]; intros s; simpl; [reflexivity|].
  destruct s as [|x s]; [reflexivity|]. rewrite IH. reflexivity.
Qed.

Lemma includes_word_plain ic k s :
  includes_word ic (plain k) s = includes_ci ic k s.
Proof.
  induction s as [|x t IH]; simpl; rewrite starts_word_plain;
    [|rewrite IH]; reflexivity.
Qed.

(** On a lowered text a lower-case keyword occurs up to case exactly when
    it occurs. *)
Lemma existsb_plain_lowered ks text :
  forallb (forallb no_upper) ks = true ->
  existsb (fun w => includes_word true w (toLowerCase text)) (map plain ks)
  = existsb (fun k => includes k (toLowerCase text)) ks.
Proof.
  intros Hks. induction ks as [|k ks IH]; simpl; [reflexivity|].
  simpl in Hks. apply andb_true_iff in Hks as [Hk Hks].
  rewrite includes_word_plain, (IH Hks).
  rewrite (includes_ci_exact k Hk _ (toLowerCase_no_upper text)). reflexivity.
Qed.

(** *** Dietary tags *)

Lemma push_if_In (c : bool) (tag t : string) (l : list string) :
  In t (Unlimited.push_if c tag l) <-> In t l \/ (c = true /\ t = tag).
Proof.
  unfold Unlimited.push_if. destruct c.
  - rewrite in_app_iff. simpl. intuition congruence.
  - intuition congruence.
Qed.

Lemma Subseq_refl {A : Type} (l : list A) : Subseq l l.
Proof. induction l; constructor; assumption. Qed.

Lemma Subseq_app {A : Type} (l1 l2 m1 m2 : list A) :
  Subseq l1 l2 -> Subseq m1 m2 -> Subseq (l1 ++ m1) (l2 ++ m2).
Proof.
  intros H Hm. induction H; simpl; [exact Hm | |]; constructor; assumption.
Qed.

Lemma Subseq_nil_l {A : Type} (l : list A) : Subseq [] l.
Proof. induction l; constructor; assumption. Qed.

Lemma Subseq_push (c : bool) (tag : string) (l order : list string) :
  Subseq l order -> Subseq (Unlimited.push_if c tag l) (order ++ [tag]).
Proof.
  intros H. unfold Unlimited.push_if. destruct c.
  - apply Subseq_app; [exact H | apply Subseq_refl].
  - rewrite <- (app_nil_r l). apply Subseq_app; [exact H | apply Subseq_nil_l].
Qed.

Lemma Subseq_In {A : Type} (l1 l2 : list A) (x : A) :
  Subseq l1 l2 -> In x l1 -> In x l2.
Proof.
  intros H. induction H; simpl; intros Hin; [exact Hin | auto |].
  destruct Hin as [-> | Hin]; auto.
Qed.

Lemma Subseq_NoDup {A : Type} (l1 l2 : list A) :
  Subseq l1 l2 -> NoDup l2 -> NoDup l1.
Proof.
  intros H. induction H; intros Hnd; [constructor | |];
    inversion Hnd; subst; [auto|].
  constructor; [|auto]. intros Hin. apply (Subseq_In _ _ _ H) in Hin. auto.
Qed.

Lemma dietaryTags_NoDup : NoDup dietaryTags.
Proof.
  unfold dietaryTags.
  repeat (constructor; [simpl; intuition discriminate|]). constructor.
Qed.

Lemma dietary_subseq lowerText :
  Subseq (Unlimited.dietary lowerText) dietaryTags.
Proof.
  unfold Unlimited.dietary. cbv zeta.
  change dietaryTags
    with (((((((([] ++ ["vegetarian"%string]) ++ ["non-vegetarian"%string])
                ++ ["jain"%string]) ++ ["vegan"%string])
              ++ ["gluten-free"%string]) ++ ["dairy-free"%string])
            ++ ["keto"%string]) ++ ["organic"%string]).
  repeat apply Subseq_push. constructor.
Qed.

Lemma dietary_complete_subseq itemText :
  Subseq (CompleteMenu.dietary itemText) dietaryTags_complete.
Proof.
  unfold CompleteMenu.dietary. cbv zeta.
  change dietaryTags_complete
    with ((((([] ++ ["vegetarian"%string]) ++ ["non-vegetarian"%string])
             ++ ["jain"%string]) ++ ["vegan"%string])
          ++ ["gluten-free"%string]).
  repeat apply Subseq_push. constructor.
Qed.

(** The dietary tags of a text are tags of the fixed list, each at most
    once and in the order of that list, in both menu callbacks. *)
Theorem dietary_tags_form_a_set text :
  Subseq (Unlimited.extractDietaryInfo text) dietaryTags
  /\ NoDup (Unlimited.extractDietaryInfo text)
  /\ Subseq (CompleteMenu.dietary (toLowerCase text)) dietaryTags_complete
  /\ NoDup (CompleteMenu.dietary (toLowerCase text)).
Proof.
  unfold Unlimited.extractDietaryInfo.
  pose proof (dietary_subseq (toLowerCase text)) as H1.
  pose proof (dietary_complete_subseq (toLowerCase text)) as H2.
  split; [exact H1|].
  split; [apply (Subseq_NoDup _ _ H1), dietaryTags_NoDup|].
  split; [exact H2|].
  apply (Subseq_NoDup _ _ H2).
  apply (Subseq_NoDup dietaryTags_complete dietaryTags);
    [|apply dietaryTags_NoDup].
  unfold dietaryTags_complete, dietaryTags.
  repeat apply Subseq_keep. repeat apply Subseq_skip. constructor.
Qed.

Lemma vegetarian_tag lowerText :
  In "vegetarian"%string (Unlimited.dietary lowerText)
  <-> test Unlimited.vegPattern lowerText
      && negb (test Unlimited.vegBlockPattern lowerText) = true.
Proof.
  unfold Unlimited.dietary. cbv zeta. rewrite !push_if_In. simpl.
  intuition discriminate.
Qed.

Lemma non_vegetarian_tag lowerText :
  In "non-vegetarian"%string (Unlimited.dietary lowerText)
  <-> test Unlimited.nonVegPattern lowerText = true.
Proof.
  unfold Unlimited.dietary. cbv zeta. rewrite !push_if_In. simpl.
  intuition discriminate.
Qed.

Lemma vegetarian_tag_complete itemText :
  In "vegetarian"%string (CompleteMenu.dietary itemText)
  <-> test CompleteMenu.vegPattern itemText
      && negb (test CompleteMenu.vegBlockPattern itemText) = true.
Proof.
  unfold CompleteMenu.dietary. cbv zeta. rewrite !push_if_In. simpl.
  intuition discriminate.
Qed.

Lemma non_vegetarian_tag_complete itemText :
  In "non-vegetarian"%string (CompleteMenu.dietary itemText)
  <-> test CompleteMenu.nonVegPattern itemText = true.
Proof.
  unfold CompleteMenu.dietary. cbv zeta. rewrite !push_if_In. simpl.
  intuition discriminate.
Qed.

Lemma both_tags_general veg block nonveg wa wb ks text :
  ignoreCase block = true -> ignoreCase nonveg = true ->
  words_of (pattern nonveg) = Some wa ->
  words_of (pattern block) = Some wb ->
  covered wa wb (map plain ks) = true ->
  forallb (forallb no_upper) ks = true ->
  test veg (toLowerCase text) && negb (test block (toLowerCase text)) = true ->
  test nonveg (toLowerCase text) = true ->
  existsb (fun k => includes k (toLowerCase text)) ks = true.
Proof.
  intros Hib Hin Hwa Hwb Hcov Hks Hveg Hnon.
  apply andb_true_iff in Hveg as [_ Hblock]. apply negb_true_iff in Hblock.
  rewrite (test_words nonveg wa _ Hwa), Hin in Hnon.
  rewrite (test_words block wb _ Hwb), Hib in Hblock.
  rewrite <- (existsb_plain_lowered ks text Hks).
  apply (covered_words true wa wb (map plain ks) _ Hcov Hnon Hblock).
Qed.

(** A text is tagged both vegetarian and non-vegetarian only when it names
    seafood, prawn, crab or lobster ([extractCompleteRealMenu]), or beef,
    lamb or pork ([extractAllMenuItems]): the other meat words keep the
    vegetarian tag away. *)
Theorem both_diets_only_for_some_meats text :
  (In "vegetarian"%string (Unlimited.extractDietaryInfo text) ->
   In "non-vegetarian"%string (Unlimited.extractDietaryInfo text) ->
   existsb (fun k => includes k (toLowerCase text))
           (map utf16 ["seafood"; "prawn"; "crab"; "lobster"]%string) = true)
  /\ (In "vegetarian"%string (CompleteMenu.dietary (toLowerCase text)) ->
      In "non-vegetarian"%string (CompleteMenu.dietary (toLowerCase text)) ->
      existsb (fun k => includes k (toLowerCase text))
              (map utf16 ["beef"; "lamb"; "pork"]%string) = true).
Proof.
  split.
  - unfold Unlimited.extractDietaryInfo.
    rewrite vegetarian_tag, non_vegetarian_tag.
    eapply both_tags_general; vm_compute; reflexivity.
  - rewrite vegetarian_tag_complete, non_vegetarian_tag_complete.
    eapply both_tags_general; vm_compute; reflexivity.
Qed.

Lemma both_diets_only_for_some_meats_witness :
  Unlimited.extractDietaryInfo vegetarian_prawns
  = ["vegetarian"; "non-vegetarian"]%string
  /\ existsb (fun k => includes k (toLowerCase vegetarian_prawns))
             (map utf16 ["seafood"; "prawn"; "crab"; "lobster"]%string) = true
  /\ CompleteMenu.dietary (toLowerCase veg_lamb_combo)
     = ["vegetarian"; "non-vegetarian"]%string
  /\ existsb (fun k => includes k (toLowerCase veg_lamb_combo))
             (map utf16 ["beef"; "lamb"; "pork"]%string) = true.
Proof.
  split; [vm_compute; reflexivity|].
  split.
  { apply (proj1 (both_diets_only_for_some_meats vegetarian_prawns));
      vm_compute; auto. }
  split; [vm_compute; reflexivity|].
  apply (proj2 (both_diets_only_for_some_meats veg_lamb_combo));
    vm_compute; auto.
Defined.

(** *** Labels *)

(** The category of a text is one of the eleven labels of the chain and
    its spice level, when there is one, one of the four; the complete-menu
    callback never gives "extra-spicy". *)
Theorem labels_are_from_the_chains text :
  In (Unlimited.extractCategory text) (canonical_order ++ ["main"%string])
  /\ In (CompleteMenu.extractCategory text) (canonical_order ++ ["main"%string])
  /\ In (Unlimited.extractSpiceLevel text)
        [None; Some "mild"; Some "medium"; Some "spicy"; Some "extra-spicy"]%string
  /\ In (CompleteMenu.extractSpiceLevel text)
        [None; Some "mild"; Some "medium"; Some "spicy"]%string.
Proof.
  unfold Unlimited.extractCategory, Unlimited.classify,
    CompleteMenu.extractCategory, CompleteMenu.classify,
    Unlimited.extractSpiceLevel, Unlimited.spice,
    CompleteMenu.extractSpiceLevel, CompleteMenu.spice.
  repeat split;
    repeat match goal with
           | |- context [if test ?re ?s then _ else _] => destruct (test re s)
           end; simpl; tauto.
Qed.

(** *** Restaurant names *)

Lemma test_has_alternative ic r a s :
  In a (alternatives r) -> test_rx ic a s = true -> test_rx ic r s = true.
Proof.
  intros Hin Ha. rewrite test_rx_alternatives.
  apply existsb_exists. exists a. split; assumption.
Qed.

Lemma test_has_keyword re k s :
  existsb (fun a => match word_of a with
                    | Some w => word_eqb (plain k) w
                    | None => false
                    end) (alternatives (pattern re)) = true ->
  includes_ci (ignoreCase re) k s = true ->
  test re s = true.
Proof.
  intros Hex Hk. apply existsb_exists in Hex as [a [Hin Ha]].
  destruct (word_of a) as [w|] eqn:Ew; [|discriminate].
  unfold word_eqb in Ha. apply andb_true_iff in Ha as [Hle _].
  change (test re s) with (test_rx (ignoreCase re) (pattern re) s).
  apply (test_has_alternative _ _ a _ Hin).
  unfold test_rx. rewrite (exec_from_word _ a w Ew).
  apply (includes_word_le _ (plain k) w Hle).
  rewrite includes_word_plain. exact Hk.
Qed.

Lemma restaurant_clean_chars name0 :
  Forall (fun c => restaurant_name_char c = true)
    (trim (replace_all Unlimited.restaurantCleanSpaces (utf16 " ")
             (replace_all Unlimited.restaurantCleanChars (utf16 " ") name0))).
Proof.
  apply trim_Forall. unfold replace_all. apply replace_go_Forall.
  - change (utf16 " ") with [32]. repeat constructor.
  - change (pattern Unlimited.restaurantCleanChars)
      with (Class true [(97, 122); (65, 90); (48, 57); (92, 92); (115, 115);
                        (39, 39); (38, 38); (46, 46); (45, 45)]).
    change (ignoreCase Unlimited.restaurantCleanChars) with false.
    rewrite replace_class_chars.
    apply Forall_flat_map. intros x.
    destruct (in_ranges _ x) eqn:E.
    + constructor; [|constructor]. unfold restaurant_name_char.
      rewrite E. reflexivity.
    + change (utf16 " ") with [32]. repeat constructor.
Qed.

(** The name of a restaurant of [extractAllRestaurantsFromArea] has 4 to
    199 characters, all of them letters, digits, backslash, apostrophe,
    ampersand, full stop, hyphen or space, no white space at either end,
    and holds none of the words order, delivery, menu, restaurant, food,
    dining, cuisine, in any case. *)
Theorem restaurant_name_is_clean innerText name :
  Unlimited.restaurantNameOf innerText = Some name ->
  (4 <= length name <= 199)%nat
  /\ Forall (fun c => restaurant_name_char c = true) name
  /\ trim name = name
  /\ (forall w, In w refusedNameWords -> includes_ci true w name = false).
Proof.
  unfold Unlimited.restaurantNameOf. cbv zeta.
  destruct (_ || _)%nat; [discriminate|].
  destruct (_ && _); [|discriminate].
  set (name0 := match filter Unlimited.longLine _ with
                | [] => _ | first :: _ => _ end).
  set (name1 := trim (replace_all Unlimited.restaurantCleanSpaces (utf16 " ")
                        (replace_all Unlimited.restaurantCleanChars (utf16 " ")
                           name0))).
  destruct (((3 <? length name1)%nat && (length name1 <? 200)%nat)
            && negb (test Unlimited.notARestaurantName name1)) eqn:E;
    [|discriminate].
  intros H. inversion H; subst; clear H.
  apply andb_true_iff in E as [Elen Etest].
  apply andb_true_iff in Elen as [E1 E2].
  apply Nat.ltb_lt in E1, E2. apply negb_true_iff in Etest.
  split; [lia|].
  split; [apply restaurant_clean_chars|].
  split; [apply trim_idempotent|].
  intros w Hw.
  destruct (includes_ci true w name1) eqn:Ew; [|reflexivity].
  rewrite (test_has_keyword Unlimited.notARestaurantName w name1) in Etest;
    [discriminate | | exact Ew].
  simpl in Hw.
  repeat (destruct Hw as [<- | Hw]; [vm_compute; reflexivity|]).
  destruct Hw.
Qed.

Lemma restaurant_name_is_clean_witness :
  Unlimited.restaurantNameOf spice_garden_text = None
  /\ exists name,
       Unlimited.restaurantNameOf taj_mahal_hotel = Some name
       /\ (4 <= length name <= 199)%nat
       /\ Forall (fun c => restaurant_name_char c = true) name
       /\ trim name = name
       /\ (forall w, In w refusedNameWords -> includes_ci true w name = false).
Proof.
  split; [vm_compute; reflexivity|].
  destruct (Unlimited.restaurantNameOf taj_mahal_hotel) as [name|] eqn:E.
  - exists name. split; [reflexivity|].
    apply (restaurant_name_is_clean taj_mahal_hotel name E).
  - vm_compute in E. discriminate.
Defined.

(** *** Numbers *)

Lemma exec_captures_escaped re text m :
  groups_open_with backslash (pattern re) = true ->
  exec re text = Some m ->
  Forall (fun c => exists t, snd c = backslash :: t) (groups m).
Proof.
  intros Hg E. unfold exec in E.
  apply exec_from_state in E as [p' [s' [st [Hin Hm]]]].
  rewrite Hm.
  apply (ms_captures_escaped _ _ Hg _ _ Hin). constructor.
Qed.

Lemma parseInt_escaped t : parseInt (backslash :: t) = NaN.
Proof. reflexivity. Qed.

Lemma group_text_not_a_number re text m :
  groups_open_with backslash (pattern re) = true ->
  exec re text = Some m ->
  parseInt (Unlimited.group_text 1 m) = NaN.
Proof.
  intros Hg E. pose proof (exec_captures_escaped re text m Hg E) as Hc.
  unfold Unlimited.group_text, group.
  destruct (find (fun c => Nat.eqb (fst c) 1) (groups m)) as [[n g]|] eqn:F.
  - apply find_some in F as [Fin _]. rewrite Forall_forall in Hc.
    destruct (Hc (n, g) Fin) as [t Ht]. simpl in Ht. subst g.
    simpl option_map. cbv iota. apply parseInt_escaped.
  - vm_compute. reflexivity.
Qed.

(** Whatever the text, the price and the calories of a menu item are absent
    or not a number: the patterns that should capture digits capture a
    backslash and letters [d]. *)
Theorem numbers_are_never_read text :
  (Unlimited.extractPrice text = None \/ Unlimited.extractPrice text = Some NaN)
  /\ (Unlimited.extractCalories text = None
      \/ Unlimited.extractCalories text = Some NaN)
  /\ (CompleteMenu.extractPrice text = None
      \/ CompleteMenu.extractPrice text = Some NaN).
Proof.
  destruct (price_never_a_number text) as [H1 H2].
  split; [exact H1|]. split; [|exact H2].
  unfold Unlimited.extractCalories.
  destruct (exec Unlimited.caloriesPattern text) as [m|] eqn:E;
    [|left; reflexivity].
  right. f_equal.
  apply (group_text_not_a_number Unlimited.caloriesPattern text m);
    [vm_compute; reflexivity | exact E].
Qed.

(** *** Prices and duplicates *)

Lemma menuItemOf_complete_price e r :
  CompleteMenu.menuItemOf e = Some r ->
  CompleteMenu.price r = None \/ CompleteMenu.price r = Some NaN.
Proof.
  unfold CompleteMenu.menuItemOf. cbv zeta.
  destruct (_ || _)%nat; [discriminate|].
  destruct (_ || _); [|discriminate].
  destruct (negb _); [|discriminate].
  destruct (_ && _)%nat; [|discriminate].
  intros H. inversion H; subst; clear H. simpl.
  apply (proj2 (price_never_a_number (trim e))).
Qed.

Lemma menuItems_complete_prices elements :
  Forall (fun r => CompleteMenu.price r = None \/ CompleteMenu.price r = Some NaN)
         (CompleteMenu.menuItems elements).
Proof.
  induction elements as [|e rest IH]; simpl; [constructor|].
  destruct (CompleteMenu.menuItemOf e) as [r|] eqn:E; [|exact IH].
  constructor; [apply (menuItemOf_complete_price e r E) | exact IH].
Qed.

Lemma NaN_is_no_duplicate existing item :
  CompleteMenu.price item = Some NaN ->
  CompleteMenu.exactDuplicate existing item = false.
Proof.
  intros H. unfold CompleteMenu.exactDuplicate. rewrite H.
  destruct (CompleteMenu.price existing) as [[| |]|]; simpl;
    apply andb_false_r.
Qed.

Lemma fresh_when_never_duplicate {A : Type} (duplicate : A -> A -> bool) l :
  (forall x, In x l -> forall e, duplicate e x = false) ->
  forall before, fresh_from duplicate before l = true.
Proof.
  induction l as [|x l IH]; intros H before; simpl; [reflexivity|].
  rewrite IH by (intros y Hy; apply H; right; exact Hy).
  replace (existsb (fun existing => duplicate existing x) before) with false;
    [reflexivity|].
  symmetry. clear IH. induction before as [|b before IHb]; simpl; [reflexivity|].
  rewrite (H x (or_introl eq_refl) b). exact IHb.
Qed.

(** In [extractAllMenuItems] an item whose price pattern matched has the
    price NaN, which is equal to no price: such an item is a duplicate of
    nothing.  Two items of the page are duplicates only when both are
    without price, and when every item of a page has a price nothing is
    removed, identical fragments included. *)
Theorem matched_prices_defeat_dedup :
  (forall existing item,
      CompleteMenu.price item = Some NaN ->
      CompleteMenu.exactDuplicate existing item = false)
  /\ (forall e1 e2 a b,
         CompleteMenu.menuItemOf e1 = Some a ->
         CompleteMenu.menuItemOf e2 = Some b ->
         CompleteMenu.exactDuplicate a b = true ->
         CompleteMenu.price a = None /\ CompleteMenu.price b = None)
  /\ (forall elements,
         Forall (fun r => CompleteMenu.price r <> None)
                (CompleteMenu.menuItems elements) ->
         CompleteMenu.allMenuItems elements = CompleteMenu.menuItems elements).
Proof.
  split; [exact NaN_is_no_duplicate|].
  split.
  - intros e1 e2 a b Ha Hb Hdup.
    destruct (menuItemOf_complete_price e2 b Hb) as [Hpb | Hpb].
    + split; [|exact Hpb].
      unfold CompleteMenu.exactDuplicate in Hdup. rewrite Hpb in Hdup.
      apply andb_true_iff in Hdup as [_ Hdup].
      destruct (CompleteMenu.price a); [discriminate | reflexivity].
    + rewrite (NaN_is_no_duplicate a b Hpb) in Hdup. discriminate.
  - intros elements Hall.
    unfold CompleteMenu.allMenuItems, CompleteMenu.uniqueMenuItems.
    rewrite dedup_survivors. apply fresh_survivors.
    apply fresh_when_never_duplicate.
    intros x Hx e. apply NaN_is_no_duplicate.
    pose proof (menuItems_complete_prices elements) as Hp.
    rewrite Forall_forall in Hp, Hall.
    destruct (Hp x Hx) as [Hn | Hn]; [|exact Hn].
    exfalso. apply (Hall x Hx Hn).
Qed.

Lemma matched_prices_defeat_dedup_witness :
  exists r,
    CompleteMenu.menuItemOf paneer_roll_escaped = Some r
    /\ CompleteMenu.price r = Some NaN
    /\ CompleteMenu.exactDuplicate r r = false
    /\ CompleteMenu.allMenuItems [paneer_roll_escaped; paneer_roll_escaped]
       = [r; r].
Proof.
  destruct (CompleteMenu.menuItemOf paneer_roll_escaped) as [r|] eqn:E;
    [|vm_compute in E; discriminate].
  assert (Hp : CompleteMenu.price r = Some NaN).
  { vm_compute in E. inversion E. reflexivity. }
  exists r. split; [reflexivity|]. split; [exact Hp|].
  split; [apply (proj1 matched_prices_defeat_dedup r r Hp)|].
  assert (Hitems : CompleteMenu.menuItems [paneer_roll_escaped; paneer_roll_escaped]
                   = [r; r]).
  { cbn [CompleteMenu.menuItems]. rewrite E. reflexivity. }
  rewrite (proj2 (proj2 matched_prices_defeat_dedup)
             [paneer_roll_escaped; paneer_roll_escaped]).
  - exact Hitems.
  - rewrite Hitems. repeat constructor; rewrite Hp; discriminate.
Defined.

(* ===================================================================== *)
(** ** Generated menus *)
(* ===================================================================== *)

Lemma scraped_cuisine_is_safe c :
  In c Generated.scrapedCuisines ->
  Generated.menuTemplates (toLowerCase c) <> Generated.Inherited.
Proof.
  intros Hin. unfold Generated.scrapedCuisines in Hin. simpl in Hin.
  repeat (destruct Hin as [<- | Hin]; [vm_compute; discriminate|]).
  destruct Hin.
Qed.

Lemma find_template_scraped cuisines :
  Forall (fun c => In c Generated.scrapedCuisines) cuisines ->
  Generated.find_template cuisines = Generated.Undefined
  \/ exists t, Generated.find_template cuisines = Generated.Own t
               /\ In t [Generated.indian; Generated.chinese; Generated.arabic;
                        Generated.italian; Generated.fast_food].
Proof.
  induction 1 as [|c cuisines Hc _ IH]; simpl; [left; reflexivity|].
  pose proof (scraped_cuisine_is_safe c Hc) as Hsafe.
  unfold Generated.menuTemplates in *.
  repeat match goal with
         | |- context [if ?b then _ else _] => destruct b
         end; try exact IH; try (exfalso; apply Hsafe; reflexivity);
    right; eexists; (split; [reflexivity|]); simpl; tauto.
Qed.

(** For a restaurant whose cuisine types are among those the scraper can
    find, [generateMenuItems] does not throw and gives three to five
    items, all available. *)
Theorem generated_menu_for_scraped_restaurant restaurant :
  Forall (fun c => In c Generated.scrapedCuisines)
         (Comprehensive.cuisine_types restaurant) ->
  exists items,
    Generated.generateMenuItems restaurant = Some items
    /\ (3 <= length items <= 5)%nat
    /\ Forall (fun i => Generated.is_available i = true) items.
Proof.
  intros H. unfold Generated.generateMenuItems.
  assert (Havail : forall ts,
             Forall (fun i => Generated.is_available i = true)
                    (map (Generated.item_of restaurant) ts)).
  { induction ts; simpl; constructor; auto. }
  destruct (find_template_scraped _ H) as [-> | [t [-> Ht]]].
  - eexists. split; [reflexivity|]. split; [simpl; lia | apply Havail].
  - eexists. split; [reflexivity|]. split; [|apply Havail].
    rewrite length_map. simpl in Ht.
    repeat (destruct Ht as [<- | Ht]; [simpl; lia|]). destruct Ht.
Qed.

Lemma generated_menu_for_scraped_restaurant_witness :
  exists items,
    Generated.generateMenuItems pizza_then_chinese = Some items
    /\ map Generated.name items
       = map utf16 ["Sweet & Sour Chicken"; "Chicken Fried Rice";
                    "Spring Rolls (4pcs)"; "Hot & Sour Soup"]%string
    /\ (3 <= length items <= 5)%nat.
Proof.
  destruct (generated_menu_for_scraped_restaurant pizza_then_chinese)
    as [items [Hgen [Hlen _]]].
  - unfold pizza_then_chinese, with_cuisines.
    cbn [Comprehensive.cuisine_types map].
    repeat (constructor; [apply In_by_eqb; vm_compute; reflexivity|]).
    constructor.
  - exists items. split; [exact Hgen|]. split; [|exact Hlen].
    vm_compute in Hgen. inversion Hgen. vm_compute. reflexivity.
Defined.




Lemma all_templates_storable :
  forallb Generated.storable Generated.allTemplates = true.
Proof. vm_compute. reflexivity. Qed.

Lemma generated_from_a_template restaurant items i :
  Generated.generateMenuItems restaurant = Some items ->
  In i items ->
  exists t, In t Generated.allTemplates /\ i = Generated.item_of restaurant t.
Proof.
  unfold Generated.generateMenuItems. intros Hgen Hi.
  assert (own : forall cuisines t,
             Generated.find_template cuisines = Generated.Own t ->
             incl t Generated.allTemplates).
  { induction cuisines as [|c cuisines IH]; simpl; [discriminate|].
    intros t. unfold Generated.menuTemplates, Generated.allTemplates.
    repeat match goal with
           | |- context [if ?b then _ else _] => destruct b
           end; try apply IH; intros H; inversion H; subst;
      intros x Hx; repeat rewrite in_app_iff; tauto. }
  destruct (Generated.find_template (Comprehensive.cuisine_types restaurant))
    as [|t|] eqn:E; [| |discriminate]; injection Hgen as <-.
  - apply (in_map_iff (Generated.item_of restaurant) Generated.defaultMenu i)
      in Hi as [t0 [<- Ht0]].
    exists t0. split; [|reflexivity].
    unfold Generated.allTemplates. repeat rewrite in_app_iff. tauto.
  - apply (in_map_iff (Generated.item_of restaurant) t i)
      in Hi as [t0 [<- Ht0]].
    exists t0. split; [|reflexivity].
    apply (own _ _ E). exact Ht0.
Qed.

(** What [saveMenuItem] stores for a generated item is the item itself:
    the name whole, the category and the cuisine of the template, the
    price of the template (never NULL), a description of at most 500
    characters, and availability true. *)
Theorem generated_items_are_stored_whole restaurant items i restaurantId :
  Generated.generateMenuItems restaurant = Some items ->
  In i items ->
  let row := Generated.saveMenuItem_row i restaurantId in
  Generated.row_name row = Generated.name i
  /\ Generated.row_category row = Generated.category i
  /\ Generated.row_price row = Generated.Number (Generated.price i)
  /\ Generated.row_cuisine_type row
     = Generated.Text (utf16 (Generated.cuisine_type i))
  /\ (exists d, Generated.row_description row = Generated.Text d
                /\ (length d <= 500)%nat)
  /\ Generated.row_is_available row = true.
Proof.
  intros Hgen Hi.
  destruct (generated_from_a_template restaurant items i Hgen Hi) as [t [Ht ->]].
  pose proof all_templates_storable as Hall. rewrite forallb_forall in Hall.
  specialize (Hall t Ht). unfold Generated.storable in Hall.
  apply andb_true_iff in Hall as [Hall Hprice].
  apply andb_true_iff in Hall as [Hall Hcuisine].
  apply andb_true_iff in Hall as [Hname Hcat].
  apply negb_true_iff in Hcat, Hcuisine. apply Nat.leb_le in Hname.
  unfold Generated.saveMenuItem_row, Generated.item_of. simpl.
  rewrite Hcat, Hcuisine.
  change (Generated.truthy_num (Num (Generated.t_price t)))
    with (negb (Qeq_bool (Generated.t_price t) 0)).
  change (Generated.truthy_num (Num (Generated.t_price t)))
    with (negb (Qeq_bool (Generated.t_price t) 0)) in Hprice.
  rewrite Hprice.
  split.
  { unfold substring. simpl skipn. rewrite Nat.sub_0_r.
    apply firstn_all2. exact Hname. }
  split; [reflexivity|]. split; [reflexivity|]. split; [reflexivity|].
  split; [|reflexivity].
  eexists. split; [reflexivity|].
  unfold substring. rewrite length_firstn. lia.
Qed.

Lemma generated_items_are_stored_whole_witness :
  exists items i,
    Generated.generateMenuItems pizza_then_chinese = Some items
    /\ In i items
    /\ Generated.row_price (Generated.saveMenuItem_row i 7)
       = Generated.Number (Num (1599 # 100))
    /\ Generated.row_category (Generated.saveMenuItem_row i 7) = "main"%string.
Proof.
  destruct (Generated.generateMenuItems pizza_then_chinese) as [items|] eqn:E;
    [|vm_compute in E; discriminate].
  assert (Hi : In (Generated.item_of pizza_then_chinese
                     (hd (Generated.Build_Template "" "" 0 "") Generated.chinese))
                  items).
  { vm_compute in E. inversion E. left. vm_compute. reflexivity. }
  eexists items, _. split; [reflexivity|]. split; [exact Hi|].
  destruct (generated_items_are_stored_whole pizza_then_chinese items _ 7 E Hi)
    as [_ [Hc [Hp _]]].
  split; [rewrite Hp | rewrite Hc]; vm_compute; reflexivity.
Defined.

(* ===================================================================== *)
(** ** What reaches the database *)
(* ===================================================================== *)







(* ===================================================================== *)
(** ** The restaurants of an area *)
(* ===================================================================== *)

Section DedupTwice.
Variable A : Type.
Variable duplicate : A -> A -> bool.
Hypothesis duplicate_trans : forall a b c,
  duplicate a b = true -> duplicate b c = true -> duplicate a c = true.

Lemma seen_app before after x :
  seen duplicate (before ++ after) x
  = seen duplicate before x || seen duplicate after x.
Proof. apply existsb_app. Qed.

Lemma survivors_cons before y l :
  survivors duplicate before (y :: l)
  = if seen duplicate before y then survivors duplicate before l
    else y :: survivors duplicate (before ++ [y]) l.
Proof. reflexivity. Qed.

Lemma survivors_ext (l : list A) :
  forall before before',
    (forall x, seen duplicate before x = seen duplicate before' x) ->
    survivors duplicate before l = survivors duplicate before' l.
Proof.
  induction l as [|y l IH]; intros before before' H; [reflexivity|].
  rewrite !survivors_cons, (H y).
  destruct (seen duplicate before' y); [apply IH, H|].
  f_equal. apply IH. intros x. rewrite !seen_app, (H x). reflexivity.
Qed.

Lemma survivors_app (l1 l2 : list A) :
  forall before,
    survivors duplicate before (l1 ++ l2)
    = survivors duplicate before l1
      ++ survivors duplicate (before ++ survivors duplicate before l1) l2.
Proof.
  induction l1 as [|y l1 IH]; intros before.
  - simpl. rewrite app_nil_r. reflexivity.
  - rewrite <- app_comm_cons, !survivors_cons.
    destruct (seen duplicate before y); [apply IH|].
    rewrite IH, <- app_comm_cons, <- app_assoc. reflexivity.
Qed.

Lemma seen_trans before y x :
  seen duplicate before y = true -> duplicate y x = true ->
  seen duplicate before x = true.
Proof.
  unfold seen. intros Hy Hx.
  apply existsb_exists in Hy as [e [He Hey]].
  apply existsb_exists. exists e. split; [exact He|].
  apply (duplicate_trans e y x Hey Hx).
Qed.

Lemma seen_one y x : seen duplicate [y] x = duplicate y x.
Proof. unfold seen. simpl. apply orb_false_r. Qed.

Lemma seen_survivors (l : list A) :
  forall before x,
    seen duplicate (before ++ survivors duplicate before l) x
    = seen duplicate (before ++ l) x.
Proof.
  induction l as [|y l IH]; intros before x; [reflexivity|].
  rewrite survivors_cons.
  destruct (seen duplicate before y) eqn:Ey.
  - rewrite IH.
    change (y :: l) with ([y] ++ l). rewrite !seen_app, seen_one.
    destruct (duplicate y x) eqn:Eyx; [|reflexivity].
    rewrite (seen_trans before y x Ey Eyx). reflexivity.
  - replace (before ++ y :: survivors duplicate (before ++ [y]) l)
      with ((before ++ [y]) ++ survivors duplicate (before ++ [y]) l)
      by (rewrite <- app_assoc; reflexivity).
    rewrite IH, <- app_assoc. reflexivity.
Qed.

Lemma survivors_absorb (l : list A) :
  forall inner before,
    (forall x, seen duplicate inner x = true -> seen duplicate before x = true) ->
    survivors duplicate before (survivors duplicate inner l)
    = survivors duplicate before l.
Proof.
  induction l as [|y l IH]; intros inner before H; [reflexivity|].
  rewrite !survivors_cons.
  destruct (seen duplicate inner y) eqn:Ei.
  - rewrite (H y Ei). apply IH, H.
  - rewrite survivors_cons. destruct (seen duplicate before y) eqn:Eb.
    + apply IH. intros x. rewrite seen_app, seen_one. intros Hx.
      apply orb_true_iff in Hx as [Hx | Hx]; [apply H, Hx|].
      apply (seen_trans before y x Eb Hx).
    + f_equal. apply IH. intros x. rewrite !seen_app.
      intros Hx. apply orb_true_iff in Hx as [Hx | Hx].
      * rewrite (H x Hx). reflexivity.
      * rewrite Hx. apply orb_true_r.
Qed.

Lemma survivors_pages (pages : list (list A)) :
  forall before,
    survivors duplicate before (flat_map (dedup duplicate) pages)
    = survivors duplicate before (concat pages).
Proof.
  induction pages as [|p pages IH]; intros before; simpl; [reflexivity|].
  rewrite !survivors_app, dedup_survivors.
  rewrite (survivors_absorb p [] before) by (intros x Hx; discriminate).
  rewrite IH. reflexivity.
Qed.

Lemma dedup_pages (pages : list (list A)) :
  dedup duplicate (dedup duplicate (flat_map (dedup duplicate) pages))
  = dedup duplicate (concat pages)
  /\ dedup duplicate (flat_map (dedup duplicate) pages)
     = dedup duplicate (concat pages).
Proof.
  rewrite dedup_idempotent, !dedup_survivors. split; apply survivors_pages.
Qed.

Hypothesis duplicate_refl : forall a, duplicate a a = true.

Lemma dedup_represents (l : list A) x :
  In x l -> exists k, In k (dedup duplicate l) /\ duplicate k x = true.
Proof.
  intros Hx. rewrite dedup_survivors.
  pose proof (seen_survivors l [] x) as H. simpl in H.
  assert (Hs : seen duplicate l x = true).
  { apply existsb_exists. exists x. split; [exact Hx | apply duplicate_refl]. }
  rewrite Hs in H. apply existsb_exists in H as [k [Hk Hkx]].
  exists k. split; assumption.
Qed.

End DedupTwice.

Section DedupKeys.
Variables A K : Type.
Variable duplicate : A -> A -> bool.
Variable key : A -> K.
Hypothesis duplicate_key : forall a b, duplicate a b = true <-> key a = key b.

Lemma fresh_keys (l : list A) :
  forall before,
    fresh_from duplicate before l = true ->
    NoDup (map key l)
    /\ forall x, In x l -> ~ In (key x) (map key before).
Proof.
  induction l as [|y l IH]; intros before H; simpl in *.
  - split; [constructor | intros x []].
  - apply andb_true_iff in H as [Hy Hl]. apply negb_true_iff in Hy.
    destruct (IH _ Hl) as [Hnd Hout].
    assert (Hyb : ~ In (key y) (map key before)).
    { intros Hin. apply in_map_iff in Hin as [e [Hk He]].
      assert (existsb (fun existing => duplicate existing y) before = true)
        as Ht; [|rewrite Ht in Hy; discriminate].
      apply existsb_exists. exists e. split; [exact He|].
      apply duplicate_key, Hk. }
    split.
    + constructor; [|exact Hnd].
      intros Hin. apply in_map_iff in Hin as [x [Hk Hx]].
      apply (Hout x Hx). rewrite map_app, in_app_iff. right.
      simpl. left. symmetry. exact Hk.
    + intros x [<- | Hx]; [exact Hyb|].
      intros Hin. apply (Hout x Hx). rewrite map_app, in_app_iff.
      left. exact Hin.
Qed.

Lemma dedup_keys_NoDup (l : list A) : NoDup (map key (dedup duplicate l)).
Proof.
  rewrite dedup_survivors.
  apply (fresh_keys (survivors duplicate [] l) []), survivors_fresh.
Qed.

End DedupKeys.

Lemma jsstring_eqb_eq a b : jsstring_eqb a b = true <-> a = b.
Proof.
  unfold jsstring_eqb. destruct (list_eq_dec Z.eq_dec a b) as [E | E].
  - split; [intros _; exact E | reflexivity].
  - split; [discriminate | intros H; destruct (E H)].
Qed.

Lemma exactDuplicate_key a b :
  Area.exactDuplicate a b = true <-> lower_key a = lower_key b.
Proof. apply jsstring_eqb_eq. Qed.

(** The names of an area are made unique twice, inside the page callback
    for each url and once more across the urls.  The result is the one of
    a single pass over everything the urls gave: the lowered names of the
    restaurants kept are pairwise different, the restaurants kept stand in
    the order in which they were found, and every restaurant found on
    some url is kept or has the lowered name of one that is. *)
Theorem area_restaurants_are_unique (pages : list (list Area.Restaurant)) :
  Area.finalRestaurants pages = dedup Area.exactDuplicate (concat pages)
  /\ NoDup (map lower_key (Area.finalRestaurants pages))
  /\ Subseq (Area.finalRestaurants pages) (concat pages)
  /\ (forall page r,
         In page pages -> In r page ->
         exists kept,
           In kept (Area.finalRestaurants pages)
           /\ lower_key kept = lower_key r).
Proof.
  assert (Htrans : forall a b c,
             Area.exactDuplicate a b = true ->
             Area.exactDuplicate b c = true ->
             Area.exactDuplicate a c = true).
  { intros a b c Hab Hbc. apply exactDuplicate_key.
    apply exactDuplicate_key in Hab, Hbc. congruence. }
  assert (Heq : Area.finalRestaurants pages
                = dedup Area.exactDuplicate (concat pages)).
  { unfold Area.finalRestaurants, Area.allRestaurants, Area.unique.
    apply (dedup_pages Area.Restaurant Area.exactDuplicate Htrans pages). }
  split; [exact Heq|]. rewrite Heq.
  split; [apply (dedup_keys_NoDup Area.Restaurant jsstring
                   Area.exactDuplicate lower_key exactDuplicate_key)|].
  split; [apply dedup_subseq|].
  intros page r Hpage Hr.
  destruct (dedup_represents Area.Restaurant Area.exactDuplicate Htrans
              (fun a => proj2 (exactDuplicate_key a a) eq_refl)
              (concat pages) r) as [k [Hk Hkr]].
  - apply in_concat. exists page. split; assumption.
  - exists k. split; [exact Hk | apply exactDuplicate_key, Hkr].
Qed.

Lemma area_restaurants_are_unique_witness :
  Area.finalRestaurants two_urls = [taj_mahal; leopold_cafe]
  /\ exists kept,
       In kept (Area.finalRestaurants two_urls)
       /\ lower_key kept = lower_key taj_mahal_shouting.
Proof.
  split; [vm_compute; reflexivity|].
  apply (proj2 (proj2 (proj2 (area_restaurants_are_unique two_urls)))
           [taj_mahal_shouting; leopold_cafe] taj_mahal_shouting).
  - simpl. right. left. reflexivity.
  - simpl. left. reflexivity.
Defined.

(** *** The platform id of a restaurant *)

Lemma slug_of_name name :
  Forall (fun c => restaurant_name_char c = true) name ->
  replace_all Area.slugChars (utf16 "_") (toLowerCase name)
  = map slug_unit name.
Proof.
  intros H. unfold replace_all.
  change (pattern Area.slugChars) with (Class true [(97, 122); (48, 57)]).
  change (ignoreCase Area.slugChars) with false.
  rewrite replace_class_chars. change (utf16 "_") with [95].
  unfold toLowerCase.
  induction H as [|c name Hc Hname IH]; [reflexivity|].
  cbn [flat_map map]. rewrite flat_map_app, IH. f_equal.
  clear IH Hname. unfold restaurant_name_char, in_ranges in Hc.
  unfold lower_unit, slug_unit, in_ranges. cbn [existsb fst snd] in *.
  repeat match goal with
         | |- context [?a <=? ?b] => destruct (Z.leb_spec a b)
         | |- context [?a =? ?b] => destruct (Z.eqb_spec a b)
         end; cbn; try reflexivity; try lia;
  repeat match goal with
         | |- context [?a <=? ?b] => destruct (Z.leb_spec a b)
         | |- context [?a =? ?b] => destruct (Z.eqb_spec a b)
         end; cbn; try reflexivity; try lia;
  exfalso;
  repeat match type of Hc with
         | context [?a <=? ?b] => destruct (Z.leb_spec a b); try lia
         | context [?a =? ?b] => destruct (Z.eqb_spec a b); try lia
         end; cbn in Hc; try discriminate.
Qed.

Lemma slug_unit_char c : slug_char (slug_unit c) = true.
Proof.
  unfold slug_unit, slug_char.
  destruct ((65 <=? c) && (c <=? 90)) eqn:E1.
  - apply andb_true_iff in E1 as [Ha Hb]. apply Z.leb_le in Ha, Hb.
    replace (97 <=? c + 32) with true by (symmetry; apply Z.leb_le; lia).
    replace (c + 32 <=? 122) with true by (symmetry; apply Z.leb_le; lia).
    reflexivity.
  - destruct (((97 <=? c) && (c <=? 122)) || ((48 <=? c) && (c <=? 57)))
      eqn:E2.
    + rewrite E2. reflexivity.
    + reflexivity.
Qed.

(** The platform id [saveRestaurant] stores for a restaurant of
    [extractAllRestaurantsFromArea] is "Zomato_" (the platform of the
    record, never the lower-case fallback) followed by as many characters
    as the name has, fifty at most, each a lower-case letter, a digit or
    an underscore. *)
Theorem platform_id_of_a_restaurant innerText r :
  Unlimited.restaurantNameOf innerText = Some (Area.name r) ->
  Area.platform r = utf16 "Zomato" ->
  exists slug,
    Area.platform_id r = utf16 "Zomato_" ++ slug
    /\ length slug = Nat.min 50 (length (Area.name r))
    /\ Forall (fun c => slug_char c = true) slug.
Proof.
  intros Hname Hplatform.
  destruct (restaurant_name_is_clean innerText (Area.name r) Hname)
    as [_ [Hchars _]].
  exists (firstn 50 (map slug_unit (Area.name r))).
  split; [|split].
  - unfold Area.platform_id. rewrite Hplatform, (slug_of_name _ Hchars).
    reflexivity.
  - rewrite length_firstn, length_map. reflexivity.
  - rewrite firstn_map. apply Forall_map, Forall_forall.
    intros c _. apply slug_unit_char.
Qed.

Lemma platform_id_of_a_restaurant_witness :
  exists slug,
    Area.platform_id taj_mahal = utf16 "Zomato_" ++ slug
    /\ length slug = Nat.min 50 (length (Area.name taj_mahal))
    /\ Forall (fun c => slug_char c = true) slug.
Proof.
  apply (platform_id_of_a_restaurant taj_mahal_text taj_mahal);
    vm_compute; reflexivity.
Defined.

(* ===================================================================== *)
(** ** What [scrapePlatform] returns *)
(* ===================================================================== *)

Lemma Subseq_trans {A : Type} (l1 l2 l3 : list A) :
  Subseq l1 l2 -> Subseq l2 l3 -> Subseq l1 l3.
Proof.
  intros H12 H23. revert l1 H12.
  induction H23 as [|x l2 l3 H IH|x l2 l3 H IH]; intros l1 H12.
  - exact H12.
  - apply Subseq_skip, IH, H12.
  - inversion H12; subst.
    + apply Subseq_skip, IH. assumption.
    + apply Subseq_keep, IH. assumption.
Qed.

Lemma Subseq_firstn {A : Type} (n : nat) (l : list A) : Subseq (firstn n l) l.
Proof.
  revert l. induction n as [|n IH]; intros l; [apply Subseq_nil_l|].
  destruct l as [|x l]; [constructor|]. simpl. apply Subseq_keep, IH.
Qed.

Lemma fresh_app {A : Type} (duplicate : A -> A -> bool) (l1 : list A) :
  forall before l2,
    fresh_from duplicate before (l1 ++ l2) = true ->
    fresh_from duplicate (before ++ l1) l2 = true.
Proof.
  induction l1 as [|x l1 IH]; intros before l2 H; simpl in *.
  - rewrite app_nil_r. exact H.
  - apply andb_true_iff in H as [_ H].
    replace (before ++ x :: l1) with ((before ++ [x]) ++ l1)
      by (rewrite <- app_assoc; reflexivity).
    apply IH, H.
Qed.

Lemma fresh_pairwise {A : Type} (duplicate : A -> A -> bool) (l : list A) :
  fresh_from duplicate [] l = true ->
  forall l1 a l2 b l3,
    l = l1 ++ a :: l2 ++ b :: l3 -> duplicate a b = false.
Proof.
  intros H l1 a l2 b l3 ->.
  apply fresh_app in H. simpl in H.
  apply andb_true_iff in H as [_ H].
  apply fresh_app in H. simpl in H.
  apply andb_true_iff in H as [H _]. apply negb_true_iff in H.
  destruct (duplicate a b) eqn:E; [|reflexivity].
  rewrite <- H. symmetry. apply existsb_exists. exists a.
  split; [|exact E].
  apply in_app_iff. left. apply in_app_iff. right. left. reflexivity.
Qed.

Lemma jsstring_eqb_sym a b : jsstring_eqb a b = jsstring_eqb b a.
Proof.
  destruct (jsstring_eqb a b) eqn:E.
  - apply jsstring_eqb_eq in E. symmetry. apply jsstring_eqb_eq. congruence.
  - destruct (jsstring_eqb b a) eqn:E'; [|reflexivity].
    apply jsstring_eqb_eq in E'. symmetry in E'.
    apply jsstring_eqb_eq in E'. congruence.
Qed.

Lemma isDuplicate_sym a b :
  Comprehensive.isDuplicate a b = Comprehensive.isDuplicate b a.
Proof.
  unfold Comprehensive.isDuplicate. cbv zeta.
  rewrite (jsstring_eqb_sym (toLowerCase (Comprehensive.name b))).
  f_equal.
  rewrite (andb_comm (8 <? length (toLowerCase (Comprehensive.name b)))%nat).
  f_equal. apply orb_comm.
Qed.

(** The page callback of [scrapePlatform] returns at most thirty
    restaurants, in the order in which they were found, and no two of
    them are duplicates of one another under its prefix test, whichever
    of the two is taken as the existing one. *)
Theorem scraped_restaurants_are_distinct
    (results : list Comprehensive.Restaurant) :
  (length (Comprehensive.scraped results) <= 30)%nat
  /\ Subseq (Comprehensive.scraped results) results
  /\ (forall before a between b after,
         Comprehensive.scraped results
         = before ++ a :: between ++ b :: after ->
         Comprehensive.isDuplicate a b = false
         /\ Comprehensive.isDuplicate b a = false).
Proof.
  split; [apply firstn_le_length|].
  split.
  - apply (Subseq_trans _ (Comprehensive.unique results)).
    + apply Subseq_firstn.
    + apply dedup_subseq.
  - intros before a between b after H.
    assert (Hab : Comprehensive.isDuplicate a b = false).
    { apply (fresh_pairwise Comprehensive.isDuplicate
               (Comprehensive.scraped results)) with before between after;
        [|exact H].
      unfold Comprehensive.scraped, Comprehensive.unique.
      apply fresh_firstn. rewrite dedup_survivors. apply survivors_fresh. }
    split; [exact Hab|]. rewrite isDuplicate_sym. exact Hab.
Qed.

Lemma scraped_restaurants_are_distinct_witness :
  Comprehensive.scraped [spice_garden; noodle_bar; spice_garden_again]
  = [] ++ spice_garden :: [] ++ noodle_bar :: []
  /\ Comprehensive.isDuplicate spice_garden noodle_bar = false
  /\ Comprehensive.isDuplicate noodle_bar spice_garden = false.
Proof.
  split; [vm_compute; reflexivity|].
  apply (proj2 (proj2 (scraped_restaurants_are_distinct
                         [spice_garden; noodle_bar; spice_garden_again]))
           [] spice_garden [] noodle_bar []).
  vm_compute. reflexivity.
Defined.
